(** * Button surfaces of [scripts/game_structure/ui_button.py]

    A shallow embedding of the procedural button renderer: the style
    resolver [_Style], the glyph library [_Symbol], the three palettes,
    the surface cache [ButtonCache], the widget facade [UIButton] with its
    [CatButton] state handlers, and the compositor [RectButton] /
    [SquareButton] behind [Button.new].

    Python values that the code inspects dynamically (the [rounded_corners]
    and [shadows] arguments, entries of [resources/styles.json]) are values
    of [PyVal]; exceptions are the [Raise] results of the [result] monad;
    pygame surfaces are pixel grids. *)

From Stdlib Require Import ZArith List String Ascii Bool Lia.
From stdpp Require Import base option list strings gmap.
Import ListNotations.

Local Open Scope string_scope.
Local Open Scope Z_scope.

(** ** Python values and exceptions *)

#[warnings="-register-all"]
Inductive PyVal : Type :=
| PyNone
| PyBool (b : bool)
| PyInt (z : Z)
| PyStr (s : string)
| PyList (l : list PyVal)
| PyTuple (l : list PyVal).

Inductive exn : Type :=
| ValueError (msg : string)
| TypeError
| IndexError
| pygame_error.

Inductive result (A : Type) : Type :=
| Ok (a : A)
| Raise (e : exn).

Arguments Ok {A} a.
Arguments Raise {A} e.

Definition bind {A B : Type} (m : result A) (k : A -> result B) : result B :=
  match m with
  | Ok a => k a
  | Raise e => Raise e
  end.

Notation "'let*' x ':=' m 'in' k" := (bind m (fun x => k))
  (at level 10, x pattern, m at level 100, k at level 200).

Definition seq_eq {A : Type} (eq : A -> A -> bool) : list A -> list A -> bool :=
  fix go (xs ys : list A) : bool :=
    match xs, ys with
    | [], [] => true
    | x :: xs', y :: ys' => eq x y && go xs' ys'
    | _, _ => false
    end.

(** [a == b] on the values above: [bool] is a subclass of [int], sequences
    compare element-wise, a list never equals a tuple. *)
Fixpoint py_eq (a b : PyVal) : bool :=
  match a, b with
  | PyNone, PyNone => true
  | PyBool x, PyBool y => Bool.eqb x y
  | PyBool x, PyInt y => Z.b2z x =? y
  | PyInt x, PyBool y => x =? Z.b2z y
  | PyInt x, PyInt y => x =? y
  | PyStr x, PyStr y => String.eqb x y
  | PyList xs, PyList ys => seq_eq py_eq xs ys
  | PyTuple xs, PyTuple ys => seq_eq py_eq xs ys
  | _, _ => false
  end.

(** Truth value of an object in a condition. *)
Definition py_truthy (v : PyVal) : bool :=
  match v with
  | PyNone => false
  | PyBool b => b
  | PyInt z => negb (z =? 0)
  | PyStr s => negb (String.eqb s "")
  | PyList l | PyTuple l => match l with [] => false | _ => true end
  end.

Definition isinstance_bool (v : PyVal) : bool :=
  match v with PyBool _ => true | _ => false end.

Definition isinstance_list (v : PyVal) : bool :=
  match v with PyList _ => true | _ => false end.

(** [len(v)]: a [TypeError] on objects without a length. *)
Definition py_len (v : PyVal) : result Z :=
  match v with
  | PyList l | PyTuple l => Ok (Z.of_nat (length l))
  | PyStr s => Ok (Z.of_nat (String.length s))
  | _ => Raise TypeError
  end.

(** [v[i]] for a literal index [i >= 0]. *)
Definition py_getitem (v : PyVal) (i : nat) : result PyVal :=
  match v with
  | PyList l | PyTuple l =>
      match l !! i with Some x => Ok x | None => Raise IndexError end
  | PyStr s =>
      match String.get i s with
      | Some c => Ok (PyStr (String c EmptyString))
      | None => Raise IndexError
      end
  | _ => Raise TypeError
  end.

(** [[b] * 4] *)
Definition py_list4 (v : PyVal) : PyVal := PyList [v; v; v; v].

(** [round(n / 2)] for an integer [n]: [n / 2] is a float, and [round]
    sends a half to the nearest even integer. *)
Definition py_round_half (n : Z) : Z :=
  let k := n / 2 in
  if Z.even n then k else if Z.even k then k else k + 1.

(** [int(n / 2)]: truncation towards zero. *)
Definition py_int_half (n : Z) : Z := Z.quot n 2.

(** [int(n / 2 + k)], the truncation pygame applies to a float coordinate. *)
Definition py_trunc_half_plus (n k : Z) : Z := Z.quot (n + 2 * k) 2.

(** ** pygame surfaces *)

Definition Color : Type := Z * Z * Z * Z.

Definition color_eqb (c d : Color) : bool :=
  let '(r1, g1, b1, a1) := c in
  let '(r2, g2, b2, a2) := d in
  (r1 =? r2) && (g1 =? g2) && (b1 =? b2) && (a1 =? a2).

Definition transparent : Color := (0, 0, 0, 0).
Definition opaque_black : Color := (0, 0, 0, 255).

Definition opaque (c : Color) : Color :=
  let '(r, g, b, _) := c in (r, g, b, 255).

(** A surface: its size, whether it has per-pixel alpha ([SRCALPHA]), and
    its rows of pixels from top to bottom. *)
Record Surface : Type := mkSurface {
  get_width : Z;
  get_height : Z;
  srcalpha : bool;
  pixels : list (list Color)
}.

Definition get_size (s : Surface) : Z * Z := (get_width s, get_height s).

Definition zrange (n : Z) : list Z := map Z.of_nat (seq 0 (Z.to_nat n)).

(** The [w] by [h] grid whose pixel at column [x], row [y] is [f x y]. *)
Definition raster (w h : Z) (f : Z -> Z -> Color) : list (list Color) :=
  map (fun y => map (fun x => f x y) (zrange w)) (zrange h).

Definition in_bounds (s : Surface) (x y : Z) : bool :=
  (0 <=? x) && (x <? get_width s) && (0 <=? y) && (y <? get_height s).

(** The pixel at column [x], row [y]; [transparent] outside the surface. *)
Definition get_at (s : Surface) (x y : Z) : Color :=
  if in_bounds s x y then
    match pixels s !! Z.to_nat y with
    | Some row => default transparent (row !! Z.to_nat x)
    | None => transparent
    end
  else transparent.

Definition repaint (s : Surface) (f : Z -> Z -> Color) : Surface :=
  mkSurface (get_width s) (get_height s) (srcalpha s)
            (raster (get_width s) (get_height s) f).

(** [pygame.Surface(size, flags)]: a negative dimension is refused; a new
    surface is transparent with [SRCALPHA] and black without. *)
Definition pygame_Surface (size : Z * Z) (alpha : bool) : result Surface :=
  let '(w, h) := size in
  if (w <? 0) || (h <? 0) then Raise pygame_error
  else Ok (mkSurface w h alpha
             (raster w h (fun _ _ => if alpha then transparent else opaque_black))).

Record Rect : Type := mkRect {
  rect_x : Z;
  rect_y : Z;
  rect_w : Z;
  rect_h : Z
}.

(** The pixels inside a rectangle. A rectangle whose width or height is
    zero or negative holds none: pygame does not normalise it. *)
Definition rect_covers (r : Rect) (x y : Z) : bool :=
  (rect_x r <=? x) && (x <? rect_x r + rect_w r)
  && (rect_y r <=? y) && (y <? rect_y r + rect_h r).

(** [pygame.draw.rect(surface, color, rect)]: a filled rectangle, clipped to
    the surface; the pixels are overwritten, not blended. Nothing is drawn
    for a rectangle without extent. *)
Definition draw_rect (s : Surface) (c : Color) (r : Rect) : Surface :=
  repaint s (fun x y =>
    if rect_covers r x y then (if srcalpha s then c else opaque c)
    else get_at s x y).

(** [surface.get_rect(center=(cx, cy))] *)
Definition get_rect_center (s : Surface) (cx cy : Z) : Rect :=
  mkRect (cx - Z.shiftr (get_width s) 1) (cy - Z.shiftr (get_height s) 1)
         (get_width s) (get_height s).

Definition rect_centerx (r : Rect) : Z := rect_x r + Z.shiftr (rect_w r) 1.
Definition rect_centery (r : Rect) : Z := rect_y r + Z.shiftr (rect_h r) 1.

(** [pygame.transform.flip(surface, flip_x, flip_y)] *)
Definition transform_flip (s : Surface) (flip_x flip_y : bool) : Surface :=
  repaint s (fun x y =>
    get_at s (if flip_x then get_width s - 1 - x else x)
             (if flip_y then get_height s - 1 - y else y)).

(** [pygame.transform.rotate(surface, 90)]: a quarter turn counterclockwise;
    the top row becomes the left column, read from the bottom up. A surface
    without width or without height is returned as it is, not turned. *)
Definition transform_rotate90 (s : Surface) : Surface :=
  if (get_width s <? 1) || (get_height s <? 1) then s
  else
    mkSurface (get_height s) (get_width s) (srcalpha s)
      (raster (get_height s) (get_width s)
         (fun x y => get_at s (get_width s - 1 - y) x)).

(** [PixelArray(surface).replace(color, repcolor)] with distance 0: every
    pixel equal to [color] becomes [repcolor]; the others are kept. *)
Definition PixelArray_replace (s : Surface) (color repcolor : Color) : Surface :=
  mkSurface (get_width s) (get_height s) (srcalpha s)
    (map (map (fun c => if color_eqb c color then repcolor else c)) (pixels s)).

(** What the renderer takes from pygame and the resource files without
    looking inside: the blend of a source pixel over a destination pixel,
    the rasterisation [FONT.render(text, False, COLOR)], the decoded image
    files, the resampling of [pygame.transform.scale], and [i18n.t]. *)
Class Libraries : Type := {
  blend : Color -> Color -> Color;
  FONT_render : string -> Surface;
  image_load : string -> result Surface;
  transform_scale : Surface -> Z * Z -> Surface;
  i18n_t : string -> string -> string
}.

Section Blit.
Context `{Libraries}.

(** [dest.blit(source, (x0, y0))]: the source is clipped to the
    destination; a source with per-pixel alpha is blended over the
    destination, one without is copied opaque. *)
Definition blit (dest source : Surface) (pos : Z * Z) : Surface :=
  let '(x0, y0) := pos in
  repaint dest (fun x y =>
    if (x0 <=? x) && (x <? x0 + get_width source) &&
       (y0 <=? y) && (y <? y0 + get_height source)
    then
      if srcalpha source then blend (get_at source (x - x0) (y - y0)) (get_at dest x y)
      else opaque (get_at source (x - x0) (y - y0))
    else get_at dest x y).
End Blit.

(** ** [_Language]: the label of a button without literal text *)

Module _Language.

Definition dict_global : gmap string string :=
  list_to_map
    [ ("#cat_tab_3_blank_button", "");
      ("#cat_tab_4_blank_button", "");
      ("#random_dice_button", "{DICE}");
      ("#paw_patrol_button", "{PATROL_PAW}");
      ("#claws_patrol_button", "{PATROL_CLAW}");
      ("#mouse_patrol_button", "{PATROL_MOUSE}");
      ("#herb_patrol_button", "{PATROL_HERB}");
      ("#patrol_last_page", "{ARROW_LEFT_SHORT}");
      ("#patrol_next_page", "{ARROW_RIGHT_SHORT}");
      ("#arrow_right_button", "{ARROW_RIGHT_SHORT}");
      ("#arrow_left_button", "{ARROW_LEFT_SHORT}") ].

Section Check.
Context `{Libraries}.
(** The class attribute [_Language.LANGUAGE]. *)
Variable LANGUAGE : string.

Definition check (object_id : option string) : string :=
  match object_id with
  | None => ""
  | Some object_id =>
      let search_term := String.append "buttons." object_id in
      let translated := i18n_t search_term LANGUAGE in
      if negb (String.eqb translated search_term) then translated
      else
        match dict_global !! object_id with
        | Some search => search
        | None =>
            if String.eqb LANGUAGE "en-us" then ""
            else i18n_t search_term "en-us"
        end
  end.
End Check.

End _Language.

(** ** [_Symbol]: the glyph library *)

(** The module constant [COLOR], as [pygame.Color(COLOR)]. *)
Definition COLOR : Color := (239, 229, 0, 255).

Module _Symbol.

Definition _color : Color := COLOR.

Section Load.
Context `{Libraries}.

Definition load (image_path : string) : result Surface :=
  let* surface := image_load image_path in
  Ok (PixelArray_replace surface (0, 0, 0, 255) _color).

Definition generate_surface (size : Z * Z) : result Surface :=
  pygame_Surface size false.

(** [_Symbol.__init__()], from the dictionary [_custom] it writes to. *)
Definition __init__ (_custom : gmap string Surface) : result (gmap string Surface) :=
  let* dice := load "resources/images/symbols/random_dice.png" in
  let _custom := <["{DICE}" := dice]> _custom in
  let* arrow_l := load "resources/images/symbols/arrow_short.png" in
  let _custom := <["{ARROW_LEFT_SHORT}" := arrow_l]> _custom in
  let* arrow_r := load "resources/images/symbols/arrow_short.png" in
  let _custom := <["{ARROW_RIGHT_SHORT}" := transform_flip arrow_r true false]> _custom in
  let* arrow_lm := load "resources/images/symbols/arrow_medium.png" in
  let _custom := <["{ARROW_LEFT_MED}" := arrow_lm]> _custom in
  let* arrow_rm := load "resources/images/symbols/arrow_medium.png" in
  let _custom := <["{ARROW_RIGHT_MED}" := transform_flip arrow_rm true false]> _custom in
  let* claw := load "resources/images/symbols/patrol_claws.png" in
  let _custom := <["{PATROL_CLAW}" := claw]> _custom in
  let* paw := load "resources/images/symbols/patrol_paw.png" in
  let _custom := <["{PATROL_PAW}" := paw]> _custom in
  let* mouse := load "resources/images/symbols/patrol_mouse.png" in
  let _custom := <["{PATROL_MOUSE}" := mouse]> _custom in
  let* herb := load "resources/images/symbols/patrol_herb.png" in
  let _custom := <["{PATROL_HERB}" := herb]> _custom in
  let* your_clan := load "resources/images/symbols/your_clan.png" in
  let _custom := <["{YOUR_CLAN}" := your_clan]> _custom in
  let* outside := load "resources/images/symbols/outside_clan.png" in
  let _custom := <["{OUTSIDE_CLAN}" := outside]> _custom in
  let* starclan := load "resources/images/symbols/starclan.png" in
  let _custom := <["{STARCLAN}" := starclan]> _custom in
  let* unknown := load "resources/images/symbols/unknown_residence.png" in
  let _custom := <["{UNKNOWN_RESIDENCE}" := unknown]> _custom in
  let* dark_forest := load "resources/images/symbols/dark_forest.png" in
  let _custom := <["{DARK_FOREST}" := dark_forest]> _custom in
  let* ceremony := load "resources/images/symbols/leader_ceremony.png" in
  let _custom := <["{LEADER_CEREMONY}" := ceremony]> _custom in
  let* mediation := load "resources/images/symbols/mediation.png" in
  Ok (<["{MEDIATION}" := mediation]> _custom).

(** [_Symbol._populate()]: blank 16 by 16 tiles, no image is read. *)
Definition _populate (_custom : gmap string Surface) : result (gmap string Surface) :=
  let* blank := generate_surface (16, 16) in
  Ok (foldl (fun m token => <[token := blank]> m) _custom
        [ "{DICE}"; "{ARROW_LEFT_SHORT}"; "{ARROW_LEFT_MED}"; "{ARROW_RIGHT_MED}";
          "{PATROL_CLAW}"; "{PATROL_PAW}"; "{PATROL_MOUSE}"; "{PATROL_HERB}";
          "{YOUR_CLAN}"; "{OUTSIDE_CLAN}"; "{STARCLAN}"; "{UNKNOWN_RESIDENCE}";
          "{DARK_FOREST}"; "{LEADER_CEREMONY}"; "{MEDIATION}" ]).
End Load.

End _Symbol.

(** ** [_Style]: the style tables of [resources/styles.json] *)

(** The three tables of the style sheet. Entries of [rounded] and [shadow]
    are arbitrary JSON values; entries of [hanging] are booleans. *)
Record StyleSheet : Type := mkStyleSheet {
  styles_round : gmap string PyVal;
  styles_hanging : gmap string bool;
  styles_shadow : gmap string PyVal
}.

Module _Style.

Section Tables.
Variable _styles : StyleSheet.

(** [table.get(object_id)]; an entry [null] reads as [None]. *)
Definition get_style (table : gmap string PyVal) (object_id : option string) : option PyVal :=
  match object_id with
  | None => None
  | Some k =>
      match table !! k with
      | Some PyNone => None
      | o => o
      end
  end.

Definition check_round (object_id : option string) : PyVal :=
  match get_style (styles_round _styles) object_id with
  | Some style =>
      match style with
      | PyList l =>
          if Z.of_nat (length l) =? 4 then style
          else PyList [PyBool true; PyBool true; PyBool true; PyBool true]
      | PyBool _ => py_list4 style
      | _ => PyList [PyBool true; PyBool true; PyBool true; PyBool true]
      end
  | None => PyList [PyBool true; PyBool true; PyBool true; PyBool true]
  end.

Definition check_hanging (object_id : option string) : bool :=
  match object_id with
  | None => false
  | Some k =>
      match styles_hanging _styles !! k with
      | Some style => style
      | None => false
      end
  end.

Definition check_shadow (object_id : option string) : PyVal :=
  match object_id with
  | None => PyList [PyBool true; PyBool true; PyBool false; PyBool false]
  | Some _ =>
      match get_style (styles_shadow _styles) object_id with
      | Some (PyList l as style) =>
          if Z.of_nat (length l) =? 4 then style
          else PyList [PyBool true; PyBool true; PyBool false; PyBool false]
      | _ => PyList [PyBool true; PyBool true; PyBool false; PyBool false]
      end
  end.
End Tables.

End _Style.

(** ** [Palette] *)

Module Palette.
Definition palette : list Color :=
  [ (0, 0, 0, 0); (47, 41, 24, 255); (121, 96, 69, 255); (101, 89, 52, 255); (87, 76, 45, 255) ].
Definition hover : list Color :=
  [ (0, 0, 0, 0); (14, 11, 4, 255); (41, 27, 15, 255); (30, 24, 9, 255); (23, 18, 7, 255) ].
Definition unavailable : list Color :=
  [ (0, 0, 0, 0); (58, 56, 51, 255); (112, 107, 100, 255); (92, 88, 80, 255); (80, 78, 70, 255) ].
End Palette.

(** [palette[i]] on one of the five-entry tables above. *)
Definition palette_at (palette : list Color) (i : nat) : Color :=
  default transparent (palette !! i).

(** ** [ButtonCache] *)

(** One dictionary of [ButtonCache._storage]. *)
Record CacheEntry : Type := mkCacheEntry {
  entry_surface : Surface;
  entry_size : Z * Z;
  entry_text : string;
  entry_hover : bool;
  entry_unavailable : bool;
  entry_rounded_corners : PyVal;
  entry_shadows : PyVal;
  entry_hanging : bool
}.

Definition default_rounded_corners : PyVal :=
  PyList [PyBool true; PyBool true; PyBool true; PyBool true].
Definition default_shadows : PyVal :=
  PyList [PyBool true; PyBool true; PyBool false; PyBool false].

Module ButtonCache.

(** [all(key in kwargs and kwargs[key] == item[key] for key in keys)] *)
Definition matches (size : Z * Z) (text : string) (hover unavailable : bool)
    (rounded_corners shadows : PyVal) (hanging : bool) (item : CacheEntry) : bool :=
  ((fst size =? fst (entry_size item)) && (snd size =? snd (entry_size item)))
  && String.eqb text (entry_text item)
  && Bool.eqb hover (entry_hover item)
  && Bool.eqb unavailable (entry_unavailable item)
  && py_eq rounded_corners (entry_rounded_corners item)
  && py_eq shadows (entry_shadows item)
  && Bool.eqb hanging (entry_hanging item).

(** The cached dictionary, or [None] for the [False] of a miss. *)
Definition load_button (_storage : list CacheEntry)
    (size : Z * Z) (text : string) (hover unavailable : bool)
    (rounded_corners shadows : PyVal) (hanging : bool) : option CacheEntry :=
  let obj := List.filter (matches size text hover unavailable rounded_corners shadows hanging)
                         _storage in
  match obj with
  | item :: _ => Some item
  | [] => None
  end.

(** Returns the surface and the storage after the append. *)
Definition store_button (_storage : list CacheEntry) (surface : Surface)
    (size : Z * Z) (text : string) (hover unavailable : bool)
    (rounded_corners shadows : PyVal) (hanging : bool) : Surface * list CacheEntry :=
  let store := mkCacheEntry surface size text hover unavailable rounded_corners shadows hanging in
  (surface, (_storage ++ [store])%list).

End ButtonCache.

(** A descriptor and a stored entry differ in at least one of the seven
    fields, under Python's [==]. *)
Definition differs_in_a_field (size : Z * Z) (text : string) (hover unavailable : bool)
    (rounded_corners shadows : PyVal) (hanging : bool) (item : CacheEntry) : Prop :=
  size <> entry_size item
  \/ text <> entry_text item
  \/ hover <> entry_hover item
  \/ unavailable <> entry_unavailable item
  \/ py_eq rounded_corners (entry_rounded_corners item) = false
  \/ py_eq shadows (entry_shadows item) = false
  \/ hanging <> entry_hanging item.

(** ** [RectButton] and [SquareButton]: the compositor *)

Inductive ButtonClass : Type := RectButtonClass | SquareButtonClass.

(** The attributes of a button object under construction. *)
Record ButtonObject : Type := mkButtonObject {
  self_size : Z * Z;
  self_surface : Surface;
  self_hover : bool;
  self_unavailable : bool;
  self_hanging : bool;
  self_symbol : bool;
  self_palette : list Color;
  self_rounded_corners : PyVal;
  self_shadow : PyVal;
  self_text : Surface
}.

Definition set_surface (self : ButtonObject) (surface : Surface) : ButtonObject :=
  mkButtonObject (self_size self) surface (self_hover self) (self_unavailable self)
    (self_hanging self) (self_symbol self) (self_palette self)
    (self_rounded_corners self) (self_shadow self) (self_text self).

Fixpoint mapM {A B : Type} (f : A -> result B) (l : list A) : result (list B) :=
  match l with
  | [] => Ok []
  | x :: l' =>
      let* y := f x in
      let* ys := mapM f l' in
      Ok (y :: ys)
  end.

(** [text.split(sep)] for a one-character separator. *)
Fixpoint split_on (sep : ascii) (s : string) : list string :=
  match s with
  | EmptyString => [""]
  | String c s' =>
      if Ascii.eqb c sep then "" :: split_on sep s'
      else
        match split_on sep s' with
        | piece :: rest => String c piece :: rest
        | [] => [String c ""]
        end
  end.

Definition is_brace (c : ascii) : bool := Ascii.eqb c "{" || Ascii.eqb c "}".

(** [re.split(r"({|})", line)]: the pieces between braces, with each brace
    kept as an element of its own. *)
Fixpoint re_split_braces (s : string) : list string :=
  match s with
  | EmptyString => [""]
  | String c s' =>
      if is_brace c then "" :: String c "" :: re_split_braces s'
      else
        match re_split_braces s' with
        | piece :: rest => String c piece :: rest
        | [] => [String c ""]
        end
  end.

(** [l[i]] with Python's negative indices. *)
Definition py_index {A : Type} (l : list A) (i : Z) : result A :=
  let j := if i <? 0 then Z.of_nat (length l) + i else i in
  if j <? 0 then Raise IndexError
  else match l !! Z.to_nat j with Some x => Ok x | None => Raise IndexError end.

(** [formatted[-1] += char] *)
Definition add_to_last (formatted : list string) (char : string) : result (list string) :=
  match rev formatted with
  | last :: front => Ok (rev front ++ [String.append last char])%list
  | [] => Raise IndexError
  end.

Module SquareButton.

Definition _corner (palette : list Color)
    (shadow_corner1 shadow_corner2 rounded : PyVal) : result Surface :=
  let* surface := pygame_Surface (10, 8) true in
  if py_truthy rounded then
    (* outline *)
    let surface := draw_rect surface (palette_at palette 1) (mkRect 4 0 6 2) in
    let surface := draw_rect surface (palette_at palette 1) (mkRect 2 2 2 2) in
    let surface := draw_rect surface (palette_at palette 1) (mkRect 0 4 2 4) in
    (* fill *)
    let surface := draw_rect surface (palette_at palette 3) (mkRect 4 4 4 4) in
    (* inline *)
    let surface := draw_rect surface (palette_at palette 2) (mkRect 4 2 6 2) in
    let surface := draw_rect surface (palette_at palette 2) (mkRect 2 4 4 2) in
    let surface := draw_rect surface (palette_at palette 2) (mkRect 2 4 2 4) in
    (* shadow *)
    if py_truthy shadow_corner1 then
      let surface := draw_rect surface (palette_at palette 4) (mkRect 6 4 4 2) in
      let surface := draw_rect surface (palette_at palette 4) (mkRect 4 6 2 2) in
      Ok surface
    else if py_truthy shadow_corner2 then
      let surface := draw_rect surface (palette_at palette 4) (mkRect 4 6 2 2) in
      let surface := draw_rect surface (palette_at palette 4) (mkRect 6 4 2 2) in
      Ok surface
    else Ok surface
  else
    (* outline *)
    let surface := draw_rect surface (palette_at palette 1) (mkRect 0 0 10 2) in
    let surface := draw_rect surface (palette_at palette 1) (mkRect 0 0 2 8) in
    (* inline *)
    let surface := draw_rect surface (palette_at palette 2) (mkRect 2 2 8 2) in
    let surface := draw_rect surface (palette_at palette 2) (mkRect 2 2 2 6) in
    (* fill *)
    let surface := draw_rect surface (palette_at palette 3) (mkRect 4 4 6 2) in
    let surface :=
      if py_truthy shadow_corner1
      then draw_rect surface (palette_at palette 4) (mkRect 4 4 6 2) else surface in
    let surface :=
      if py_truthy shadow_corner2
      then draw_rect surface (palette_at palette 4) (mkRect 4 4 2 4) else surface in
    Ok surface.

End SquareButton.

Module RectButton.

Definition _corner (palette : list Color)
    (shadow_corner1 shadow_corner2 rounded : PyVal) : result Surface :=
  let* surface := pygame_Surface (10, 8) true in
  if py_truthy rounded then
    (* outline *)
    let surface := draw_rect surface (palette_at palette 1) (mkRect 6 2 4 2) in
    let surface := draw_rect surface (palette_at palette 1) (mkRect 4 4 2 2) in
    let surface := draw_rect surface (palette_at palette 1) (mkRect 2 6 2 2) in
    (* inline *)
    let surface := draw_rect surface (palette_at palette 2) (mkRect 6 4 4 2) in
    let surface := draw_rect surface (palette_at palette 2) (mkRect 4 6 2 2) in
    (* fill *)
    let surface :=
      if py_truthy shadow_corner1 && py_truthy shadow_corner2
      then draw_rect surface (palette_at palette 4) (mkRect 6 6 4 2)
      else draw_rect surface (palette_at palette 3) (mkRect 6 6 4 2) in
    Ok surface
  else
    (* outline *)
    let surface := draw_rect surface (palette_at palette 1) (mkRect 0 0 10 2) in
    let surface := draw_rect surface (palette_at palette 1) (mkRect 0 0 2 8) in
    (* inline *)
    let surface := draw_rect surface (palette_at palette 2) (mkRect 2 2 8 2) in
    let surface := draw_rect surface (palette_at palette 2) (mkRect 2 2 2 6) in
    (* fill *)
    let surface := draw_rect surface (palette_at palette 3) (mkRect 4 4 6 2) in
    let surface :=
      if py_truthy shadow_corner1
      then draw_rect surface (palette_at palette 4) (mkRect 4 4 6 2) else surface in
    let surface :=
      if py_truthy shadow_corner2
      then draw_rect surface (palette_at palette 4) (mkRect 4 4 2 4) else surface in
    Ok surface.

(** [self._corner], resolved on the class of [self]. *)
Definition self_corner (cls : ButtonClass) :=
  match cls with
  | RectButtonClass => _corner
  | SquareButtonClass => SquareButton._corner
  end.

Definition _edge (palette : list Color)
    (length : Z) (rotate flip : bool) (shadow : PyVal) : result Surface :=
  let '(length, odd) :=
    if negb (py_round_half length =? py_int_half length) then
      if negb rotate then (length + 1, true) else (length, false)
    else (length, false) in
  let length := if length <=? 0 then 0 else length in
  let* surface := pygame_Surface (length, 6) true in
  (* outline *)
  let surface := draw_rect surface (palette_at palette 1) (mkRect 0 0 length 2) in
  (* inline *)
  let surface :=
    draw_rect surface (palette_at palette 2)
              (mkRect 0 2 (if negb odd then length else length - 1) 2) in
  (* fill *)
  let surface :=
    if py_truthy shadow then
      draw_rect surface (palette_at palette 4)
                (mkRect 0 4 (if negb odd then length else length - 1) 2)
    else
      draw_rect surface (palette_at palette 3)
                (mkRect 0 4 (if negb odd then length else length - 1) 2) in
  if rotate && flip then
    let surface := transform_rotate90 surface in
    Ok (transform_flip surface true false)
  else if rotate then Ok (transform_rotate90 surface)
  else if flip then Ok (transform_flip surface false true)
  else Ok surface.

(** Where [_build] puts the label: [self.text.get_rect(center=...)]. *)
Definition text_rect (self : ButtonObject) : Rect :=
  let '(w, h) := self_size self in
  if self_hanging self then
    get_rect_center (self_text self) (py_trunc_half_plus w 1) (py_trunc_half_plus h (2 + 6))
  else if self_symbol self then
    get_rect_center (self_text self) (py_trunc_half_plus w 0) (py_trunc_half_plus h 0)
  else
    get_rect_center (self_text self) (py_trunc_half_plus w 1) (py_trunc_half_plus h 2).

Section Compositor.
Context `{Libraries}.
(** The glyph dictionary [_Symbol._custom]. *)
Variable _custom : gmap string Surface.

(** The brace tokens of one line: one round of the loop over
    [enumerate(regex)], then the loop and [filter(None, formatted)]. *)
Definition tokenize_step (regex formatted : list string) (item : nat * string)
    : result (list string) :=
  let '(e, char) := item in
  if String.eqb char "" then Ok formatted
  else if String.eqb char "{" then Ok (formatted ++ ["{"])%list
  else
    let* prev := py_index regex (Z.of_nat e - 1) in
    if String.eqb prev "{" then add_to_last formatted char
    else if String.eqb char "}" then
      let* formatted := add_to_last formatted char in
      Ok (formatted ++ [""])%list
    else add_to_last formatted char.

Definition tokenize (line : string) : result (list string) :=
  let regex := re_split_braces line in
  let* formatted :=
    fold_left
      (fun acc item => let* formatted := acc in tokenize_step regex formatted item)
      (combine (seq 0 (length regex)) regex)
      (Ok [""]) in
  Ok (List.filter (fun item => negb (String.eqb item "")) formatted).

(** One token of a line: a glyph with four rows of padding below, or
    rasterised text. *)
Definition render_item (item : string) : result Surface :=
  match _custom !! item with
  | Some text =>
      let* text_ := pygame_Surface (get_width text, get_height text + 4) true in
      Ok (blit text_ text (0, 0))
  | None => Ok (FONT_render item)
  end.

Definition render_line (line : string) : result Surface :=
  let* formatted := tokenize line in
  let* surfaces := mapM render_item formatted in
  let width_temp := fold_left (fun acc text => acc + get_width text) surfaces 0 in
  let height_temp := fold_left (fun acc text => Z.max acc (get_height text)) surfaces 0 in
  let* text_surface := pygame_Surface (width_temp, height_temp) true in
  Ok (fst (fold_left
             (fun (acc : Surface * Z) surface =>
                let '(text_surface, current_width) := acc in
                (blit text_surface surface (current_width, 0),
                 current_width + get_width surface))
             surfaces (text_surface, 0))).

(** The label image and the value of [self.symbol]. *)
Definition _build_text (text : string) : result (Surface * bool) :=
  match _custom !! text with
  | Some glyph => Ok (glyph, true)
  | None =>
      let* texts := mapM render_line (split_on "010"%char text) in
      let height := fold_left (fun acc t => acc + get_height t) texts 0 in
      let width := fold_left (fun acc t => Z.max acc (get_width t)) texts 0 in
      let* surface := pygame_Surface (width, height) true in
      Ok (fst (fold_left
                 (fun (acc : Surface * Z) text =>
                    let '(surface, current_height) := acc in
                    (blit surface text (Z.quot (width - get_width text) 2, current_height),
                     current_height + get_height text))
                 texts (surface, 0)),
          false)
  end.

Definition _hang (self : ButtonObject) : result ButtonObject :=
  let '(w, h) := self_size self in
  let* surface := pygame_Surface (w, h + 6) true in
  let surface := blit surface (self_surface self) (0, 6) in
  let* connector := pygame_Surface (10, 6) false in
  let connector := draw_rect connector (palette_at Palette.palette 2) (mkRect 0 0 10 6) in
  let connector := draw_rect connector (palette_at Palette.palette 4) (mkRect 2 0 6 6) in
  let connector := draw_rect connector (palette_at Palette.palette 3) (mkRect 4 0 2 6) in
  let surface := blit surface connector (12, 0) in
  let surface := blit surface connector (w - 22, 0) in
  Ok (set_surface self surface).

Definition _build (cls : ButtonClass) (self : ButtonObject) : result ButtonObject :=
  let '(w, h) := self_size self in
  let palette := self_palette self in
  let shadow := self_shadow self in
  let rounded_corners := self_rounded_corners self in
  (* fill [5] *)
  let surface :=
    draw_rect (self_surface self) (palette_at palette 3) (mkRect 4 4 (w - 8) (h - 8)) in
  (* corners [1, 3, 7, 9] *)
  let* s0 := py_getitem shadow 0 in
  let* s1 := py_getitem shadow 1 in
  let* r0 := py_getitem rounded_corners 0 in
  let* corner := self_corner cls palette s0 s1 r0 in
  let surface := blit surface corner (0, 0) in
  let* s0 := py_getitem shadow 0 in
  let* s2 := py_getitem shadow 2 in
  let* r1 := py_getitem rounded_corners 1 in
  let* corner := self_corner cls palette s0 s2 r1 in
  let surface := blit surface (transform_flip corner true false) (w - 10, 0) in
  let* s3 := py_getitem shadow 3 in
  let* s1 := py_getitem shadow 1 in
  let* r2 := py_getitem rounded_corners 2 in
  let* corner := self_corner cls palette s3 s1 r2 in
  let surface := blit surface (transform_flip corner false true) (0, h - 8) in
  let* s3 := py_getitem shadow 3 in
  let* s2 := py_getitem shadow 2 in
  let* r3 := py_getitem rounded_corners 3 in
  let* corner := self_corner cls palette s3 s2 r3 in
  let surface := blit surface (transform_flip corner true true) (w - 10, h - 8) in
  (* edges [2, 4, 6, 8] *)
  let* s0 := py_getitem shadow 0 in
  let* edge := _edge palette (w - 20) false false s0 in
  let surface := blit surface edge (10, 0) in
  let* s1 := py_getitem shadow 1 in
  let* edge := _edge palette (h - 16) true false s1 in
  let surface := blit surface edge (0, 8) in
  let* s2 := py_getitem shadow 2 in
  let* edge := _edge palette (h - 16) true true s2 in
  let surface := blit surface edge (w - 6, 8) in
  let* s3 := py_getitem shadow 3 in
  let* edge := _edge palette (w - 20) false true s3 in
  let surface := blit surface edge (10, h - 6) in
  let self := set_surface self surface in
  (* text & hang *)
  let* self := if self_hanging self then _hang self else Ok self in
  let text_rect := text_rect self in
  Ok (set_surface self
        (blit (self_surface self) (self_text self) (rect_x text_rect, rect_y text_rect))).

Definition __init__ (cls : ButtonClass) (size : Z * Z) (text : string)
    (hover unavailable : bool) (rounded_corners shadows : PyVal) (hanging : bool)
    : result ButtonObject :=
  let size := if hanging then (fst size, snd size - 6) else (fst size, snd size) in
  let* surface := pygame_Surface size true in
  let palette :=
    if unavailable then Palette.unavailable
    else if hover then Palette.hover
    else Palette.palette in
  let* (text, symbol) := _build_text text in
  _build cls (mkButtonObject size surface hover unavailable hanging symbol palette
                             rounded_corners shadows text).
End Compositor.

End RectButton.

(** ** [Button] *)

Module Button.

Section New.
Context `{Libraries}.
Variable _custom : gmap string Surface.

Definition new (size : Z * Z) (text : string) (hover unavailable : bool)
    (rounded_corners shadows : PyVal) (hanging : bool) : result Surface :=
  let* rounded_corners :=
    if isinstance_bool rounded_corners then Ok (py_list4 rounded_corners)
    else if negb (isinstance_list rounded_corners) then
      let* n := py_len rounded_corners in
      if negb (n =? 4)
      then Raise (ValueError "rounded_corners must be of type bool or list[bool; 4]")
      else Ok rounded_corners
    else Ok rounded_corners in
  let* shadows :=
    if isinstance_bool shadows then Ok (py_list4 shadows)
    else if negb (isinstance_list shadows) then
      let* n := py_len shadows in
      if negb (n =? 4)
      then Raise (ValueError "shadows must be of type bool or list[bool; 4]")
      else Ok shadows
    else Ok shadows in
  let* button :=
    if fst size =? snd size then
      RectButton.__init__ _custom SquareButtonClass size text hover unavailable
                          rounded_corners shadows hanging
    else
      RectButton.__init__ _custom RectButtonClass size text hover unavailable
                          rounded_corners shadows hanging in
  Ok (self_surface button).

Definition new_auto_pad (text : string) (padding : Z) (hover unavailable : bool)
    (rounded_corners shadows : PyVal) (hanging : bool) : result Surface :=
  let _text := FONT_render text in
  let width := get_width _text in
  let height := get_height _text in
  let size := (width + padding + 12, height + padding + 10) in
  new size text hover unavailable rounded_corners shadows hanging.
End New.

End Button.

(** Sizes pygame can give a surface. *)
Definition surface_ok (s : Surface) : bool :=
  (0 <=? get_width s) && (0 <=? get_height s).

(** The rasteriser and the glyph dictionary hand out surfaces only. *)
Definition font_ok `{Libraries} : Prop :=
  forall text, surface_ok (FONT_render text) = true.

Definition glyphs_ok (_custom : gmap string Surface) : bool :=
  forallb (fun entry => surface_ok (snd entry)) (map_to_list _custom).

(** A style argument of the documented shape: a bool, or a list of four
    values. *)
Definition is_style_arg (v : PyVal) : bool :=
  match v with
  | PyBool _ => true
  | PyList l => Z.of_nat (length l) =? 4
  | _ => false
  end.

(** The three bands of an edge strip, from the outer side inwards: two
    pixels of outline, two of inline, two of fill or shadow. *)
Definition strip_tone (palette : list Color) (shadow : PyVal) (band : Z) : Color :=
  if band <? 2 then palette_at palette 1
  else if band <? 4 then palette_at palette 2
  else if py_truthy shadow then palette_at palette 4
  else palette_at palette 3.

(** The tone of column [column] of a rope connector, and the pixel at
    column [x] of the rope band of a hanging button [w] pixels wide: the
    connector at [w - 22] is drawn after, hence over, the one at 12. *)
Definition rope_tone (column : Z) : Color :=
  if (4 <=? column) && (column <? 6) then palette_at Palette.palette 3
  else if (2 <=? column) && (column <? 8) then palette_at Palette.palette 4
  else palette_at Palette.palette 2.

Definition rope_band (w x : Z) : Color :=
  if (w - 22 <=? x) && (x <? w - 12) then rope_tone (x - (w - 22))
  else if (12 <=? x) && (x <? 22) then rope_tone (x - 12)
  else transparent.

(** ** [UIButton] and [CatButton]: the facade *)

(** [rect.size] *)
Definition rect_size (r : Rect) : Z * Z := (rect_w r, rect_h r).

(** A [UIButton] with its inner [CatButton]: the attributes the renderer
    reads, the image currently shown, and the hover flag of the inner
    button. *)
Record Widget : Type := mkWidget {
  relative_rect : Rect;
  widget_id : option string;
  widget_rounded_corners : PyVal;
  widget_hanging : bool;
  widget_shadows : PyVal;
  widget_text : string;
  widget_image : Surface;
  widget_hover : bool
}.

Definition set_image (self : Widget) (image : Surface) (hover : bool) : Widget :=
  mkWidget (relative_rect self) (widget_id self) (widget_rounded_corners self)
    (widget_hanging self) (widget_shadows self) (widget_text self) image hover.

Module UIButton.

Section Facade.
Context `{Libraries}.
Variable _custom : gmap string Surface.
Variable _styles : StyleSheet.
Variable LANGUAGE : string.

(** The widget built and [ButtonCache._storage] afterwards. *)
Definition __init__ (_storage : list CacheEntry) (relative_rect : Rect) (text : string)
    (object_id : option string) : result (Widget * list CacheEntry) :=
  let rounded_corners := _Style.check_round _styles object_id in
  let hanging := _Style.check_hanging _styles object_id in
  let shadows := _Style.check_shadow _styles object_id in
  let text :=
    if negb (String.eqb text "") then text else _Language.check LANGUAGE object_id in
  let cache :=
    ButtonCache.load_button _storage (rect_size relative_rect) text
      false false default_rounded_corners default_shadows false in
  let* (sprite, _storage) :=
    match cache with
    | Some cache => Ok (entry_surface cache, _storage)
    | None =>
        let* surface :=
          Button.new _custom (rect_size relative_rect) text false false
                     rounded_corners shadows hanging in
        Ok (ButtonCache.store_button _storage surface (rect_size relative_rect) text
              false false rounded_corners shadows hanging)
    end in
  Ok (mkWidget relative_rect object_id rounded_corners hanging shadows text
               (transform_scale sprite (rect_size relative_rect)) false,
      _storage).
End Facade.

End UIButton.

Module CatButton.

Section Handlers.
Context `{Libraries}.
Variable _custom : gmap string Surface.

Definition on_hovered (_storage : list CacheEntry) (self : Widget)
    : result (Widget * list CacheEntry) :=
  let size := rect_size (relative_rect self) in
  let cache :=
    ButtonCache.load_button _storage size (widget_text self) true false
      (widget_rounded_corners self) (widget_shadows self) (widget_hanging self) in
  let* (sprite, _storage) :=
    match cache with
    | Some cache => Ok (entry_surface cache, _storage)
    | None =>
        let* surface :=
          Button.new _custom size (widget_text self) true false
            (widget_rounded_corners self) (widget_shadows self) (widget_hanging self) in
        Ok (ButtonCache.store_button _storage surface size (widget_text self) true false
              (widget_rounded_corners self) (widget_shadows self) (widget_hanging self))
    end in
  Ok (set_image self (transform_scale sprite size) true, _storage).

Definition while_hovered (self : Widget) : Widget :=
  set_image self (widget_image self) true.

Definition disable (_storage : list CacheEntry) (self : Widget)
    : result (Widget * list CacheEntry) :=
  let size := rect_size (relative_rect self) in
  let cache :=
    ButtonCache.load_button _storage size (widget_text self) false true
      (widget_rounded_corners self) (widget_shadows self) (widget_hanging self) in
  let* (sprite, _storage) :=
    match cache with
    | Some cache => Ok (entry_surface cache, _storage)
    | None =>
        let* surface :=
          Button.new _custom size (widget_text self) false true
            (widget_rounded_corners self) (widget_shadows self) (widget_hanging self) in
        Ok (ButtonCache.store_button _storage surface size (widget_text self) false true
              (widget_rounded_corners self) (widget_shadows self) (widget_hanging self))
    end in
  Ok (set_image self (transform_scale sprite size) false, _storage).

Definition enable (_storage : list CacheEntry) (self : Widget)
    : result (Widget * list CacheEntry) :=
  let size := rect_size (relative_rect self) in
  let hover := if widget_hover self then true else false in
  let cache :=
    ButtonCache.load_button _storage size (widget_text self) hover false
      (widget_rounded_corners self) (widget_shadows self) (widget_hanging self) in
  let* (sprite, _storage) :=
    match cache with
    | Some cache => Ok (entry_surface cache, _storage)
    | None =>
        let* surface :=
          Button.new _custom size (widget_text self) hover false
            (widget_rounded_corners self) (widget_shadows self) (widget_hanging self) in
        Ok (ButtonCache.store_button _storage surface size (widget_text self) hover false
              (widget_rounded_corners self) (widget_shadows self) (widget_hanging self))
    end in
  Ok (set_image self (transform_scale sprite size) (widget_hover self), _storage).

Definition on_unhovered (_storage : list CacheEntry) (self : Widget)
    : result (Widget * list CacheEntry) :=
  let size := rect_size (relative_rect self) in
  let cache :=
    ButtonCache.load_button _storage size (widget_text self) false false
      (widget_rounded_corners self) (widget_shadows self) (widget_hanging self) in
  let* (sprite, _storage) :=
    match cache with
    | Some cache => Ok (entry_surface cache, _storage)
    | None =>
        let* surface :=
          Button.new _custom size (widget_text self) false false
            (widget_rounded_corners self) (widget_shadows self) (widget_hanging self) in
        Ok (ButtonCache.store_button _storage surface size (widget_text self) false false
              (widget_rounded_corners self) (widget_shadows self) (widget_hanging self))
    end in
  Ok (set_image self (transform_scale sprite size) false, _storage).
End Handlers.

End CatButton.

(** ** Concrete libraries for examples

    pygame's own blend of a source pixel over a destination pixel, a block
    font of 8 by 16 cells, black 16 by 16 glyph files, and nearest-pixel
    resampling. *)

Definition blend_channel (s d a : Z) : Z := Z.shiftr ((s - d) * a + s) 8 + d.

Definition alpha_blend (src dst : Color) : Color :=
  let '(sR, sG, sB, sA) := src in
  let '(dR, dG, dB, dA) := dst in
  if dA =? 0 then src
  else (blend_channel sR dR sA, blend_channel sG dG sA, blend_channel sB dB sA,
        sA + dA - (sA * dA) / 255).

Definition block_font (text : string) : Surface :=
  let w := 8 * Z.of_nat (String.length text) in
  mkSurface w 16 true (raster w 16 (fun _ _ => COLOR)).

Definition black_tile (path : string) : result Surface :=
  Ok (mkSurface 16 16 true (raster 16 16 (fun _ _ => opaque_black))).

Definition nearest_scale (s : Surface) (size : Z * Z) : Surface :=
  let '(w, h) := size in
  mkSurface w h (srcalpha s)
    (raster w h (fun x y => get_at s (x * get_width s / w) (y * get_height s / h))).

Definition sample_libraries : Libraries :=
  {| blend := alpha_blend;
     FONT_render := block_font;
     image_load := black_tile;
     transform_scale := nearest_scale;
     i18n_t := fun search_term _ => search_term |}.

(** The glyph dictionary after [_Symbol.__init__()] on the sample files. *)
Definition sample_custom : gmap string Surface :=
  match @_Symbol.__init__ sample_libraries ∅ with
  | Ok m => m
  | Raise _ => ∅
  end.

(** A style sheet with one hanging button and one square-cornered one. *)
Definition sample_styles : StyleSheet :=
  {| styles_round := {[ "#flat_button" := PyBool false ]};
     styles_hanging := {[ "#hang_button" := true ]};
     styles_shadow := ∅ |}.

(** One-pixel images, a placement rectangle and rendered button objects
    for examples. *)
Definition tile (c : Color) : Surface := mkSurface 1 1 true [[c]].

Definition sample_rect : Rect := mkRect 0 0 30 20.

Definition sample_object (cls : ButtonClass) (size : Z * Z) (text : string)
    (hover unavailable hanging : bool) : ButtonObject :=
  match @RectButton.__init__ sample_libraries sample_custom cls size text hover unavailable
          default_rounded_corners default_shadows hanging with
  | Ok button => button
  | Raise _ =>
      mkButtonObject (0, 0) (tile transparent) false false false false []
                     PyNone PyNone (tile transparent)
  end.

Definition sample_render (size : Z * Z) (text : string)
    (hover unavailable hanging : bool) : Surface :=
  match @Button.new sample_libraries sample_custom size text hover unavailable
          default_rounded_corners default_shadows hanging with
  | Ok surface => surface
  | Raise _ => tile transparent
  end.

(** The image [_Symbol.load] makes of the sample dice file. *)
Definition sample_dice : Surface :=
  PixelArray_replace (mkSurface 16 16 true (raster 16 16 (fun _ _ => opaque_black)))
                     (0, 0, 0, 255) COLOR.

(** ** [scripts/game_structure/image_cache.py] *)

Module image_cache.

Section Cache.
Context `{Libraries}.
(** [scripts.platformwrapper.is_web] *)
Variable is_web : bool.

(** The image returned and the dictionary [_images] afterwards. *)
Definition load_image (_images : gmap string Surface) (path : string)
    : result (Surface * gmap string Surface) :=
  if is_web then
    let* image := image_load path in
    Ok (image, _images)
  else
    match _images !! path with
    | Some image => Ok (image, _images)
    | None =>
        let* image := image_load path in
        Ok (image, <[path := image]> _images)
    end.
End Cache.

End image_cache.

(** ** Vocabulary for further properties *)

(** ["".join(tokens)] *)
Definition concat_all (tokens : list string) : string :=
  fold_right String.append "" tokens.

(** A string without braces. *)
Fixpoint brace_free (s : string) : bool :=
  match s with
  | EmptyString => true
  | String c s' => negb (is_brace c) && brace_free s'
  end.

(** A string without line feeds. *)
Fixpoint one_line (s : string) : bool :=
  match s with
  | EmptyString => true
  | String c s' => negb (Ascii.eqb c "010") && one_line s'
  end.

(** A list of exactly four Python bools. *)
Definition flag_list (v : PyVal) : bool :=
  match v with
  | PyList [PyBool _; PyBool _; PyBool _; PyBool _] => true
  | _ => false
  end.

(** No pixel of the surface is opaque black. *)
Definition no_black (s : Surface) : bool :=
  forallb (forallb (fun c => negb (color_eqb c opaque_black))) (pixels s).

Section CacheInvariant.
Context `{Libraries}.
Variable _custom : gmap string Surface.

(** The entry holds what [Button.new] renders for the entry's own
    descriptor, and its two style fields are lists of four bools. *)
Definition rendered (item : CacheEntry) : Prop :=
  flag_list (entry_rounded_corners item) = true
  /\ flag_list (entry_shadows item) = true
  /\ Button.new _custom (entry_size item) (entry_text item) (entry_hover item)
       (entry_unavailable item) (entry_rounded_corners item) (entry_shadows item)
       (entry_hanging item) = Ok (entry_surface item).

Definition coherent (_storage : list CacheEntry) : Prop :=
  Forall rendered _storage.
End CacheInvariant.

(** A widget as [UIButton.__init__] leaves it, for examples. *)
Definition sample_widget (object_id : option string) (text : string) : Widget :=
  match @UIButton.__init__ sample_libraries sample_custom sample_styles "en-us" []
          sample_rect text object_id with
  | Ok (widget, _) => widget
  | Raise _ =>
      mkWidget sample_rect None PyNone false PyNone "" (tile transparent) false
  end.

Definition sample_storage (object_id : option string) (text : string) : list CacheEntry :=
  match @UIButton.__init__ sample_libraries sample_custom sample_styles "en-us" []
          sample_rect text object_id with
  | Ok (_, storage) => storage
  | Raise _ => []
  end.

(** The events the widget framework reports to a [CatButton], and the
    handler it calls for each. *)
Inductive Event : Type := Hovered | Disabled | Enabled | Unhovered.

Section Dispatch.
Context `{Libraries}.
Variable _custom : gmap string Surface.

Definition handle (event : Event) (_storage : list CacheEntry) (self : Widget)
    : result (Widget * list CacheEntry) :=
  match event with
  | Hovered => CatButton.on_hovered _custom _storage self
  | Disabled => CatButton.disable _custom _storage self
  | Enabled => CatButton.enable _custom _storage self
  | Unhovered => CatButton.on_unhovered _custom _storage self
  end.
End Dispatch.

(** The [hover] and [unavailable] arguments the handler of an event passes
    to [load_button], [Button.new] and [store_button]. *)
Definition event_hover (event : Event) (self : Widget) : bool :=
  match event with
  | Hovered => true
  | Enabled => widget_hover self
  | Disabled | Unhovered => false
  end.

Definition event_unavailable (event : Event) : bool :=
  match event with
  | Disabled => true
  | _ => false
  end.

(** The second storage is the first with at most one entry appended, and
    answers every lookup the first one answered with the same entry. *)
Definition cache_extends (before after : list CacheEntry) : Prop :=
  (exists tail, after = (before ++ tail)%list /\ (length tail <= 1)%nat)
  /\ forall size text hover unavailable rounded_corners shadows hanging item,
       ButtonCache.load_button before size text hover unavailable
         rounded_corners shadows hanging = Some item ->
       ButtonCache.load_button after size text hover unavailable
         rounded_corners shadows hanging = Some item.

(** The sample widget after the pointer entered it, with the cache. *)
Definition sample_hovered : Widget * list CacheEntry :=
  match @handle sample_libraries sample_custom Hovered (sample_storage None "ab")
          (sample_widget None "ab") with
  | Ok state => state
  | Raise _ => (sample_widget None "ab", [])
  end.

(** The image cache after the first load of a file, for examples. *)
Definition sample_images : gmap string Surface :=
  match @image_cache.load_image sample_libraries false ∅ "resources/images/a.png" with
  | Ok (_, m) => m
  | Raise _ => ∅
  end.

(** A decoder for which no file is readable. *)
Definition no_file (path : string) : result Surface := Raise pygame_error.

Definition offline_libraries : Libraries :=
  {| blend := alpha_blend;
     FONT_render := block_font;
     image_load := no_file;
     transform_scale := nearest_scale;
     i18n_t := fun search_term _ => search_term |}.

(** * Properties *)

(** ** The [result] monad *)

Lemma bind_Ok {A B : Type} (m : result A) (k : A -> result B) (b : B) :
  bind m k = Ok b -> exists a, m = Ok a /\ k a = Ok b.
Proof. destruct m as [a|e]; simpl; intros E; [eauto | discriminate]. Qed.

Lemma pygame_Surface_Ok (w h : Z) (alpha : bool) :
  0 <= w -> 0 <= h ->
  pygame_Surface (w, h) alpha =
  Ok (mkSurface w h alpha
        (raster w h (fun _ _ => if alpha then transparent else opaque_black))).
Proof.
  intros Hw Hh. unfold pygame_Surface.
  destruct (w <? 0) eqn:E1; [lia|]. destruct (h <? 0) eqn:E2; [lia|]. reflexivity.
Qed.

(** ** Pixels of the pygame primitives *)

Lemma zrange_lookup (n : Z) (i : nat) :
  (i < Z.to_nat n)%nat -> zrange n !! i = Some (Z.of_nat i).
Proof.
  intros Hi. unfold zrange.
  change (map Z.of_nat ?l) with (Z.of_nat <$> l).
  rewrite list_lookup_fmap, lookup_seq_lt by exact Hi. reflexivity.
Qed.

Lemma in_bounds_true (s : Surface) (x y : Z) :
  in_bounds s x y = true <-> 0 <= x < get_width s /\ 0 <= y < get_height s.
Proof. unfold in_bounds. rewrite !andb_true_iff. lia. Qed.

Lemma in_bounds_size (s t : Surface) (x y : Z) :
  get_width s = get_width t -> get_height s = get_height t ->
  in_bounds s x y = in_bounds t x y.
Proof. unfold in_bounds. intros -> ->. reflexivity. Qed.

Lemma get_at_raster (w h : Z) (a : bool) (f : Z -> Z -> Color) (x y : Z) :
  get_at (mkSurface w h a (raster w h f)) x y =
  if in_bounds (mkSurface w h a []) x y then f x y else transparent.
Proof.
  unfold get_at, in_bounds. simpl.
  destruct ((0 <=? x) && (x <? w) && (0 <=? y) && (y <? h)) eqn:E; [|reflexivity].
  rewrite !andb_true_iff in E. unfold raster.
  change (map ?g (zrange h)) with (g <$> zrange h).
  rewrite list_lookup_fmap, zrange_lookup by lia. simpl.
  change (map ?g (zrange w)) with (g <$> zrange w).
  rewrite list_lookup_fmap, zrange_lookup by lia. simpl.
  rewrite !Z2Nat.id by lia. reflexivity.
Qed.

Lemma pygame_Surface_inv (size : Z * Z) (alpha : bool) (s : Surface) :
  pygame_Surface size alpha = Ok s ->
  0 <= fst size /\ 0 <= snd size /\ get_width s = fst size /\ get_height s = snd size
  /\ srcalpha s = alpha
  /\ forall x y, get_at s x y =
       if in_bounds s x y then (if alpha then transparent else opaque_black) else transparent.
Proof.
  destruct size as [w h]. unfold pygame_Surface.
  destruct ((w <? 0) || (h <? 0)) eqn:E; [discriminate|].
  apply orb_false_iff in E as [E1 E2]. intros [= <-]. simpl.
  repeat split; try lia. intros x y. apply get_at_raster.
Qed.

Lemma get_at_outside (s : Surface) (x y : Z) :
  in_bounds s x y = false -> get_at s x y = transparent.
Proof. unfold get_at. intros ->. reflexivity. Qed.

Lemma get_at_repaint (s : Surface) (f : Z -> Z -> Color) (x y : Z) :
  get_at (repaint s f) x y = if in_bounds s x y then f x y else transparent.
Proof. unfold repaint. rewrite get_at_raster. reflexivity. Qed.

Lemma get_at_draw_rect (s : Surface) (c : Color) (r : Rect) (x y : Z) :
  get_at (draw_rect s c r) x y =
  if in_bounds s x y && rect_covers r x y
  then (if srcalpha s then c else opaque c) else get_at s x y.
Proof.
  unfold draw_rect. rewrite get_at_repaint.
  destruct (in_bounds s x y) eqn:B; simpl; [reflexivity|].
  symmetry. apply get_at_outside. exact B.
Qed.

Lemma get_at_flip (s : Surface) (fx fy : bool) (x y : Z) :
  in_bounds s x y = true ->
  get_at (transform_flip s fx fy) x y =
  get_at s (if fx then get_width s - 1 - x else x) (if fy then get_height s - 1 - y else y).
Proof. intros B. unfold transform_flip. rewrite get_at_repaint, B. reflexivity. Qed.

Lemma get_at_rotate90 (s : Surface) (x y : Z) :
  0 <= x < get_height s -> 0 <= y < get_width s ->
  get_at (transform_rotate90 s) x y = get_at s (get_width s - 1 - y) x.
Proof.
  intros Hx Hy. unfold transform_rotate90.
  replace ((get_width s <? 1) || (get_height s <? 1)) with false
    by (symmetry; apply orb_false_iff; split; apply Z.ltb_ge; lia).
  rewrite get_at_raster.
  replace (in_bounds _ x y) with true; [reflexivity|].
  symmetry. apply in_bounds_true. simpl. lia.
Qed.

Section BlitFacts.
Context `{Libraries}.

Lemma blit_size (dest source : Surface) (pos : Z * Z) :
  get_width (blit dest source pos) = get_width dest
  /\ get_height (blit dest source pos) = get_height dest.
Proof. destruct pos. split; reflexivity. Qed.

(** A pixel outside the rectangle the source lands on is left alone. *)
Lemma get_at_blit_outside (dest source : Surface) (x0 y0 x y : Z) :
  (x < x0 \/ x0 + get_width source <= x \/ y < y0 \/ y0 + get_height source <= y) ->
  get_at (blit dest source (x0, y0)) x y = get_at dest x y.
Proof.
  intros Hout. unfold blit. rewrite get_at_repaint.
  destruct (in_bounds dest x y) eqn:B.
  - replace ((x0 <=? x) && (x <? x0 + get_width source) &&
             (y0 <=? y) && (y <? y0 + get_height source)) with false; [reflexivity|].
    symmetry. rewrite !andb_false_iff. lia.
  - symmetry. apply get_at_outside. exact B.
Qed.

(** A blit reads the destination only at the pixel it writes. *)
Lemma get_at_blit_ext (dest dest' source : Surface) (pos : Z * Z) (x y : Z) :
  get_width dest = get_width dest' -> get_height dest = get_height dest' ->
  get_at dest x y = get_at dest' x y ->
  get_at (blit dest source pos) x y = get_at (blit dest' source pos) x y.
Proof.
  intros Hw Hh E. destruct pos as [x0 y0]. unfold blit. rewrite !get_at_repaint.
  rewrite (in_bounds_size dest dest') by assumption. rewrite E. reflexivity.
Qed.
End BlitFacts.

#[local] Arguments pygame_Surface : simpl never.
#[local] Arguments draw_rect : simpl never.
#[local] Arguments blit : simpl never.
#[local] Arguments transform_flip : simpl never.
#[local] Arguments transform_rotate90 : simpl never.
#[local] Arguments raster : simpl never.

(** ** The compositor, step by step *)

#[local] Arguments pygame_Surface : simpl never.
#[local] Arguments draw_rect : simpl never.
#[local] Arguments blit : simpl never.
#[local] Arguments transform_flip : simpl never.
#[local] Arguments transform_rotate90 : simpl never.
#[local] Arguments raster : simpl never.

Lemma get_width_draw_rect (s : Surface) (c : Color) (r : Rect) :
  get_width (draw_rect s c r) = get_width s.
Proof. reflexivity. Qed.

Lemma get_height_draw_rect (s : Surface) (c : Color) (r : Rect) :
  get_height (draw_rect s c r) = get_height s.
Proof. reflexivity. Qed.

Lemma srcalpha_draw_rect (s : Surface) (c : Color) (r : Rect) :
  srcalpha (draw_rect s c r) = srcalpha s.
Proof. reflexivity. Qed.

Lemma corner_Ok (cls : ButtonClass) (palette : list Color) (a b c : PyVal) :
  exists s, RectButton.self_corner cls palette a b c = Ok s.
Proof.
  destruct cls; unfold RectButton.self_corner, RectButton._corner, SquareButton._corner;
    rewrite pygame_Surface_Ok by lia; cbn [bind];
    destruct (py_truthy c), (py_truthy a), (py_truthy b); cbn [andb]; eexists; reflexivity.
Qed.

(** The length and the [odd] flag [_edge] works with. *)
Lemma edge_Ok (palette : list Color) (length : Z) (rotate flip : bool) (shadow : PyVal) :
  exists s, RectButton._edge palette length rotate flip shadow = Ok s.
Proof.
  unfold RectButton._edge.
  destruct (if negb (py_round_half length =? py_int_half length)
            then if negb rotate then (length + 1, true) else (length, false)
            else (length, false)) as [len odd].
  rewrite pygame_Surface_Ok by (destruct (len <=? 0) eqn:E; lia).
  cbn [bind]. destruct rotate, flip; cbn [andb]; eexists; reflexivity.
Qed.

Ltac zbool :=
  repeat (match goal with
          | |- context [Z.leb ?a ?b] => destruct (Z.leb_spec a b)
          | |- context [Z.ltb ?a ?b] => destruct (Z.ltb_spec a b)
          end; try (exfalso; lia));
  cbn [andb orb negb]; try reflexivity; try lia.

Lemma rect_covers_pos (r : Rect) (x y : Z) :
  0 <= rect_w r -> 0 <= rect_h r ->
  rect_covers r x y =
  (rect_x r <=? x) && (x <? rect_x r + rect_w r)
  && (rect_y r <=? y) && (y <? rect_y r + rect_h r).
Proof.
  intros Hw Hh. reflexivity.
Qed.

(** The rope connector built by [_hang], pixel by pixel. *)
Lemma connector_pixel (cx cy : Z) :
  0 <= cx < 10 -> 0 <= cy < 6 ->
  opaque
    (get_at
       (draw_rect
          (draw_rect
             (draw_rect
                (mkSurface 10 6 false (raster 10 6 (fun _ _ => opaque_black)))
                (palette_at Palette.palette 2) (mkRect 0 0 10 6))
             (palette_at Palette.palette 4) (mkRect 2 0 6 6))
          (palette_at Palette.palette 3) (mkRect 4 0 2 6)) cx cy)
  = rope_tone cx.
Proof.
  intros Hx Hy. unfold rope_tone.
  rewrite !get_at_draw_rect, !srcalpha_draw_rect.
  rewrite !rect_covers_pos by (simpl; lia).
  unfold in_bounds. cbn [get_width get_height srcalpha rect_x rect_y rect_w rect_h].
  rewrite !get_width_draw_rect, !get_height_draw_rect.
  cbn [get_width get_height srcalpha rect_x rect_y rect_w rect_h].
  zbool.
Qed.

Section CompositorFacts.
Context `{Libraries}.
Variable _custom : gmap string Surface.

Lemma get_width_blit (dest source : Surface) (pos : Z * Z) :
  get_width (blit dest source pos) = get_width dest.
Proof. destruct pos; reflexivity. Qed.

Lemma get_height_blit (dest source : Surface) (pos : Z * Z) :
  get_height (blit dest source pos) = get_height dest.
Proof. destruct pos; reflexivity. Qed.

(** [_hang]: the canvas is six rows taller than the body, and its top six
    rows do not depend on the body. *)
Lemma hang_inv (self self1 : ButtonObject) :
  RectButton._hang self = Ok self1 ->
  exists canvas,
    self1 = set_surface self canvas
    /\ 0 <= fst (self_size self) /\ 0 <= snd (self_size self) + 6
    /\ get_width canvas = fst (self_size self)
    /\ get_height canvas = snd (self_size self) + 6
    /\ forall x y, 0 <= x < fst (self_size self) -> 0 <= y < 6 ->
         y < snd (self_size self) + 6 ->
         get_at canvas x y = rope_band (fst (self_size self)) x.
Proof.
  unfold RectButton._hang. destruct (self_size self) as [w h] eqn:Hsize.
  intros Hh. apply bind_Ok in Hh as (s0 & Hs0 & Hh).
  apply pygame_Surface_inv in Hs0 as (Hw0 & Hh0 & Hw & Hht & Ha & Hpx).
  simpl in Hw0, Hh0, Hw, Hht.
  rewrite pygame_Surface_Ok in Hh by lia. cbn [bind] in Hh. injection Hh as <-.
  eexists. split; [reflexivity|]. simpl fst. simpl snd.
  rewrite !get_width_blit, !get_height_blit.
  repeat split; try assumption.
  intros x y Hx Hy Hyh. unfold rope_band.
  unfold blit at 1. rewrite get_at_repaint.
  replace (in_bounds _ x y) with true
    by (symmetry; apply in_bounds_true; rewrite ?get_width_blit, ?get_height_blit; lia).
  rewrite !get_width_draw_rect, !get_height_draw_rect, !srcalpha_draw_rect.
  cbn [get_width get_height srcalpha].
  replace ((w - 22 <=? x) && (x <? w - 22 + 10) && (0 <=? y) && (y <? 0 + 6))
    with ((w - 22 <=? x) && (x <? w - 12)) by zbool.
  destruct ((w - 22 <=? x) && (x <? w - 12)) eqn:C2.
  { apply andb_true_iff in C2 as [C2a C2b]. apply connector_pixel; lia. }
  unfold blit at 1. rewrite get_at_repaint.
  replace (in_bounds _ x y) with true
    by (symmetry; apply in_bounds_true; rewrite ?get_width_blit, ?get_height_blit; lia).
  rewrite !get_width_draw_rect, !get_height_draw_rect, !srcalpha_draw_rect.
  cbn [get_width get_height srcalpha].
  replace ((12 <=? x) && (x <? 12 + 10) && (0 <=? y) && (y <? 0 + 6))
    with ((12 <=? x) && (x <? 22)) by zbool.
  destruct ((12 <=? x) && (x <? 22)) eqn:C1.
  { apply andb_true_iff in C1 as [C1a C1b]. apply connector_pixel; lia. }
  rewrite get_at_blit_outside by lia.
  rewrite Hpx. replace (in_bounds s0 x y) with true
    by (symmetry; apply in_bounds_true; lia). reflexivity.
Qed.
End CompositorFacts.

(** A style argument [Button.new] is meant to receive: a bool or a list of
    four flags. *)
Lemma is_style_arg_inv (v : PyVal) :
  is_style_arg v = true ->
  (exists b, v = PyBool b) \/ (exists a b c d, v = PyList [a; b; c; d]).
Proof.
  destruct v as [| b | z | s | l | l]; unfold is_style_arg; try discriminate.
  - eauto.
  - intros E. apply Z.eqb_eq in E.
    destruct l as [|a [|b [|c [|d [|e l]]]]]; cbn [length] in E; try lia. eauto 10.
Qed.

Section BuildFacts.
Context `{Libraries}.
Variable _custom : gmap string Surface.

Lemma hang_Ok (self : ButtonObject) :
  0 <= fst (self_size self) -> 0 <= snd (self_size self) + 6 ->
  exists self1, RectButton._hang self = Ok self1.
Proof.
  unfold RectButton._hang. destruct (self_size self) as [w h]. simpl. intros Hw Hh.
  rewrite !pygame_Surface_Ok by lia. cbn [bind]. eexists; reflexivity.
Qed.

(** What [_build] returns: the body drawn over [self.surface], extended by
    [_hang] on a hanging button, with the label blitted last; and what it
    needed on the way. *)
Lemma build_inv (cls : ButtonClass) (self self' : ButtonObject) :
  RectButton._build cls self = Ok self' ->
  (forall i, (i < 4)%nat -> exists v, py_getitem (self_shadow self) i = Ok v)
  /\ (forall i, (i < 4)%nat -> exists v, py_getitem (self_rounded_corners self) i = Ok v)
  /\ exists body self1,
    get_width body = get_width (self_surface self)
    /\ get_height body = get_height (self_surface self)
    /\ (if self_hanging self
        then RectButton._hang (set_surface self body) = Ok self1
        else self1 = set_surface self body)
    /\ self' = set_surface self1
                 (blit (self_surface self1) (self_text self1)
                       (rect_x (RectButton.text_rect self1),
                        rect_y (RectButton.text_rect self1))).
Proof.
  unfold RectButton._build. destruct (self_size self) as [w h] eqn:Hsize.
  cbv zeta. intros Hb.
  apply bind_Ok in Hb as (s0 & Hs0 & Hb); cbv beta in Hb.
  apply bind_Ok in Hb as (s1 & Hs1 & Hb); cbv beta in Hb.
  apply bind_Ok in Hb as (r0 & Hr0 & Hb); cbv beta in Hb.
  apply bind_Ok in Hb as (? & _ & Hb); cbv beta in Hb.
  apply bind_Ok in Hb as (? & _ & Hb); cbv beta in Hb.
  apply bind_Ok in Hb as (s2 & Hs2 & Hb); cbv beta in Hb.
  apply bind_Ok in Hb as (r1 & Hr1 & Hb); cbv beta in Hb.
  apply bind_Ok in Hb as (? & _ & Hb); cbv beta in Hb.
  apply bind_Ok in Hb as (s3 & Hs3 & Hb); cbv beta in Hb.
  apply bind_Ok in Hb as (? & _ & Hb); cbv beta in Hb.
  apply bind_Ok in Hb as (r2 & Hr2 & Hb); cbv beta in Hb.
  apply bind_Ok in Hb as (? & _ & Hb); cbv beta in Hb.
  apply bind_Ok in Hb as (? & _ & Hb); cbv beta in Hb.
  apply bind_Ok in Hb as (? & _ & Hb); cbv beta in Hb.
  apply bind_Ok in Hb as (r3 & Hr3 & Hb); cbv beta in Hb.
  do 9 (apply bind_Ok in Hb as (? & _ & Hb); cbv beta in Hb).
  apply bind_Ok in Hb as (self1 & Hhang & Hb). injection Hb as <-.
  cbn [self_hanging set_surface] in Hhang.
  split; [|split].
  - intros [|[|[|[|i]]]] Hi; eauto; lia.
  - intros [|[|[|[|i]]]] Hi; eauto; lia.
  - eexists _, self1. split; [|split; [|split; [|reflexivity]]].
    3:{ destruct (self_hanging self); [exact Hhang | injection Hhang as <-; reflexivity]. }
    + rewrite !get_width_blit. apply get_width_draw_rect.
    + rewrite !get_height_blit. apply get_height_draw_rect.
Qed.

(** [_build] replaces the surface and nothing else. *)
Lemma build_fields (cls : ButtonClass) (self self' : ButtonObject) :
  RectButton._build cls self = Ok self' ->
  exists surface, self' = set_surface self surface.
Proof.
  intros Hb. apply build_inv in Hb as (_ & _ & body & self1 & _ & _ & Hhang & ->).
  destruct (self_hanging self).
  - apply hang_inv in Hhang as (canvas & -> & _). eexists; reflexivity.
  - subst self1. eexists; reflexivity.
Qed.

Lemma build_Ok (cls : ButtonClass) (self : ButtonObject) :
  (forall i, (i < 4)%nat -> exists v, py_getitem (self_shadow self) i = Ok v) ->
  (forall i, (i < 4)%nat -> exists v, py_getitem (self_rounded_corners self) i = Ok v) ->
  (self_hanging self = true -> 0 <= fst (self_size self) /\ 0 <= snd (self_size self) + 6) ->
  exists self', RectButton._build cls self = Ok self'.
Proof.
  intros Hs Hr Hhang.
  destruct (Hs 0%nat ltac:(lia)) as [s0 Hs0]. destruct (Hs 1%nat ltac:(lia)) as [s1 Hs1].
  destruct (Hs 2%nat ltac:(lia)) as [s2 Hs2]. destruct (Hs 3%nat ltac:(lia)) as [s3 Hs3].
  destruct (Hr 0%nat ltac:(lia)) as [r0 Hr0]. destruct (Hr 1%nat ltac:(lia)) as [r1 Hr1].
  destruct (Hr 2%nat ltac:(lia)) as [r2 Hr2]. destruct (Hr 3%nat ltac:(lia)) as [r3 Hr3].
  unfold RectButton._build. destruct (self_size self) as [w h] eqn:Hsize.
  cbv zeta. rewrite Hs0, Hs1, Hs2, Hs3, Hr0, Hr1, Hr2, Hr3.
  repeat first
    [ progress cbn [bind]
    | match goal with
      | |- context [RectButton.self_corner ?c ?p ?a ?b ?d] =>
          destruct (corner_Ok c p a b d) as [? ->]
      | |- context [RectButton._edge ?p ?l ?r ?f ?s] =>
          destruct (edge_Ok p l r f s) as [? ->]
      end ].
  cbn [self_hanging set_surface].
  destruct (self_hanging self) eqn:Hh.
  - match goal with
    | |- context [RectButton._hang ?o] => destruct (hang_Ok o) as [self1 ->]
    end.
    + cbn [self_size set_surface]. rewrite Hsize. apply Hhang. reflexivity.
    + cbn [self_size set_surface]. rewrite Hsize. apply Hhang. reflexivity.
    + cbn [bind]. eexists; reflexivity.
  - cbn [bind]. eexists; reflexivity.
Qed.

Lemma init_inv (cls : ButtonClass) (size : Z * Z) (text : string)
    (hover unavailable : bool) (rounded_corners shadows : PyVal) (hanging : bool)
    (button : ButtonObject) :
  RectButton.__init__ _custom cls size text hover unavailable rounded_corners shadows hanging
  = Ok button ->
  exists surface label symbol,
    let size' := if hanging then (fst size, snd size - 6) else (fst size, snd size) in
    let palette :=
      if unavailable then Palette.unavailable
      else if hover then Palette.hover else Palette.palette in
    pygame_Surface size' true = Ok surface
    /\ RectButton._build_text _custom text = Ok (label, symbol)
    /\ RectButton._build cls
         (mkButtonObject size' surface hover unavailable hanging symbol palette
                         rounded_corners shadows label) = Ok button.
Proof.
  unfold RectButton.__init__. intros Hi.
  apply bind_Ok in Hi as (surface & Hs & Hi).
  apply bind_Ok in Hi as ([label symbol] & Ht & Hi).
  exists surface, label, symbol. cbv zeta. auto.
Qed.
End BuildFacts.

(** ** The text composer always returns *)

Lemma mapM_Ok {A B : Type} (f : A -> result B) (P : B -> Prop) (l : list A) :
  (forall x, exists y, f x = Ok y /\ P y) ->
  exists ys, mapM f l = Ok ys /\ Forall P ys.
Proof.
  intros Hf. induction l as [|x l (ys & IH & HP)]; simpl.
  - exists []. split; [reflexivity | constructor].
  - destruct (Hf x) as (y & -> & Hy). rewrite IH. simpl.
    exists (y :: ys). split; [reflexivity | constructor; assumption].
Qed.

Lemma py_index_Ok {A : Type} (l : list A) (e : nat) :
  (e < length l)%nat -> exists x, py_index l (Z.of_nat e - 1) = Ok x.
Proof.
  intros He. unfold py_index.
  set (j := if Z.of_nat e - 1 <? 0 then Z.of_nat (length l) + (Z.of_nat e - 1)
            else Z.of_nat e - 1).
  assert (Hj : 0 <= j < Z.of_nat (length l)).
  { subst j. destruct (Z.of_nat e - 1 <? 0) eqn:E; lia. }
  destruct (j <? 0) eqn:E; [lia|].
  destruct (lookup_lt_is_Some_2 l (Z.to_nat j)) as [x ->]; [lia|]. eauto.
Qed.

Lemma add_to_last_Ok (formatted : list string) (char : string) :
  formatted <> [] ->
  exists fm, add_to_last formatted char = Ok fm /\ fm <> [].
Proof.
  intros Hne. unfold add_to_last.
  destruct (rev formatted) as [|last front] eqn:E.
  - apply (f_equal (@rev string)) in E. rewrite rev_involutive in E. contradiction.
  - eexists. split; [reflexivity|]. intros Hnil. apply app_eq_nil in Hnil as [_ Hnil].
    discriminate.
Qed.

Lemma tokenize_step_Ok (regex formatted : list string) (e : nat) (char : string) :
  (e < length regex)%nat -> formatted <> [] ->
  exists fm, RectButton.tokenize_step regex formatted (e, char) = Ok fm /\ fm <> [].
Proof.
  intros He Hne. unfold RectButton.tokenize_step.
  destruct (String.eqb char ""); [eauto|].
  destruct (String.eqb char "{").
  { eexists. split; [reflexivity|]. intros Hnil. apply app_eq_nil in Hnil as [_ Hnil].
    discriminate. }
  destruct (py_index_Ok regex e He) as [prev ->]. cbn [bind].
  destruct (String.eqb prev "{"); [apply add_to_last_Ok; assumption|].
  destruct (String.eqb char "}"); [|apply add_to_last_Ok; assumption].
  destruct (add_to_last_Ok formatted char Hne) as (fm & -> & _). cbn [bind].
  eexists. split; [reflexivity|]. intros Hnil. apply app_eq_nil in Hnil as [_ Hnil].
  discriminate.
Qed.

Lemma tokenize_loop_Ok (regex : list string) (items : list (nat * string))
    (formatted : list string) :
  Forall (fun item => (fst item < length regex)%nat) items -> formatted <> [] ->
  exists fm,
    fold_left
      (fun acc item => let* formatted := acc in RectButton.tokenize_step regex formatted item)
      items (Ok formatted) = Ok fm.
Proof.
  intros Hitems. revert formatted.
  induction Hitems as [|[e char] items He _ IH]; intros formatted Hne;
    cbn [fold_left bind].
  - eauto.
  - destruct (tokenize_step_Ok regex formatted e char He Hne) as (fm & -> & Hfm).
    apply IH. exact Hfm.
Qed.

Lemma tokenize_Ok (line : string) : exists fm, RectButton.tokenize line = Ok fm.
Proof.
  unfold RectButton.tokenize. cbv zeta.
  destruct (tokenize_loop_Ok (re_split_braces line)
              (combine (seq 0 (length (re_split_braces line))) (re_split_braces line)) [""])
    as [fm ->].
  - apply List.Forall_forall. intros [e char] Hin. simpl.
    apply in_combine_l in Hin. apply in_seq in Hin. lia.
  - discriminate.
  - cbn [bind]. eauto.
Qed.

Lemma surface_ok_spec (s : Surface) :
  surface_ok s = true <-> 0 <= get_width s /\ 0 <= get_height s.
Proof. unfold surface_ok. rewrite andb_true_iff. lia. Qed.

Lemma glyphs_ok_lookup (_custom : gmap string Surface) (token : string) (glyph : Surface) :
  glyphs_ok _custom = true -> _custom !! token = Some glyph -> surface_ok glyph = true.
Proof.
  unfold glyphs_ok. intros Hall Hlook. rewrite forallb_forall in Hall.
  apply (Hall (token, glyph)). apply list_elem_of_In, elem_of_map_to_list. exact Hlook.
Qed.

Lemma fold_width_nonneg (l : list Surface) (a : Z) :
  Forall (fun s => surface_ok s = true) l -> 0 <= a ->
  0 <= fold_left (fun acc t => acc + get_width t) l a.
Proof.
  intros Hl. revert a. induction Hl as [|s l Hs _ IH]; intros a Ha; simpl; [exact Ha|].
  apply IH. apply surface_ok_spec in Hs. lia.
Qed.

Lemma fold_height_nonneg (l : list Surface) (a : Z) :
  Forall (fun s => surface_ok s = true) l -> 0 <= a ->
  0 <= fold_left (fun acc t => acc + get_height t) l a.
Proof.
  intros Hl. revert a. induction Hl as [|s l Hs _ IH]; intros a Ha; simpl; [exact Ha|].
  apply IH. apply surface_ok_spec in Hs. lia.
Qed.

Lemma fold_max_nonneg (g : Surface -> Z) (l : list Surface) (a : Z) :
  0 <= a -> 0 <= fold_left (fun acc t => Z.max acc (g t)) l a.
Proof.
  revert a. induction l as [|s l IH]; intros a Ha; simpl; [exact Ha|]. apply IH. lia.
Qed.

Section TextFacts.
Context `{Libraries}.
Variable _custom : gmap string Surface.
Hypothesis Hfont : font_ok.
Hypothesis Hglyphs : glyphs_ok _custom = true.

(** Blitting a run of surfaces keeps the size of the canvas. *)
Lemma fold_blit_size (place : Z -> Surface -> Z * Z) (advance : Surface -> Z)
    (l : list Surface) (canvas : Surface) (at_ : Z) :
  let out := fst (fold_left
                    (fun (acc : Surface * Z) t =>
                       let '(canvas, at_) := acc in
                       (blit canvas t (place at_ t), at_ + advance t))
                    l (canvas, at_)) in
  get_width out = get_width canvas /\ get_height out = get_height canvas.
Proof.
  cbv zeta. revert canvas at_. induction l as [|t l IH]; intros canvas at_; simpl.
  - split; reflexivity.
  - destruct (IH (blit canvas t (place at_ t)) (at_ + advance t)) as [-> ->].
    split; [apply get_width_blit | apply get_height_blit].
Qed.

Lemma render_item_Ok (item : string) :
  exists s, RectButton.render_item _custom item = Ok s /\ surface_ok s = true.
Proof.
  unfold RectButton.render_item. destruct (_custom !! item) as [glyph|] eqn:E.
  - pose proof (glyphs_ok_lookup _ _ _ Hglyphs E) as Hg. apply surface_ok_spec in Hg.
    rewrite pygame_Surface_Ok by lia. cbn [bind]. eexists. split; [reflexivity|].
    apply surface_ok_spec. rewrite get_width_blit, get_height_blit. simpl. lia.
  - eexists. split; [reflexivity | apply Hfont].
Qed.

Lemma render_line_Ok (line : string) :
  exists s, RectButton.render_line _custom line = Ok s /\ surface_ok s = true.
Proof.
  unfold RectButton.render_line. destruct (tokenize_Ok line) as [fm ->]. cbn [bind].
  destruct (mapM_Ok (RectButton.render_item _custom) (fun s => surface_ok s = true) fm
              render_item_Ok) as (surfaces & -> & Hs).
  cbn [bind]. cbv zeta.
  pose proof (fold_width_nonneg surfaces 0 Hs (Z.le_refl 0)) as Hw.
  pose proof (fold_max_nonneg get_height surfaces 0 (Z.le_refl 0)) as Hh.
  rewrite pygame_Surface_Ok by assumption. cbn [bind]. eexists. split; [reflexivity|].
  apply surface_ok_spec.
  match goal with
  | |- context [fold_left _ ?l (?c, ?a)] =>
      pose proof (fold_blit_size (fun at_ _ => (at_, 0)) get_width l c a) as [Ew Eh]
  end.
  cbv beta zeta in Ew, Eh. rewrite Ew, Eh. simpl. lia.
Qed.

Lemma build_text_Ok (text : string) :
  exists label symbol, RectButton._build_text _custom text = Ok (label, symbol).
Proof.
  unfold RectButton._build_text. destruct (_custom !! text); [eauto|].
  destruct (mapM_Ok (RectButton.render_line _custom) (fun s => surface_ok s = true)
              (split_on "010"%char text) render_line_Ok) as (texts & -> & Hs).
  cbn [bind]. cbv zeta.
  pose proof (fold_height_nonneg texts 0 Hs (Z.le_refl 0)) as Hh.
  pose proof (fold_max_nonneg get_width texts 0 (Z.le_refl 0)) as Hw.
  rewrite pygame_Surface_Ok by assumption. cbn [bind]. eauto.
Qed.
End TextFacts.

(** ** The surface cache *)

Lemma seq_eq_refl {A : Type} (eq : A -> A -> bool) (l : list A) :
  Forall (fun x => eq x x = true) l -> seq_eq eq l l = true.
Proof. induction 1 as [|x l Hx _ IH]; simpl; [reflexivity|]. rewrite Hx, IH. reflexivity. Qed.

Lemma py_eq_refl : forall v : PyVal, py_eq v v = true.
Proof.
  fix IH 1. intros [| b | z | s | l | l]; simpl.
  - reflexivity.
  - destruct b; reflexivity.
  - apply Z.eqb_refl.
  - apply String.eqb_refl.
  - apply seq_eq_refl. induction l as [|x l IHl]; constructor; [apply IH | exact IHl].
  - apply seq_eq_refl. induction l as [|x l IHl]; constructor; [apply IH | exact IHl].
Qed.

Lemma matches_refl (surface : Surface) (size : Z * Z) (text : string)
    (hover unavailable : bool) (rounded_corners shadows : PyVal) (hanging : bool) :
  ButtonCache.matches size text hover unavailable rounded_corners shadows hanging
    (mkCacheEntry surface size text hover unavailable rounded_corners shadows hanging) = true.
Proof.
  unfold ButtonCache.matches. simpl.
  rewrite !Z.eqb_refl, String.eqb_refl, !eqb_reflx, !py_eq_refl. reflexivity.
Qed.

(** A descriptor differs from an entry in at least one of the seven
    fields exactly when [matches] is false. *)
Lemma matches_false_iff (size : Z * Z) (text : string) (hover unavailable : bool)
    (rounded_corners shadows : PyVal) (hanging : bool) (item : CacheEntry) :
  ButtonCache.matches size text hover unavailable rounded_corners shadows hanging item = false
  <-> differs_in_a_field size text hover unavailable rounded_corners shadows hanging item.
Proof.
  unfold ButtonCache.matches, differs_in_a_field.
  destruct size as [w h], (entry_size item) as [w' h']. cbn [fst snd].
  rewrite !andb_false_iff, !eqb_false_iff, !Z.eqb_neq, String.eqb_neq.
  assert (Hsz : (w, h) <> (w', h') <-> w <> w' \/ h <> h').
  { split.
    - intros Hne. destruct (Z.eq_dec w w') as [->|]; [|auto].
      right. intros ->. apply Hne. reflexivity.
    - intros [Hne|Hne] [= -> ->]; apply Hne; reflexivity. }
  rewrite Hsz. tauto.
Qed.

Lemma load_button_app (storage : list CacheEntry) (item : CacheEntry)
    (size : Z * Z) (text : string) (hover unavailable : bool)
    (rounded_corners shadows : PyVal) (hanging : bool) :
  ButtonCache.load_button (storage ++ [item]) size text hover unavailable
                          rounded_corners shadows hanging =
  match ButtonCache.load_button storage size text hover unavailable
                                rounded_corners shadows hanging with
  | Some earlier => Some earlier
  | None =>
      if ButtonCache.matches size text hover unavailable rounded_corners shadows hanging item
      then Some item else None
  end.
Proof.
  unfold ButtonCache.load_button. rewrite List.filter_app.
  destruct (List.filter _ storage) as [|e l]; simpl; [|reflexivity].
  destruct (ButtonCache.matches _ _ _ _ _ _ _ item); reflexivity.
Qed.

Lemma filter_none {A : Type} (f : A -> bool) (l : list A) :
  (forall x, In x l -> f x = false) -> List.filter f l = [].
Proof.
  induction l as [|x l IH]; intros Hf; simpl; [reflexivity|].
  rewrite (Hf x) by (left; reflexivity). apply IH. intros y Hy. apply Hf. right. exact Hy.
Qed.




(** ** The glyph library *)

Lemma color_eqb_eq (c d : Color) : color_eqb c d = true <-> c = d.
Proof.
  destruct c as [[[r1 g1] b1] a1], d as [[[r2 g2] b2] a2]. unfold color_eqb.
  rewrite !andb_true_iff, !Z.eqb_eq. split.
  - intros [[[-> ->] ->] ->]. reflexivity.
  - intros [= -> -> -> ->]. auto.
Qed.

Lemma replace_pixel_idempotent (color repcolor c : Color) :
  repcolor <> color ->
  (fun c => if color_eqb c color then repcolor else c)
    (if color_eqb c color then repcolor else c)
  = if color_eqb c color then repcolor else c.
Proof.
  intros Hne. cbv beta. destruct (color_eqb c color) eqn:E.
  - destruct (color_eqb repcolor color) eqn:E'; [|reflexivity].
    apply color_eqb_eq in E'. contradiction.
  - rewrite E. reflexivity.
Qed.

(** C8: recolouring twice with the same accent colour, not opaque black,
    gives the image that recolouring once gives. *)
Theorem glyph_recolor_idempotent (image : Surface) (accent : Color) :
  accent <> opaque_black ->
  PixelArray_replace (PixelArray_replace image opaque_black accent) opaque_black accent
  = PixelArray_replace image opaque_black accent.
Proof.
  intros Hne. unfold PixelArray_replace. cbn [get_width get_height srcalpha pixels].
  f_equal. rewrite List.map_map. apply List.map_ext. intros row.
  rewrite List.map_map. apply List.map_ext. intros c.
  apply replace_pixel_idempotent. exact Hne.
Qed.

(** Running the pass of [_Symbol.load] over a loaded glyph again changes
    nothing. *)
Lemma load_recoloured `{Libraries} (image_path : string) (glyph : Surface) :
  _Symbol.load image_path = Ok glyph ->
  PixelArray_replace glyph (0, 0, 0, 255) _Symbol._color = glyph.
Proof.
  unfold _Symbol.load. intros Hl. apply bind_Ok in Hl as (surface & _ & Hl).
  injection Hl as <-. unfold PixelArray_replace.
  cbn [get_width get_height srcalpha pixels]. f_equal.
  rewrite List.map_map. apply List.map_ext. intros row.
  rewrite List.map_map. apply List.map_ext. intros c.
  apply replace_pixel_idempotent. discriminate.
Qed.

(** A two-pixel image, one pixel opaque black, recoloured with [COLOR]. *)
Lemma glyph_recolor_idempotent_witness :
  COLOR <> opaque_black
  /\ PixelArray_replace
       (PixelArray_replace (mkSurface 2 1 true [[opaque_black; (1, 2, 3, 255)]])
                           opaque_black COLOR) opaque_black COLOR
     = PixelArray_replace (mkSurface 2 1 true [[opaque_black; (1, 2, 3, 255)]])
                          opaque_black COLOR.
Proof.
  split; [discriminate|].
  apply (glyph_recolor_idempotent (mkSurface 2 1 true [[opaque_black; (1, 2, 3, 255)]]) COLOR).
  discriminate.
Defined.

(** ** Palette selection *)

(** C9: the button object that [__init__] builds carries the unavailable
    palette whenever [unavailable] is set, also with [hover] set; the hover
    palette exactly when [hover] is set and [unavailable] is not; the
    default palette exactly when neither is set. *)
Theorem palette_selection_precedence `{Libraries} (_custom : gmap string Surface)
    (cls : ButtonClass) (size : Z * Z) (text : string) (hover unavailable : bool)
    (rounded_corners shadows : PyVal) (hanging : bool) (button : ButtonObject) :
  RectButton.__init__ _custom cls size text hover unavailable rounded_corners shadows hanging
  = Ok button ->
  (self_palette button = Palette.unavailable <-> unavailable = true)
  /\ (self_palette button = Palette.hover <-> hover = true /\ unavailable = false)
  /\ (self_palette button = Palette.palette <-> hover = false /\ unavailable = false).
Proof.
  intros Hi. apply init_inv in Hi as (surface & label & symbol & _ & _ & Hb).
  apply build_fields in Hb as [surface' ->]. cbn [self_palette set_surface].
  destruct unavailable, hover; (split; [|split]); split;
    solve [ intros; reflexivity | intros; split; reflexivity | discriminate
          | intros [? ?]; discriminate ].
Qed.

(** A render with both flags set. *)
Lemma palette_selection_precedence_witness :
  (self_palette (sample_object RectButtonClass (30, 20) "ab" true true false)
   = Palette.unavailable <-> true = true)
  /\ (self_palette (sample_object RectButtonClass (30, 20) "ab" true true false)
      = Palette.hover <-> true = true /\ true = false)
  /\ (self_palette (sample_object RectButtonClass (30, 20) "ab" true true false)
      = Palette.palette <-> true = false /\ true = false).
Proof.
  apply (@palette_selection_precedence sample_libraries sample_custom RectButtonClass (30, 20)
           "ab" true true default_rounded_corners default_shadows false).
  vm_compute. reflexivity.
Defined.

(** ** The single-glyph label *)

(** C7: a label that is a key of the glyph dictionary comes back from the
    text composer as the stored glyph image itself, with [self.symbol] set,
    whatever the font rasteriser is: no line is split, no token is cut and
    nothing is rasterised; and that very image is the label of the button
    object. *)
Theorem glyph_label_short_circuit `{Libraries} (_custom : gmap string Surface)
    (text : string) (glyph : Surface) :
  _custom !! text = Some glyph ->
  RectButton._build_text _custom text = Ok (glyph, true)
  /\ forall cls size hover unavailable rounded_corners shadows hanging button,
       RectButton.__init__ _custom cls size text hover unavailable
                           rounded_corners shadows hanging = Ok button ->
       self_text button = glyph /\ self_symbol button = true.
Proof.
  intros Hk.
  assert (Ht : RectButton._build_text _custom text = Ok (glyph, true)).
  { unfold RectButton._build_text. rewrite Hk. reflexivity. }
  split; [exact Ht|].
  intros cls size hover unavailable rc sh hanging button Hi.
  apply init_inv in Hi as (surface & label & symbol & _ & Ht' & Hb).
  rewrite Ht in Ht'. injection Ht' as <- <-.
  apply build_fields in Hb as [surface' ->]. split; reflexivity.
Qed.

(** The label ["{DICE}"] with the dictionary [_Symbol.__init__] fills. *)
Lemma glyph_label_short_circuit_witness :
  sample_custom !! "{DICE}" = Some sample_dice
  /\ @RectButton._build_text sample_libraries sample_custom "{DICE}" = Ok (sample_dice, true)
  /\ forall cls size hover unavailable rounded_corners shadows hanging button,
       @RectButton.__init__ sample_libraries sample_custom cls size "{DICE}" hover unavailable
                            rounded_corners shadows hanging = Ok button ->
       self_text button = sample_dice /\ self_symbol button = true.
Proof.
  assert (Hk : sample_custom !! "{DICE}" = Some sample_dice) by (vm_compute; reflexivity).
  split; [exact Hk|].
  apply (@glyph_label_short_circuit sample_libraries sample_custom "{DICE}" sample_dice Hk).
Defined.

(** ** Argument checks of [Button.new] *)

(** C2, the code at failing inputs: no list is rejected, whatever its
    length: [Button.new] hands it to the constructor as it is. So a list of
    five flags is rendered as if it had four, and a list of three flags fails
    only in [_build], at [rounded_corners[3]], after the surface was made and
    the fill and three corners drawn. The check does reject a tuple of three
    flags, with the [ValueError] it was written to raise. *)
Theorem new_list_length_unchecked :
  (forall (H : Libraries) (_custom : gmap string Surface) size text hover unavailable
          (flags : list PyVal) hanging,
     Button.new _custom size text hover unavailable (PyList flags) default_shadows hanging
     = let* button :=
         RectButton.__init__ _custom
           (if fst size =? snd size then SquareButtonClass else RectButtonClass)
           size text hover unavailable (PyList flags) default_shadows hanging in
       Ok (self_surface button))
  /\ match @Button.new sample_libraries sample_custom (30, 20) "ab" false false
             (PyList [PyBool true; PyBool true; PyBool true; PyBool true; PyBool true])
             default_shadows false with
     | Ok surface => get_size surface = (30, 20)
     | Raise _ => False
     end
  /\ @Button.new sample_libraries sample_custom (30, 20) "ab" false false
       (PyList [PyBool true; PyBool true; PyBool true]) default_shadows false
     = Raise IndexError
  /\ @Button.new sample_libraries sample_custom (30, 20) "ab" false false
       (PyTuple [PyBool true; PyBool true; PyBool true]) default_shadows false
     = Raise (ValueError "rounded_corners must be of type bool or list[bool; 4]").
Proof.
  split; [|split; [|split]].
  - intros H _custom size text hover unavailable flags hanging.
    unfold Button.new. cbn [isinstance_bool isinstance_list negb bind default_shadows].
    destruct (fst size =? snd size); reflexivity.
  - vm_compute. reflexivity.
  - vm_compute. reflexivity.
  - vm_compute. reflexivity.
Qed.

(** ** The facade *)

(** C1, the code at failing inputs: [UIButton.__init__] looks the cache up
    under the default style whatever style it resolved: an entry stored
    under the default style answers for every identifier. A hanging button
    built twice misses twice and is stored twice; built after a plain button
    of the same size and text it is given the plain sprite, and nothing is
    rendered for it; the handler [on_unhovered], which passes the resolved
    style, finds the entry the constructor stored. *)
Theorem facade_lookup_drops_resolved_style :
  (forall (H : Libraries) _custom _styles LANGUAGE _storage relative_rect text object_id cache,
     text <> "" ->
     ButtonCache.load_button _storage (rect_size relative_rect) text false false
       default_rounded_corners default_shadows false = Some cache ->
     UIButton.__init__ _custom _styles LANGUAGE _storage relative_rect text object_id
     = Ok (mkWidget relative_rect object_id
             (_Style.check_round _styles object_id)
             (_Style.check_hanging _styles object_id)
             (_Style.check_shadow _styles object_id) text
             (transform_scale (entry_surface cache) (rect_size relative_rect)) false,
           _storage))
  /\ _Style.check_hanging sample_styles (Some "#hang_button") = true
  /\ (let init := @UIButton.__init__ sample_libraries sample_custom sample_styles "en-us" in
      match init [] sample_rect "ab" (Some "#hang_button") with
      | Ok (first, storage1) =>
          match init storage1 sample_rect "ab" (Some "#hang_button") with
          | Ok (second, storage2) =>
              length storage1 = 1%nat /\ length storage2 = 2%nat
              /\ match @CatButton.on_unhovered sample_libraries sample_custom storage1 first with
                 | Ok (_, storage3) => storage3 = storage1
                 | Raise _ => False
                 end
          | Raise _ => False
          end
      | Raise _ => False
      end)
  /\ (let init := @UIButton.__init__ sample_libraries sample_custom sample_styles "en-us" in
      match init [] sample_rect "ab" None with
      | Ok (plain, storage1) =>
          match init storage1 sample_rect "ab" (Some "#hang_button") with
          | Ok (hang, storage2) =>
              widget_hanging plain = false /\ widget_hanging hang = true
              /\ widget_image hang = widget_image plain /\ storage2 = storage1
          | Raise _ => False
          end
      | Raise _ => False
      end).
Proof.
  split; [|split; [|split]].
  - intros H _custom _styles LANGUAGE _storage relative_rect text object_id cache Htext Hhit.
    unfold UIButton.__init__. cbv zeta.
    replace (String.eqb text "") with false
      by (symmetry; apply String.eqb_neq; exact Htext).
    cbn [negb]. rewrite Hhit. reflexivity.
  - reflexivity.
  - cbv zeta. vm_compute. repeat split; reflexivity.
  - cbv zeta. vm_compute. repeat split; reflexivity.
Qed.

(** ** The size of a composited button *)

Lemma getitem_list4 (a b c d : PyVal) (i : nat) :
  (i < 4)%nat -> exists v, py_getitem (PyList [a; b; c; d]) i = Ok v.
Proof. destruct i as [|[|[|[|i]]]]; intros Hi; simpl; eauto; lia. Qed.

Lemma block_font_ok : @font_ok sample_libraries.
Proof. intros text. apply surface_ok_spec. simpl. lia. Qed.

Section SizeFacts.
Context `{Libraries}.
Variable _custom : gmap string Surface.
Hypothesis Hfont : font_ok.
Hypothesis Hglyphs : glyphs_ok _custom = true.

Lemma init_Ok (cls : ButtonClass) (w h : Z) (text : string) (hover unavailable : bool)
    (rounded_corners shadows : PyVal) (hanging : bool) :
  (exists a b c d, rounded_corners = PyList [a; b; c; d]) ->
  (exists a b c d, shadows = PyList [a; b; c; d]) ->
  0 <= w -> 0 <= h -> (hanging = true -> 6 <= h) ->
  exists button,
    RectButton.__init__ _custom cls (w, h) text hover unavailable
                        rounded_corners shadows hanging = Ok button
    /\ self_size button = (w, if hanging then h - 6 else h)
    /\ get_width (self_surface button) = w
    /\ get_height (self_surface button) = h.
Proof.
  intros (r0 & r1 & r2 & r3 & ->) (s0 & s1 & s2 & s3 & ->) Hw Hh Hhang.
  unfold RectButton.__init__. cbn [fst snd].
  assert (Hsize : (if hanging then (w, h - 6) else (w, h))
                  = (w, if hanging then h - 6 else h)) by (destruct hanging; reflexivity).
  rewrite Hsize.
  assert (Hh' : 0 <= (if hanging then h - 6 else h)).
  { destruct hanging; [specialize (Hhang eq_refl)|]; lia. }
  rewrite pygame_Surface_Ok by assumption. cbn [bind].
  destruct (build_text_Ok _custom Hfont Hglyphs text) as (label & symbol & ->).
  cbn [bind].
  match goal with
  | |- context [RectButton._build cls ?o] =>
      destruct (build_Ok cls o) as [button Hb]
  end.
  - cbn [self_shadow]. apply getitem_list4.
  - cbn [self_rounded_corners]. apply getitem_list4.
  - cbn [self_hanging self_size fst snd]. intros ->. lia.
  - exists button. split; [exact Hb|].
    apply build_inv in Hb as (_ & _ & body & self1 & Hbw & Hbh & Hhang' & ->).
    cbn [self_hanging self_surface set_surface get_width get_height] in Hhang', Hbw, Hbh.
    cbn [self_surface self_size set_surface].
    rewrite get_width_blit, get_height_blit.
    destruct hanging.
    + apply hang_inv in Hhang' as (canvas & -> & _ & _ & Hcw & Hch & _).
      cbn [self_size set_surface fst snd self_surface] in *.
      repeat split; [exact Hcw | lia].
    + subst self1. cbn [self_size set_surface self_surface]. auto.
Qed.
End SizeFacts.

(** C3, counterexample: a hanging button three pixels high is not
    composited at all; the body would be [3 - 6] pixels high, and pygame
    refuses the surface. *)
Lemma composite_hanging_too_short :
  @Button.new sample_libraries sample_custom (30, 3) "" false false
    default_rounded_corners default_shadows true = Raise pygame_error.
Proof. vm_compute. reflexivity. Qed.

(** C3, as the code has it: for a size of at least 1 by 1 and a
    well-formed style, compositing without [hanging] returns a surface of
    exactly that size; with [hanging], and a height of at least 6, the body
    is built six pixels shorter and the returned canvas has the requested
    size again. *)
Theorem composite_size_contract `{Libraries} (_custom : gmap string Surface)
    (w h : Z) (text : string) (hover unavailable : bool)
    (rounded_corners shadows : PyVal) (hanging : bool) :
  font_ok -> glyphs_ok _custom = true ->
  is_style_arg rounded_corners = true -> is_style_arg shadows = true ->
  1 <= w -> 1 <= h -> (hanging = true -> 6 <= h) ->
  let cls := if w =? h then SquareButtonClass else RectButtonClass in
  let rounded_corners' :=
    if isinstance_bool rounded_corners then py_list4 rounded_corners else rounded_corners in
  let shadows' := if isinstance_bool shadows then py_list4 shadows else shadows in
  exists button,
    RectButton.__init__ _custom cls (w, h) text hover unavailable
                        rounded_corners' shadows' hanging = Ok button
    /\ self_size button = (w, if hanging then h - 6 else h)
    /\ Button.new _custom (w, h) text hover unavailable rounded_corners shadows hanging
       = Ok (self_surface button)
    /\ get_size (self_surface button) = (w, h).
Proof.
  intros Hfont Hglyphs Hrc Hsh Hw Hh Hhang. cbv zeta.
  assert (Hrc' : exists a b c d,
             (if isinstance_bool rounded_corners then py_list4 rounded_corners
              else rounded_corners) = PyList [a; b; c; d]).
  { apply is_style_arg_inv in Hrc as [[b ->]|(a & b & c & d & ->)]; simpl; eauto 10. }
  assert (Hsh' : exists a b c d,
             (if isinstance_bool shadows then py_list4 shadows else shadows)
             = PyList [a; b; c; d]).
  { apply is_style_arg_inv in Hsh as [[b ->]|(a & b & c & d & ->)]; simpl; eauto 10. }
  destruct (init_Ok _custom Hfont Hglyphs
              (if w =? h then SquareButtonClass else RectButtonClass) w h text
              hover unavailable _ _ hanging Hrc' Hsh' ltac:(lia) ltac:(lia) Hhang)
    as (button & Hinit & Hsize & Hbw & Hbh).
  exists button. split; [exact Hinit|]. split; [exact Hsize|]. split.
  - unfold Button.new.
    assert (Ev : forall (v : PyVal) (msg : string), is_style_arg v = true ->
               (if isinstance_bool v then Ok (py_list4 v)
                else if negb (isinstance_list v)
                     then let* n := py_len v in
                          if negb (n =? 4) then Raise (ValueError msg) else Ok v
                     else Ok v)
               = Ok (if isinstance_bool v then py_list4 v else v)).
    { intros v msg Hv. apply is_style_arg_inv in Hv as [[b ->]|(a & b & c & d & ->)];
        reflexivity. }
    rewrite (Ev rounded_corners _ Hrc), (Ev shadows _ Hsh). cbn [bind fst snd].
    destruct (w =? h); rewrite Hinit; reflexivity.
  - unfold get_size. rewrite Hbw, Hbh. reflexivity.
Qed.

(** A hanging 30 by 20 button and a plain 1 by 1 button. *)
Lemma composite_size_contract_witness :
  (exists button,
     @RectButton.__init__ sample_libraries sample_custom RectButtonClass (30, 20) "ab"
       true false default_rounded_corners default_shadows true = Ok button
     /\ self_size button = (30, 14)
     /\ @Button.new sample_libraries sample_custom (30, 20) "ab" true false
          default_rounded_corners default_shadows true = Ok (self_surface button)
     /\ get_size (self_surface button) = (30, 20)).
Proof.
  apply (@composite_size_contract sample_libraries sample_custom 30 20 "ab" true false
           default_rounded_corners default_shadows true).
  - exact block_font_ok.
  - vm_compute. reflexivity.
  - reflexivity.
  - reflexivity.
  - lia.
  - lia.
  - intros _. lia.
Defined.

(** ** Where the label goes *)

Lemma quot_half_plus (n k : Z) : 0 <= n -> 0 <= k -> py_trunc_half_plus n k = n / 2 + k.
Proof.
  intros Hn Hk. unfold py_trunc_half_plus. rewrite Z.quot_div_nonneg by lia.
  replace (n + 2 * k) with (n + k * 2) by lia. rewrite Z.div_add by lia. reflexivity.
Qed.

(** C5, counterexample: a 40 by 30 button with a text label, not hanging:
    the label is centred on column 21, one to the right of the centre 20. *)
Lemma label_off_centre :
  let button := sample_object RectButtonClass (40, 30) "ab" false false false in
  self_hanging button = false /\ self_symbol button = false
  /\ fst (self_size button) / 2 = 20
  /\ rect_centerx (RectButton.text_rect button) = 21.
Proof. cbv zeta. vm_compute. repeat split; reflexivity. Qed.

(** C5, as the code has it: [_build] blits the label at the rectangle
    whose centre is the centre of [self.size] moved one pixel right and two
    pixels down by default, one right and 2 + 6 down on a hanging button (a
    single glyph included), and not moved at all for a single glyph on a
    button that does not hang. *)
Theorem label_placement `{Libraries} (cls : ButtonClass) (self self' : ButtonObject) :
  0 <= fst (self_size self) -> 0 <= snd (self_size self) ->
  RectButton._build cls self = Ok self' ->
  let r := RectButton.text_rect self in
  (exists canvas,
     self_surface self' = blit canvas (self_text self) (rect_x r, rect_y r))
  /\ rect_w r = get_width (self_text self)
  /\ rect_h r = get_height (self_text self)
  /\ rect_centerx r =
     fst (self_size self) / 2
     + (if self_hanging self then 1 else if self_symbol self then 0 else 1)
  /\ rect_centery r =
     snd (self_size self) / 2
     + (if self_hanging self then 2 + 6 else if self_symbol self then 0 else 2).
Proof.
  intros Hw Hh Hb. cbv zeta. split.
  - apply build_inv in Hb as (_ & _ & body & self1 & _ & _ & Hhang & ->).
    assert (Hself1 : exists canvas, self1 = set_surface self canvas).
    { destruct (self_hanging self).
      - apply hang_inv in Hhang as (canvas & -> & _). eexists; reflexivity.
      - subst self1. eexists; reflexivity. }
    destruct Hself1 as [canvas ->]. exists canvas. reflexivity.
  - unfold RectButton.text_rect. destruct (self_size self) as [w h]. cbn [fst snd] in *.
    destruct (self_hanging self); [|destruct (self_symbol self)];
      unfold get_rect_center, rect_centerx, rect_centery;
      cbn [rect_x rect_y rect_w rect_h];
      rewrite !quot_half_plus by lia; repeat split; lia.
Qed.

(** The composed 40 by 30 text button of the counterexample. *)
Lemma label_placement_witness :
  let self :=
    mkButtonObject (40, 30) (mkSurface 40 30 true (raster 40 30 (fun _ _ => transparent)))
      false false false false Palette.palette default_rounded_corners default_shadows
      (block_font "ab") in
  let r := RectButton.text_rect self in
  (exists canvas,
     self_surface (sample_object RectButtonClass (40, 30) "ab" false false false)
     = @blit sample_libraries canvas (block_font "ab") (rect_x r, rect_y r))
  /\ rect_w r = 16 /\ rect_h r = 16
  /\ rect_centerx r = 40 / 2 + 1
  /\ rect_centery r = 30 / 2 + 2.
Proof.
  cbv zeta.
  apply (@label_placement sample_libraries RectButtonClass
           (mkButtonObject (40, 30)
              (mkSurface 40 30 true (raster 40 30 (fun _ _ => transparent)))
              false false false false Palette.palette default_rounded_corners default_shadows
              (block_font "ab"))
           (sample_object RectButtonClass (40, 30) "ab" false false false)).
  - simpl. lia.
  - simpl. lia.
  - vm_compute. reflexivity.
Defined.

(** ** Edge strips *)

Lemma even_false_odd (n : Z) : Z.even n = false -> n mod 2 = 1.
Proof.
  intros E. rewrite <- Z.negb_odd in E. apply negb_false_iff, Z.odd_spec in E.
  destruct E as [k ->]. rewrite Z.add_comm, Z.mul_comm, Z.mod_add by lia. reflexivity.
Qed.

Lemma even_true_even (n : Z) : Z.even n = true -> n mod 2 = 0.
Proof.
  intros E. apply Z.even_spec in E. destruct E as [k ->].
  rewrite Z.mul_comm, Z.mod_mul by lia. reflexivity.
Qed.

(** The test [round(length / 2) != int(length / 2)] fires on the lengths
    that leave 3 when divided by 4, and on no other length from 0 up. *)
Lemma odd_test (length : Z) :
  0 <= length ->
  negb (py_round_half length =? py_int_half length) = (length mod 4 =? 3).
Proof.
  intros Hl. unfold py_round_half, py_int_half. rewrite Z.quot_div_nonneg by lia.
  destruct (Z.even length) eqn:E1.
  - apply even_true_even in E1. rewrite Z.eqb_refl. simpl. symmetry. apply Z.eqb_neq.
    intros E. pose proof (Z.mod_pos_bound length 4). Z.div_mod_to_equations. lia.
  - apply even_false_odd in E1. destruct (Z.even (length / 2)) eqn:E2.
    + apply even_true_even in E2. rewrite Z.eqb_refl. simpl. symmetry. apply Z.eqb_neq.
      Z.div_mod_to_equations. lia.
    + apply even_false_odd in E2.
      replace (length / 2 + 1 =? length / 2) with false by (symmetry; apply Z.eqb_neq; lia).
      simpl. symmetry. apply Z.eqb_eq. Z.div_mod_to_equations. lia.
Qed.

Lemma get_size_rotate90 (s : Surface) :
  1 <= get_width s -> 1 <= get_height s ->
  get_width (transform_rotate90 s) = get_height s
  /\ get_height (transform_rotate90 s) = get_width s.
Proof.
  intros Hw Hh. unfold transform_rotate90.
  replace ((get_width s <? 1) || (get_height s <? 1)) with false
    by (symmetry; apply orb_false_iff; split; apply Z.ltb_ge; lia).
  split; reflexivity.
Qed.

(** A surface without width is not turned. *)
Lemma rotate90_empty (s : Surface) :
  get_width s = 0 -> transform_rotate90 s = s.
Proof. intros Hw. unfold transform_rotate90. rewrite Hw. reflexivity. Qed.

Lemma get_size_flip (s : Surface) (fx fy : bool) :
  get_width (transform_flip s fx fy) = get_width s
  /\ get_height (transform_flip s fx fy) = get_height s.
Proof. split; reflexivity. Qed.

Ltac strip_base :=
  repeat first
    [ rewrite (proj1 (get_size_flip _ _ _)) | rewrite (proj2 (get_size_flip _ _ _))
    | rewrite get_width_draw_rect | rewrite get_height_draw_rect
    | progress cbn [get_width get_height] ].

Ltac strip_size :=
  repeat first
    [ rewrite (proj1 (get_size_flip _ _ _)) | rewrite (proj2 (get_size_flip _ _ _))
    | rewrite (fun s Hw Hh => proj1 (get_size_rotate90 s Hw Hh)) by (strip_base; lia)
    | rewrite (fun s Hw Hh => proj2 (get_size_rotate90 s Hw Hh)) by (strip_base; lia)
    | rewrite get_width_draw_rect | rewrite get_height_draw_rect
    | progress cbn [get_width get_height] ].

Ltac strip_pixels :=
  rewrite ?get_at_draw_rect, ?srcalpha_draw_rect;
  rewrite ?rect_covers_pos by (cbn [rect_w rect_h]; lia);
  rewrite ?get_at_raster;
  unfold in_bounds, strip_tone;
  rewrite ?get_width_draw_rect, ?get_height_draw_rect;
  cbn [get_width get_height srcalpha rect_x rect_y rect_w rect_h];
  zbool.




(** ** The rope band of a hanging button *)

Section RopeFacts.
Context `{Libraries}.
Variable _custom : gmap string Surface.

(** The canvas of a hanging button above row 6, whatever the body is. *)
Lemma hang_band (self self1 : ButtonObject) (x y : Z) :
  RectButton._hang self = Ok self1 -> 0 <= snd (self_size self) -> y < 6 ->
  get_at (self_surface self1) x y =
  if in_bounds (self_surface self1) x y then rope_band (fst (self_size self)) x
  else transparent.
Proof.
  intros Hh Hsz Hy. apply hang_inv in Hh as (canvas & -> & Hw & Hh & Hcw & Hch & Hpx).
  cbn [self_surface set_surface]. destruct (in_bounds canvas x y) eqn:B.
  - apply in_bounds_true in B. apply Hpx; lia.
  - apply get_at_outside. exact B.
Qed.

(** Two renders of one hanging button under two palettes. *)
Lemma init_band (cls : ButtonClass) (size : Z * Z) (text : string)
    (hover unavailable hover' unavailable' : bool) (rounded_corners shadows : PyVal)
    (button : ButtonObject) :
  RectButton.__init__ _custom cls size text hover unavailable rounded_corners shadows true
  = Ok button ->
  exists button',
    RectButton.__init__ _custom cls size text hover' unavailable' rounded_corners shadows true
    = Ok button'
    /\ get_size (self_surface button) = get_size (self_surface button')
    /\ forall x y, y < 6 ->
         get_at (self_surface button) x y = get_at (self_surface button') x y.
Proof.
  intros Hi. apply init_inv in Hi as (surface & label & symbol & Hs & Ht & Hb).
  cbv zeta in Hs, Hb. cbn [fst snd] in Hs, Hb.
  pose proof (pygame_Surface_inv _ _ _ Hs) as (Hw0 & Hh0 & Hsw & Hsh & _).
  cbn [fst snd] in Hw0, Hh0, Hsw, Hsh.
  pose proof (build_inv _ _ _ Hb) as (Hgs & Hgr & body & self1 & Hbw & Hbh & Hhang & ->).
  cbn [self_hanging self_shadow self_rounded_corners self_surface] in Hgs, Hgr, Hbw, Hbh, Hhang.
  set (palette' := if unavailable' then Palette.unavailable
                   else if hover' then Palette.hover else Palette.palette).
  destruct (build_Ok cls
              (mkButtonObject (fst size, snd size - 6) surface hover' unavailable' true symbol
                 palette' rounded_corners shadows label)) as [button' Hb'].
  { exact Hgs. }
  { exact Hgr. }
  { cbn [self_size fst snd]. intros _. lia. }
  exists button'. split.
  { unfold RectButton.__init__. cbn [fst snd]. rewrite Hs. cbn [bind]. rewrite Ht.
    cbn [bind]. exact Hb'. }
  pose proof (build_inv _ _ _ Hb') as (_ & _ & body' & self1' & Hbw' & Hbh' & Hhang' & ->).
  cbn [self_hanging self_surface] in Hbw', Hbh', Hhang'.
  pose proof (hang_inv _ _ Hhang) as (canvas & E1 & _ & _ & Hcw & Hch & _).
  pose proof (hang_inv _ _ Hhang') as (canvas' & E1' & _ & _ & Hcw' & Hch' & _).
  cbn [self_size set_surface fst snd] in Hcw, Hch, Hcw', Hch'.
  assert (Hrect : RectButton.text_rect self1 = RectButton.text_rect self1')
    by (rewrite E1, E1'; reflexivity).
  assert (Htext : self_text self1 = self_text self1') by (rewrite E1, E1'; reflexivity).
  cbn [self_surface set_surface]. rewrite Hrect, Htext. split.
  { unfold get_size. rewrite !get_width_blit, !get_height_blit.
    rewrite E1, E1'. cbn [self_surface set_surface]. congruence. }
  intros x y Hy. apply get_at_blit_ext.
  - rewrite E1, E1'. cbn [self_surface set_surface]. congruence.
  - rewrite E1, E1'. cbn [self_surface set_surface]. congruence.
  - rewrite (hang_band _ _ x y Hhang) by (cbn [self_size set_surface snd]; lia).
    rewrite (hang_band _ _ x y Hhang') by (cbn [self_size set_surface snd]; lia).
    cbn [self_size set_surface fst].
    rewrite (in_bounds_size (self_surface self1) (self_surface self1'))
      by (rewrite E1, E1'; cbn [self_surface set_surface]; congruence).
    reflexivity.
Qed.
End RopeFacts.



(** ** The handlers and the cache *)

Lemma flag_list_inv (v : PyVal) :
  flag_list v = true ->
  exists a b c d, v = PyList [PyBool a; PyBool b; PyBool c; PyBool d].
Proof.
  intros Hv. destruct v as [| | | | l |]; try discriminate.
  do 4 (destruct l as [|[] l]; try discriminate). destruct l; try discriminate.
  eauto 10.
Qed.

Lemma flag_list_eq (a b : PyVal) :
  flag_list a = true -> flag_list b = true -> py_eq a b = true -> a = b.
Proof.
  intros Ha Hb. apply flag_list_inv in Ha as (a0 & a1 & a2 & a3 & ->).
  apply flag_list_inv in Hb as (b0 & b1 & b2 & b3 & ->).
  cbn [py_eq seq_eq]. rewrite !andb_true_iff.
  intros (E0 & E1 & E2 & E3 & _).
  apply eqb_prop in E0, E1, E2, E3. subst. reflexivity.
Qed.

Lemma flag_list_four (v : PyVal) :
  flag_list v = true -> exists a b c d, v = PyList [a; b; c; d].
Proof. intros Hv. apply flag_list_inv in Hv as (a & b & c & d & ->). eauto 10. Qed.

(** A descriptor that matches an entry whose style fields are flag lists,
    and has flag lists itself, is that entry's descriptor. *)
Lemma matches_eq (size : Z * Z) (text : string) (hover unavailable : bool)
    (rounded_corners shadows : PyVal) (hanging : bool) (item : CacheEntry) :
  flag_list rounded_corners = true -> flag_list shadows = true ->
  flag_list (entry_rounded_corners item) = true -> flag_list (entry_shadows item) = true ->
  ButtonCache.matches size text hover unavailable rounded_corners shadows hanging item = true ->
  size = entry_size item /\ text = entry_text item /\ hover = entry_hover item
  /\ unavailable = entry_unavailable item /\ rounded_corners = entry_rounded_corners item
  /\ shadows = entry_shadows item /\ hanging = entry_hanging item.
Proof.
  intros Hr Hs Hr' Hs'. unfold ButtonCache.matches. rewrite !andb_true_iff.
  intros [[[[[[[Ew Eh] Et] Eho] Eu] Er] Es] Eg].
  apply Z.eqb_eq in Ew, Eh. apply String.eqb_eq in Et. apply eqb_prop in Eho, Eu, Eg.
  destruct size as [w h], (entry_size item) as [w' h']. cbn [fst snd] in *. subst.
  repeat split; auto using flag_list_eq.
Qed.

Lemma load_button_Some (storage : list CacheEntry) (size : Z * Z) (text : string)
    (hover unavailable : bool) (rounded_corners shadows : PyVal) (hanging : bool)
    (item : CacheEntry) :
  ButtonCache.load_button storage size text hover unavailable rounded_corners shadows hanging
  = Some item ->
  In item storage
  /\ ButtonCache.matches size text hover unavailable rounded_corners shadows hanging item = true.
Proof.
  unfold ButtonCache.load_button.
  destruct (List.filter _ storage) as [|e l] eqn:E; [discriminate|].
  intros [= <-]. apply List.filter_In. rewrite E. left. reflexivity.
Qed.

Section HandlerFacts.
Context `{Libraries}.
Variable _custom : gmap string Surface.

(** The step every handler and the constructor share: the cached entry on
    a hit; on a miss the render, appended to the storage. *)
Lemma lookup_or_render_inv (storage : list CacheEntry)
    (size : Z * Z) (text : string) (hover unavailable : bool)
    (rounded_corners shadows : PyVal) (hanging : bool)
    (size' : Z * Z) (text' : string) (hover' unavailable' : bool)
    (rounded_corners' shadows' : PyVal) (hanging' : bool)
    (sprite : Surface) (storage' : list CacheEntry) :
  match ButtonCache.load_button storage size' text' hover' unavailable'
          rounded_corners' shadows' hanging' with
  | Some cache => Ok (entry_surface cache, storage)
  | None =>
      let* surface :=
        Button.new _custom size text hover unavailable rounded_corners shadows hanging in
      Ok (ButtonCache.store_button storage surface size text hover unavailable
            rounded_corners shadows hanging)
  end = Ok (sprite, storage') ->
  (exists cache,
      ButtonCache.load_button storage size' text' hover' unavailable'
        rounded_corners' shadows' hanging' = Some cache
      /\ sprite = entry_surface cache /\ storage' = storage)
  \/ (ButtonCache.load_button storage size' text' hover' unavailable'
        rounded_corners' shadows' hanging' = None
      /\ Button.new _custom size text hover unavailable rounded_corners shadows hanging
         = Ok sprite
      /\ storage' = (storage ++ [mkCacheEntry sprite size text hover unavailable
                                   rounded_corners shadows hanging])%list).
Proof.
  destruct (ButtonCache.load_button storage size' text' hover' unavailable'
              rounded_corners' shadows' hanging') as [cache|].
  - intros [= <- <-]. left. eauto.
  - intros Hs. apply bind_Ok in Hs as (surface & Hnew & Hs).
    unfold ButtonCache.store_button in Hs. injection Hs as <- <-. right. auto.
Qed.

(** After the step, the lookup under the same key answers with the sprite
    and would not change the storage. *)
Lemma lookup_or_render_again (storage : list CacheEntry)
    (size : Z * Z) (text : string) (hover unavailable : bool)
    (rounded_corners shadows : PyVal) (hanging : bool)
    (sprite : Surface) (storage' : list CacheEntry) :
  match ButtonCache.load_button storage size text hover unavailable
          rounded_corners shadows hanging with
  | Some cache => Ok (entry_surface cache, storage)
  | None =>
      let* surface :=
        Button.new _custom size text hover unavailable rounded_corners shadows hanging in
      Ok (ButtonCache.store_button storage surface size text hover unavailable
            rounded_corners shadows hanging)
  end = Ok (sprite, storage') ->
  exists cache,
    ButtonCache.load_button storage' size text hover unavailable
      rounded_corners shadows hanging = Some cache
    /\ entry_surface cache = sprite.
Proof.
  intros Hs. apply lookup_or_render_inv in Hs as [(cache & Hhit & -> & ->)|(Hmiss & _ & ->)].
  - eauto.
  - rewrite load_button_app, Hmiss, matches_refl. eauto.
Qed.

(** The step appends at most one entry and leaves every earlier answer of
    the cache as it was. *)
Lemma lookup_or_render_grows (storage : list CacheEntry)
    (size : Z * Z) (text : string) (hover unavailable : bool)
    (rounded_corners shadows : PyVal) (hanging : bool)
    (size' : Z * Z) (text' : string) (hover' unavailable' : bool)
    (rounded_corners' shadows' : PyVal) (hanging' : bool)
    (sprite : Surface) (storage' : list CacheEntry) :
  match ButtonCache.load_button storage size' text' hover' unavailable'
          rounded_corners' shadows' hanging' with
  | Some cache => Ok (entry_surface cache, storage)
  | None =>
      let* surface :=
        Button.new _custom size text hover unavailable rounded_corners shadows hanging in
      Ok (ButtonCache.store_button storage surface size text hover unavailable
            rounded_corners shadows hanging)
  end = Ok (sprite, storage') ->
  (exists tail, storage' = (storage ++ tail)%list /\ (length tail <= 1)%nat)
  /\ forall size0 text0 hover0 unavailable0 rounded_corners0 shadows0 hanging0 item,
       ButtonCache.load_button storage size0 text0 hover0 unavailable0
         rounded_corners0 shadows0 hanging0 = Some item ->
       ButtonCache.load_button storage' size0 text0 hover0 unavailable0
         rounded_corners0 shadows0 hanging0 = Some item.
Proof.
  intros Hs. apply lookup_or_render_inv in Hs as [(cache & _ & _ & ->)|(_ & _ & ->)].
  - split; [exists []; rewrite app_nil_r; auto|]. auto.
  - split; [eexists; split; [reflexivity|simpl; lia]|].
    intros size0 text0 hover0 unavailable0 rc0 sh0 hanging0 item Hhit.
    rewrite load_button_app, Hhit. reflexivity.
Qed.

(** With a coherent cache and flag lists for the style, the step keeps the
    cache coherent and its sprite is the render of the key. *)
Lemma lookup_or_render_coherent (storage : list CacheEntry)
    (size : Z * Z) (text : string) (hover unavailable : bool)
    (rounded_corners shadows : PyVal) (hanging : bool)
    (sprite : Surface) (storage' : list CacheEntry) :
  coherent _custom storage ->
  flag_list rounded_corners = true -> flag_list shadows = true ->
  match ButtonCache.load_button storage size text hover unavailable
          rounded_corners shadows hanging with
  | Some cache => Ok (entry_surface cache, storage)
  | None =>
      let* surface :=
        Button.new _custom size text hover unavailable rounded_corners shadows hanging in
      Ok (ButtonCache.store_button storage surface size text hover unavailable
            rounded_corners shadows hanging)
  end = Ok (sprite, storage') ->
  coherent _custom storage'
  /\ Button.new _custom size text hover unavailable rounded_corners shadows hanging
     = Ok sprite.
Proof.
  intros Hcoh Hr Hs Hstep.
  apply lookup_or_render_inv in Hstep as [(cache & Hhit & -> & ->)|(_ & Hnew & ->)].
  - split; [exact Hcoh|].
    apply load_button_Some in Hhit as [Hin Hm].
    unfold coherent in Hcoh. rewrite List.Forall_forall in Hcoh.
    destruct (Hcoh cache Hin) as (Hr' & Hs' & Hrender).
    destruct (matches_eq _ _ _ _ _ _ _ _ Hr Hs Hr' Hs' Hm)
      as (-> & -> & -> & -> & -> & -> & ->).
    exact Hrender.
  - split; [|exact Hnew].
    apply Forall_app. split; [exact Hcoh|]. constructor; [|constructor].
    repeat split; assumption.
Qed.
End HandlerFacts.

Section HandlerSteps.
Context `{Libraries}.
Variable _custom : gmap string Surface.

(** Each handler is the shared step under the key of its event, followed
    by the new image and hover flag. *)
Lemma handle_inv (event : Event) (storage : list CacheEntry) (self self1 : Widget)
    (storage1 : list CacheEntry) :
  handle _custom event storage self = Ok (self1, storage1) ->
  exists sprite,
    match ButtonCache.load_button storage (rect_size (relative_rect self))
            (widget_text self) (event_hover event self) (event_unavailable event)
            (widget_rounded_corners self) (widget_shadows self) (widget_hanging self) with
    | Some cache => Ok (entry_surface cache, storage)
    | None =>
        let* surface :=
          Button.new _custom (rect_size (relative_rect self)) (widget_text self)
            (event_hover event self) (event_unavailable event)
            (widget_rounded_corners self) (widget_shadows self) (widget_hanging self) in
        Ok (ButtonCache.store_button storage surface (rect_size (relative_rect self))
              (widget_text self) (event_hover event self) (event_unavailable event)
              (widget_rounded_corners self) (widget_shadows self) (widget_hanging self))
    end = Ok (sprite, storage1)
    /\ self1 = set_image self (transform_scale sprite (rect_size (relative_rect self)))
                 (event_hover event self).
Proof.
  destruct event; unfold handle, CatButton.on_hovered, CatButton.disable, CatButton.enable,
    CatButton.on_unhovered; cbv zeta; intros Hh;
    apply bind_Ok in Hh as ([sprite storage'] & Hstep & Hh);
    injection Hh as <- <-; exists sprite; cbn [event_hover event_unavailable];
    try (split; [exact Hstep | reflexivity]).
  destruct (widget_hover self); split; first [exact Hstep | reflexivity].
Qed.

Lemma handle_hit (event : Event) (storage : list CacheEntry) (self : Widget)
    (cache : CacheEntry) :
  ButtonCache.load_button storage (rect_size (relative_rect self))
    (widget_text self) (event_hover event self) (event_unavailable event)
    (widget_rounded_corners self) (widget_shadows self) (widget_hanging self) = Some cache ->
  handle _custom event storage self
  = Ok (set_image self (transform_scale (entry_surface cache) (rect_size (relative_rect self)))
                  (event_hover event self), storage).
Proof.
  destruct event; unfold handle, CatButton.on_hovered, CatButton.disable, CatButton.enable,
    CatButton.on_unhovered; cbv zeta; cbn [event_hover event_unavailable]; intros Hhit;
    try (rewrite Hhit; reflexivity).
  destruct (widget_hover self); rewrite Hhit; reflexivity.
Qed.
End HandlerSteps.

(** X1: a handler run a second time, on the widget and the cache its first
    run left, changes nothing: the sprite is found in the cache, no entry is
    added and the widget keeps its image and hover flag. *)
Theorem handler_repeat `{Libraries} (_custom : gmap string Surface) (event : Event)
    (storage storage1 : list CacheEntry) (self self1 : Widget) :
  handle _custom event storage self = Ok (self1, storage1) ->
  handle _custom event storage1 self1 = Ok (self1, storage1).
Proof.
  intros Hh. apply handle_inv in Hh as (sprite & Hstep & ->).
  apply lookup_or_render_again in Hstep as (cache & Hhit & <-).
  assert (Hhover : event_hover event
                     (set_image self (transform_scale (entry_surface cache)
                                        (rect_size (relative_rect self)))
                                (event_hover event self)) = event_hover event self)
    by (destruct event; reflexivity).
  rewrite (handle_hit _custom event storage1 _ cache).
  - cbn [relative_rect set_image]. rewrite Hhover. reflexivity.
  - cbn [relative_rect widget_text widget_rounded_corners widget_shadows widget_hanging
         set_image]. rewrite Hhover. exact Hhit.
Qed.

(** Hovering the sample widget twice. *)
Lemma handler_repeat_witness :
  match @handle sample_libraries sample_custom Hovered (sample_storage None "ab")
          (sample_widget None "ab") with
  | Ok (self1, storage1) =>
      @handle sample_libraries sample_custom Hovered storage1 self1 = Ok (self1, storage1)
      /\ length storage1 = 2%nat
  | Raise _ => False
  end.
Proof.
  destruct (@handle sample_libraries sample_custom Hovered (sample_storage None "ab")
              (sample_widget None "ab")) as [[self1 storage1]|e] eqn:E.
  - split; [exact (handler_repeat sample_custom Hovered _ _ _ _ E)|].
    vm_compute in E. injection E as <- <-. reflexivity.
  - vm_compute in E. discriminate.
Defined.

(** X2: the constructor and every handler only ever append to the cache, at
    most one entry a call, and every lookup the cache answered before is
    answered with the same entry after. *)
Theorem cache_only_grows `{Libraries} (_custom : gmap string Surface) (_styles : StyleSheet)
    (LANGUAGE : string) (relative_rect : Rect) (text : string) (object_id : option string)
    (event : Event) (storage storage1 : list CacheEntry) (self self1 : Widget) :
  UIButton.__init__ _custom _styles LANGUAGE storage relative_rect text object_id
  = Ok (self1, storage1)
  \/ handle _custom event storage self = Ok (self1, storage1) ->
  cache_extends storage storage1.
Proof.
  intros [Hi|Hh].
  - unfold UIButton.__init__ in Hi. cbv zeta in Hi.
    apply bind_Ok in Hi as ([sprite storage'] & Hstep & Hi). injection Hi as _ <-.
    apply lookup_or_render_grows in Hstep. exact Hstep.
  - apply handle_inv in Hh as (sprite & Hstep & _).
    apply lookup_or_render_grows in Hstep. exact Hstep.
Qed.

(** Building the sample widget in an empty cache. *)
Lemma cache_only_grows_witness :
  cache_extends [] (sample_storage (Some "#hang_button") "ab").
Proof.
  apply (@cache_only_grows sample_libraries sample_custom sample_styles "en-us" sample_rect
           "ab" (Some "#hang_button") Hovered [] (sample_storage (Some "#hang_button") "ab")
           (sample_widget None "ab") (sample_widget (Some "#hang_button") "ab")).
  left. vm_compute. reflexivity.
Defined.

(** X3: when every cache entry holds the render of its own descriptor, a
    handler leaves the cache so, and the image it shows is the scaled render
    of the widget in the state of the event, whether it came from the cache
    or was drawn. *)
Theorem handler_shows_render `{Libraries} (_custom : gmap string Surface) (event : Event)
    (storage storage1 : list CacheEntry) (self self1 : Widget) :
  coherent _custom storage ->
  flag_list (widget_rounded_corners self) = true ->
  flag_list (widget_shadows self) = true ->
  handle _custom event storage self = Ok (self1, storage1) ->
  coherent _custom storage1
  /\ exists sprite,
       Button.new _custom (rect_size (relative_rect self)) (widget_text self)
         (event_hover event self) (event_unavailable event)
         (widget_rounded_corners self) (widget_shadows self) (widget_hanging self)
       = Ok sprite
       /\ widget_image self1 = transform_scale sprite (rect_size (relative_rect self))
       /\ widget_hover self1 = event_hover event self.
Proof.
  intros Hcoh Hr Hs Hh. apply handle_inv in Hh as (sprite & Hstep & ->).
  apply (lookup_or_render_coherent _custom _ _ _ _ _ _ _ _ _ _ Hcoh Hr Hs) in Hstep
    as [Hcoh1 Hnew].
  split; [exact Hcoh1|]. exists sprite. repeat split. exact Hnew.
Qed.

(** X4: the constructor keeps such a cache as it is or appends the render
    of the resolved style under the resolved style, so the cache stays
    coherent; the widget carries the resolved style. *)
Theorem constructor_keeps_coherent `{Libraries} (_custom : gmap string Surface)
    (_styles : StyleSheet) (LANGUAGE : string) (storage storage1 : list CacheEntry)
    (relative_rect : Rect) (text : string) (object_id : option string) (self : Widget) :
  coherent _custom storage ->
  flag_list (_Style.check_round _styles object_id) = true ->
  flag_list (_Style.check_shadow _styles object_id) = true ->
  UIButton.__init__ _custom _styles LANGUAGE storage relative_rect text object_id
  = Ok (self, storage1) ->
  coherent _custom storage1
  /\ widget_rounded_corners self = _Style.check_round _styles object_id
  /\ widget_shadows self = _Style.check_shadow _styles object_id
  /\ widget_hanging self = _Style.check_hanging _styles object_id.
Proof.
  intros Hcoh Hr Hs Hi. unfold UIButton.__init__ in Hi. cbv zeta in Hi.
  apply bind_Ok in Hi as ([sprite storage'] & Hstep & Hi). injection Hi as <- <-.
  split; [|repeat split].
  apply lookup_or_render_inv in Hstep as [(cache & _ & _ & ->)|(_ & Hnew & ->)];
    [exact Hcoh|].
  apply Forall_app. split; [exact Hcoh|]. constructor; [|constructor].
  repeat split; assumption.
Qed.


Lemma sample_storage_coherent :
  coherent (H := sample_libraries) sample_custom (sample_storage None "ab").
Proof.
  unfold coherent.
  assert (E : exists item, sample_storage None "ab" = [item]) by (vm_compute; eauto).
  destruct E as [item E]. rewrite E. constructor; [|constructor].
  vm_compute in E. injection E as <-. unfold rendered.
  cbn [entry_rounded_corners entry_shadows entry_size entry_text entry_hover
       entry_unavailable entry_hanging entry_surface].
  repeat split; vm_compute; reflexivity.
Qed.

(** Hovering the sample widget over the cache its constructor left. *)
Lemma handler_shows_render_witness :
  coherent (H := sample_libraries) sample_custom (snd sample_hovered)
  /\ exists sprite,
       @Button.new sample_libraries sample_custom
         (rect_size (relative_rect (sample_widget None "ab")))
         (widget_text (sample_widget None "ab"))
         (event_hover Hovered (sample_widget None "ab")) (event_unavailable Hovered)
         (widget_rounded_corners (sample_widget None "ab"))
         (widget_shadows (sample_widget None "ab"))
         (widget_hanging (sample_widget None "ab")) = Ok sprite
       /\ widget_image (fst sample_hovered)
          = @transform_scale sample_libraries sprite
              (rect_size (relative_rect (sample_widget None "ab")))
       /\ widget_hover (fst sample_hovered) = event_hover Hovered (sample_widget None "ab").
Proof.
  assert (Hr : flag_list (widget_rounded_corners (sample_widget None "ab")) = true)
    by (vm_compute; reflexivity).
  assert (Hs : flag_list (widget_shadows (sample_widget None "ab")) = true)
    by (vm_compute; reflexivity).
  assert (Hh : @handle sample_libraries sample_custom Hovered (sample_storage None "ab")
                 (sample_widget None "ab") = Ok (fst sample_hovered, snd sample_hovered))
    by (vm_compute; reflexivity).
  exact (@handler_shows_render sample_libraries sample_custom Hovered
           (sample_storage None "ab") (snd sample_hovered)
           (sample_widget None "ab") (fst sample_hovered)
           sample_storage_coherent Hr Hs Hh).
Defined.

(** Building the hanging sample widget in an empty cache. *)
Lemma constructor_keeps_coherent_witness :
  coherent (H := sample_libraries) sample_custom (sample_storage (Some "#hang_button") "ab")
  /\ widget_rounded_corners (sample_widget (Some "#hang_button") "ab")
     = _Style.check_round sample_styles (Some "#hang_button")
  /\ widget_shadows (sample_widget (Some "#hang_button") "ab")
     = _Style.check_shadow sample_styles (Some "#hang_button")
  /\ widget_hanging (sample_widget (Some "#hang_button") "ab")
     = _Style.check_hanging sample_styles (Some "#hang_button").
Proof.
  assert (Hr : flag_list (_Style.check_round sample_styles (Some "#hang_button")) = true)
    by (vm_compute; reflexivity).
  assert (Hs : flag_list (_Style.check_shadow sample_styles (Some "#hang_button")) = true)
    by (vm_compute; reflexivity).
  assert (Hi : @UIButton.__init__ sample_libraries sample_custom sample_styles "en-us" []
                 sample_rect "ab" (Some "#hang_button")
               = Ok (sample_widget (Some "#hang_button") "ab",
                     sample_storage (Some "#hang_button") "ab"))
    by (vm_compute; reflexivity).
  exact (@constructor_keeps_coherent sample_libraries sample_custom sample_styles "en-us"
           [] (sample_storage (Some "#hang_button") "ab") sample_rect "ab"
           (Some "#hang_button") (sample_widget (Some "#hang_button") "ab")
           (@List.Forall_nil _ _) Hr Hs Hi).
Defined.

(** ** What the facade can and cannot raise *)

Lemma bind_Raise {A B : Type} (m : result A) (k : A -> result B) (e : exn) :
  bind m k = Raise e -> m = Raise e \/ exists a, m = Ok a /\ k a = Raise e.
Proof. destruct m as [a|e']; simpl; intros E; [eauto | left; congruence]. Qed.

Lemma pygame_Surface_Raise (size : Z * Z) (alpha : bool) (e : exn) :
  pygame_Surface size alpha = Raise e -> e = pygame_error.
Proof.
  destruct size as [w h]. unfold pygame_Surface.
  destruct ((w <? 0) || (h <? 0)); congruence.
Qed.

Lemma mapM_Raise {A B : Type} (f : A -> result B) (P : exn -> Prop) (l : list A) (e : exn) :
  (forall x e, f x = Raise e -> P e) -> mapM f l = Raise e -> P e.
Proof.
  intros Hf. induction l as [|x l IH]; simpl; [discriminate|].
  intros Hm. apply bind_Raise in Hm as [Hm|(y & _ & Hm)]; [eauto|].
  apply bind_Raise in Hm as [Hm|(ys & _ & Hm)]; [eauto | discriminate].
Qed.

(** The style resolver hands out lists of four values, whatever the style
    sheet holds. *)
Lemma check_round_four (_styles : StyleSheet) (object_id : option string) :
  exists a b c d, _Style.check_round _styles object_id = PyList [a; b; c; d].
Proof.
  unfold _Style.check_round.
  destruct (_Style.get_style (styles_round _styles) object_id) as [[| b | z | s | l | l]|];
    try (unfold py_list4; eauto 10).
  destruct (Z.of_nat (length l) =? 4) eqn:E; [|eauto 10].
  apply Z.eqb_eq in E.
  destruct l as [|a [|b [|c [|d [|e l]]]]]; cbn [length] in E; try lia. eauto 10.
Qed.

Lemma check_shadow_four (_styles : StyleSheet) (object_id : option string) :
  exists a b c d, _Style.check_shadow _styles object_id = PyList [a; b; c; d].
Proof.
  unfold _Style.check_shadow. destruct object_id as [k|]; [|eauto 10].
  destruct (_Style.get_style (styles_shadow _styles) (Some k)) as [[| b | z | s | l | l]|];
    try (eauto 10).
  destruct (Z.of_nat (length l) =? 4) eqn:E; [|eauto 10].
  apply Z.eqb_eq in E.
  destruct l as [|a [|b [|c [|d [|e l]]]]]; cbn [length] in E; try lia. eauto 10.
Qed.

Section FacadeFacts.
Context `{Libraries}.
Variable _custom : gmap string Surface.

(** With lists of four values the argument checks of [Button.new] pass. *)
Lemma new_lists (size : Z * Z) (text : string) (hover unavailable : bool)
    (rounded_corners shadows : PyVal) (hanging : bool) :
  (exists a b c d, rounded_corners = PyList [a; b; c; d]) ->
  (exists a b c d, shadows = PyList [a; b; c; d]) ->
  Button.new _custom size text hover unavailable rounded_corners shadows hanging
  = let* button :=
      RectButton.__init__ _custom
        (if fst size =? snd size then SquareButtonClass else RectButtonClass)
        size text hover unavailable rounded_corners shadows hanging in
    Ok (self_surface button).
Proof.
  intros (r0 & r1 & r2 & r3 & ->) (s0 & s1 & s2 & s3 & ->).
  unfold Button.new. cbn [isinstance_bool isinstance_list negb bind].
  destruct (fst size =? snd size); reflexivity.
Qed.

Lemma render_item_Raise (item : string) (e : exn) :
  RectButton.render_item _custom item = Raise e -> e = pygame_error.
Proof.
  unfold RectButton.render_item. destruct (_custom !! item) as [glyph|]; [|discriminate].
  intros Hr. apply bind_Raise in Hr as [Hr|(s & _ & Hr)]; [|discriminate].
  apply pygame_Surface_Raise in Hr. exact Hr.
Qed.

Lemma render_line_Raise (line : string) (e : exn) :
  RectButton.render_line _custom line = Raise e -> e = pygame_error.
Proof.
  unfold RectButton.render_line. destruct (tokenize_Ok line) as [fm ->]. cbn [bind].
  intros Hr. apply bind_Raise in Hr as [Hr|(surfaces & _ & Hr)].
  - revert Hr. apply (mapM_Raise _ (fun e => e = pygame_error)). apply render_item_Raise.
  - cbv zeta in Hr. apply bind_Raise in Hr as [Hr|(s & _ & Hr)]; [|discriminate].
    apply pygame_Surface_Raise in Hr. exact Hr.
Qed.

Lemma build_text_Raise (text : string) (e : exn) :
  RectButton._build_text _custom text = Raise e -> e = pygame_error.
Proof.
  unfold RectButton._build_text. destruct (_custom !! text); [discriminate|].
  intros Hr. apply bind_Raise in Hr as [Hr|(texts & _ & Hr)].
  - revert Hr. apply (mapM_Raise _ (fun e => e = pygame_error)). apply render_line_Raise.
  - cbv zeta in Hr. apply bind_Raise in Hr as [Hr|(s & _ & Hr)]; [|discriminate].
    apply pygame_Surface_Raise in Hr. exact Hr.
Qed.

Lemma init_Raise (cls : ButtonClass) (size : Z * Z) (text : string)
    (hover unavailable : bool) (rounded_corners shadows : PyVal) (hanging : bool)
    (e : exn) :
  (exists a b c d, rounded_corners = PyList [a; b; c; d]) ->
  (exists a b c d, shadows = PyList [a; b; c; d]) ->
  RectButton.__init__ _custom cls size text hover unavailable rounded_corners shadows hanging
  = Raise e ->
  e = pygame_error.
Proof.
  intros (r0 & r1 & r2 & r3 & ->) (s0 & s1 & s2 & s3 & ->).
  unfold RectButton.__init__. intros Hi.
  apply bind_Raise in Hi as [Hi|(surface & Hs & Hi)];
    [apply pygame_Surface_Raise in Hi; exact Hi|].
  apply bind_Raise in Hi as [Hi|([label symbol] & _ & Hi)];
    [apply build_text_Raise in Hi; exact Hi|].
  apply pygame_Surface_inv in Hs as (Hw & Hh & _).
  match type of Hi with
  | RectButton._build cls ?o = _ => destruct (build_Ok cls o) as [button Hb]
  end.
  - cbn [self_shadow]. apply getitem_list4.
  - cbn [self_rounded_corners]. apply getitem_list4.
  - cbn [self_hanging self_size]. intros ->. cbn [fst snd] in *. lia.
  - congruence.
Qed.

Lemma new_Raise (size : Z * Z) (text : string) (hover unavailable : bool)
    (rounded_corners shadows : PyVal) (hanging : bool) (e : exn) :
  (exists a b c d, rounded_corners = PyList [a; b; c; d]) ->
  (exists a b c d, shadows = PyList [a; b; c; d]) ->
  Button.new _custom size text hover unavailable rounded_corners shadows hanging = Raise e ->
  e = pygame_error.
Proof.
  intros Hr Hs. rewrite new_lists by assumption. intros Hn.
  apply bind_Raise in Hn as [Hn|(button & _ & Hn)]; [|discriminate].
  apply init_Raise in Hn; assumption.
Qed.

Lemma new_Ok (w h : Z) (text : string) (hover unavailable : bool)
    (rounded_corners shadows : PyVal) (hanging : bool) :
  font_ok -> glyphs_ok _custom = true ->
  (exists a b c d, rounded_corners = PyList [a; b; c; d]) ->
  (exists a b c d, shadows = PyList [a; b; c; d]) ->
  0 <= w -> 0 <= h -> (hanging = true -> 6 <= h) ->
  exists surface,
    Button.new _custom (w, h) text hover unavailable rounded_corners shadows hanging
    = Ok surface
    /\ get_size surface = (w, h).
Proof.
  intros Hfont Hglyphs Hr Hs Hw Hh Hhang. rewrite new_lists by assumption.
  destruct (init_Ok _custom Hfont Hglyphs
              (if fst (w, h) =? snd (w, h) then SquareButtonClass else RectButtonClass)
              w h text hover unavailable rounded_corners shadows hanging
              Hr Hs Hw Hh Hhang) as (button & -> & _ & Hbw & Hbh).
  cbn [bind]. eexists. split; [reflexivity|]. unfold get_size. congruence.
Qed.
End FacadeFacts.

(** X5: whatever the style sheet holds for the identifier, the constructor
    never fails on the style: the only exception it can raise is pygame's
    refusal of a surface of negative size; never the [ValueError] of
    [Button.new], an [IndexError] or a [TypeError]. *)
Theorem constructor_raises_only_pygame_error `{Libraries}
    (_custom : gmap string Surface) (_styles : StyleSheet) (LANGUAGE : string)
    (storage : list CacheEntry) (relative_rect : Rect) (text : string)
    (object_id : option string) (e : exn) :
  UIButton.__init__ _custom _styles LANGUAGE storage relative_rect text object_id = Raise e ->
  e = pygame_error.
Proof.
  unfold UIButton.__init__. cbv zeta. intros Hi.
  apply bind_Raise in Hi as [Hi|([sprite storage'] & _ & Hi)]; [|discriminate].
  destruct (ButtonCache.load_button _ _ _ _ _ _ _ _); [discriminate|].
  apply bind_Raise in Hi as [Hi|(surface & _ & Hi)]; [|discriminate].
  apply new_Raise in Hi; auto using check_round_four, check_shadow_four.
Qed.

(** A hanging button three pixels high, with the sample style sheet. *)
Lemma constructor_raises_only_pygame_error_witness :
  @UIButton.__init__ sample_libraries sample_custom sample_styles "en-us" []
    (mkRect 0 0 30 3) "ab" (Some "#hang_button") = Raise pygame_error
  /\ pygame_error = pygame_error.
Proof.
  assert (Hi : @UIButton.__init__ sample_libraries sample_custom sample_styles "en-us" []
                 (mkRect 0 0 30 3) "ab" (Some "#hang_button") = Raise pygame_error)
    by (vm_compute; reflexivity).
  split; [exact Hi|].
  exact (@constructor_raises_only_pygame_error sample_libraries sample_custom sample_styles
           "en-us" [] (mkRect 0 0 30 3) "ab" (Some "#hang_button") pygame_error Hi).
Defined.

(** X6: for a rectangle of non-negative size, at least six pixels high when
    the identifier hangs, the constructor succeeds for every style sheet and
    identifier; the widget shows the literal text when there is one and the
    text of [_Language.check] otherwise; and every handler succeeds on that
    widget, over any cache. *)
Theorem constructor_total `{Libraries} (_custom : gmap string Surface)
    (_styles : StyleSheet) (LANGUAGE : string) (storage : list CacheEntry)
    (rect : Rect) (text : string) (object_id : option string) :
  font_ok -> glyphs_ok _custom = true ->
  0 <= rect_w rect -> 0 <= rect_h rect ->
  (_Style.check_hanging _styles object_id = true -> 6 <= rect_h rect) ->
  exists self storage1,
    UIButton.__init__ _custom _styles LANGUAGE storage rect text object_id
    = Ok (self, storage1)
    /\ widget_text self
       = (if String.eqb text "" then _Language.check LANGUAGE object_id else text)
    /\ forall event storage',
         exists self' storage'', handle _custom event storage' self = Ok (self', storage'').
Proof.
  intros Hfont Hglyphs Hw Hh Hhang.
  set (label := if negb (String.eqb text "") then text
                else _Language.check LANGUAGE object_id).
  assert (Hnew : forall hover unavailable,
             exists surface,
               Button.new _custom (rect_size rect) label hover unavailable
                 (_Style.check_round _styles object_id) (_Style.check_shadow _styles object_id)
                 (_Style.check_hanging _styles object_id) = Ok surface).
  { intros hover unavailable.
    destruct (new_Ok _custom (rect_w rect) (rect_h rect) label
                hover unavailable (_Style.check_round _styles object_id)
                (_Style.check_shadow _styles object_id)
                (_Style.check_hanging _styles object_id) Hfont Hglyphs
                (check_round_four _ _) (check_shadow_four _ _) Hw Hh Hhang)
      as (surface & Hs & _).
    exists surface. exact Hs. }
  assert (Hinit : exists sprite storage1,
             UIButton.__init__ _custom _styles LANGUAGE storage rect text object_id
             = Ok (mkWidget rect object_id (_Style.check_round _styles object_id)
                     (_Style.check_hanging _styles object_id)
                     (_Style.check_shadow _styles object_id) label
                     (transform_scale sprite (rect_size rect)) false, storage1)).
  { unfold UIButton.__init__. cbv zeta. fold label.
    destruct (ButtonCache.load_button storage (rect_size rect) label false false
                default_rounded_corners default_shadows false) as [cache|].
    - cbn [bind]. eauto.
    - destruct (Hnew false false) as [surface ->]. cbn [bind ButtonCache.store_button]. eauto. }
  destruct Hinit as (sprite & storage1 & Hinit).
  eexists _, storage1. split; [exact Hinit|]. split.
  - cbn [widget_text]. subst label. destruct (String.eqb text ""); reflexivity.
  - intros event storage'.
    match goal with
    | |- context [handle _custom event storage' ?w] => set (self := w)
    end.
    destruct (ButtonCache.load_button storage' (rect_size (relative_rect self))
                (widget_text self) (event_hover event self) (event_unavailable event)
                (widget_rounded_corners self) (widget_shadows self) (widget_hanging self))
      as [cache|] eqn:Hl.
    + rewrite (handle_hit _custom event storage' self cache Hl). eauto.
    + destruct (Hnew (event_hover event self) (event_unavailable event)) as [surface Hs].
      destruct event; unfold handle, CatButton.on_hovered, CatButton.disable,
        CatButton.enable, CatButton.on_unhovered; cbv zeta; subst self;
        cbn [event_hover event_unavailable relative_rect widget_text
             widget_rounded_corners widget_shadows widget_hanging widget_hover] in *;
        rewrite Hl, Hs; cbn [bind ButtonCache.store_button]; eauto.
Qed.

(** The hanging sample button, 30 by 20. *)
Lemma constructor_total_witness :
  exists self storage1,
    @UIButton.__init__ sample_libraries sample_custom sample_styles "en-us" []
      sample_rect "" (Some "#hang_button") = Ok (self, storage1)
    /\ widget_text self
       = (if String.eqb "" "" then @_Language.check sample_libraries "en-us" (Some "#hang_button")
          else "")
    /\ forall event storage',
         exists self' storage'',
           @handle sample_libraries sample_custom event storage' self = Ok (self', storage'').
Proof.
  apply (@constructor_total sample_libraries sample_custom sample_styles "en-us" []
           sample_rect "" (Some "#hang_button")).
  - exact block_font_ok.
  - vm_compute. reflexivity.
  - simpl. lia.
  - simpl. lia.
  - intros _. simpl. lia.
Defined.

(** ** Lines and tokens of a label *)

Lemma append_empty_r (s : string) : String.append s "" = s.
Proof.
  induction s as [|c s IH]; [reflexivity|].
  change (String c (String.append s "") = String c s). rewrite IH. reflexivity.
Qed.

Lemma append_assoc (s t u : string) :
  String.append (String.append s t) u = String.append s (String.append t u).
Proof.
  induction s as [|c s IH]; [reflexivity|].
  change (String c (String.append (String.append s t) u)
          = String c (String.append s (String.append t u))).
  rewrite IH. reflexivity.
Qed.

Lemma concat_all_app (l l' : list string) :
  concat_all (l ++ l') = String.append (concat_all l) (concat_all l').
Proof.
  induction l as [|x l IH]; simpl; [reflexivity|]. rewrite IH, append_assoc. reflexivity.
Qed.

Lemma concat_all_filter (l : list string) :
  concat_all (List.filter (fun item => negb (String.eqb item "")) l) = concat_all l.
Proof.
  induction l as [|x l IH]; simpl; [reflexivity|].
  destruct (String.eqb_spec x "") as [->|Hne]; simpl; rewrite IH; reflexivity.
Qed.

Lemma split_on_cons (sep : ascii) (s : string) :
  exists piece rest, split_on sep s = piece :: rest.
Proof.
  destruct s as [|c s]; simpl; [eauto|].
  destruct (Ascii.eqb c sep); [eauto|]. destruct (split_on sep s); eauto.
Qed.

Lemma split_on_join (sep : ascii) (s : string) :
  String.concat (String sep "") (split_on sep s) = s.
Proof.
  induction s as [|c s IH]; [reflexivity|]. cbn [split_on].
  destruct (split_on_cons sep s) as (piece & rest & E). rewrite E in *.
  destruct (Ascii.eqb_spec c sep) as [->|Hne].
  - change (String.concat (String sep "") ("" :: piece :: rest))
      with (String sep (String.concat (String sep "") (piece :: rest))).
    rewrite IH. reflexivity.
  - destruct rest as [|piece' rest]; rewrite <- IH; reflexivity.
Qed.

Lemma re_split_cons (s : string) :
  exists piece rest, re_split_braces s = piece :: rest.
Proof.
  destruct s as [|c s]; simpl; [eauto|].
  destruct (is_brace c); [eauto|]. destruct (re_split_braces s); eauto.
Qed.

Lemma re_split_concat (s : string) : concat_all (re_split_braces s) = s.
Proof.
  induction s as [|c s IH]; [reflexivity|]. cbn [re_split_braces].
  destruct (is_brace c).
  - change (String c (concat_all (re_split_braces s)) = String c s).
    rewrite IH. reflexivity.
  - destruct (re_split_cons s) as (piece & rest & E). rewrite E in *.
    rewrite <- IH. reflexivity.
Qed.

Lemma add_to_last_concat (formatted fm : list string) (char : string) :
  add_to_last formatted char = Ok fm ->
  concat_all fm = String.append (concat_all formatted) char.
Proof.
  unfold add_to_last. destruct (rev formatted) as [|last front] eqn:E; [discriminate|].
  intros [= <-]. apply (f_equal (@rev string)) in E. rewrite rev_involutive in E.
  subst formatted. cbn [rev]. rewrite !concat_all_app. cbn [concat_all fold_right].
  rewrite !append_empty_r, append_assoc. reflexivity.
Qed.

Lemma tokenize_step_concat (regex formatted fm : list string) (e : nat) (char : string) :
  RectButton.tokenize_step regex formatted (e, char) = Ok fm ->
  concat_all fm = String.append (concat_all formatted) char.
Proof.
  unfold RectButton.tokenize_step.
  destruct (String.eqb_spec char "") as [->|_].
  { intros [= <-]. rewrite append_empty_r. reflexivity. }
  destruct (String.eqb_spec char "{") as [->|_].
  { intros [= <-]. rewrite concat_all_app. reflexivity. }
  intros Hs. apply bind_Ok in Hs as (prev & _ & Hs).
  destruct (String.eqb prev "{"); [apply add_to_last_concat; exact Hs|].
  destruct (String.eqb char "}"); [|apply add_to_last_concat; exact Hs].
  apply bind_Ok in Hs as (fm' & Ha & Hs). injection Hs as <-.
  rewrite concat_all_app. cbn [concat_all fold_right]. rewrite append_empty_r.
  apply add_to_last_concat. exact Ha.
Qed.

Lemma tokenize_loop_Raise (regex : list string) (items : list (nat * string)) (e : exn) :
  fold_left
    (fun acc item => let* formatted := acc in RectButton.tokenize_step regex formatted item)
    items (Raise e) = Raise e.
Proof. induction items as [|item items IH]; simpl; [reflexivity | exact IH]. Qed.

Lemma tokenize_loop_concat (regex : list string) (items : list (nat * string))
    (formatted fm : list string) :
  fold_left
    (fun acc item => let* formatted := acc in RectButton.tokenize_step regex formatted item)
    items (Ok formatted) = Ok fm ->
  concat_all fm = String.append (concat_all formatted) (concat_all (map snd items)).
Proof.
  revert formatted. induction items as [|[e char] items IH]; intros formatted;
    cbn [fold_left bind map snd].
  - intros [= <-]. cbn [concat_all fold_right]. rewrite append_empty_r. reflexivity.
  - destruct (RectButton.tokenize_step regex formatted (e, char)) as [fm'|e'] eqn:Hs.
    + intros Hf. rewrite (IH _ Hf), (tokenize_step_concat _ _ _ _ _ Hs).
      cbn [concat_all fold_right]. rewrite append_assoc. reflexivity.
    + rewrite tokenize_loop_Raise. discriminate.
Qed.

Lemma map_snd_combine_seq {A : Type} (l : list A) (start : nat) :
  map snd (combine (seq start (length l)) l) = l.
Proof.
  revert start. induction l as [|x l IH]; intros start; simpl; [reflexivity|].
  rewrite IH. reflexivity.
Qed.

(** X7: nothing of a label is lost on the way to its tokens. The label is
    its lines joined by line feeds; every line is tokenized, none of its
    tokens is empty, and the tokens put end to end are the line. *)
Theorem tokenize_round_trip (text line : string) :
  String.concat (String "010" "") (split_on "010" text) = text
  /\ exists tokens,
       RectButton.tokenize line = Ok tokens
       /\ concat_all tokens = line
       /\ Forall (fun token => token <> "") tokens.
Proof.
  split; [apply split_on_join|].
  destruct (tokenize_Ok line) as [tokens Ht]. exists tokens. split; [exact Ht|].
  unfold RectButton.tokenize in Ht. cbv zeta in Ht.
  apply bind_Ok in Ht as (formatted & Hloop & Ht). injection Ht as <-. split.
  - rewrite concat_all_filter. apply tokenize_loop_concat in Hloop.
    rewrite Hloop, map_snd_combine_seq, re_split_concat. reflexivity.
  - apply List.Forall_forall. intros token Hin. apply List.filter_In in Hin as [_ Hne].
    apply negb_true_iff, String.eqb_neq in Hne. exact Hne.
Qed.

Lemma re_split_free (s : string) : brace_free s = true -> re_split_braces s = [s].
Proof.
  induction s as [|c s IH]; [reflexivity|]. cbn [brace_free re_split_braces].
  intros Hb. apply andb_true_iff in Hb as [Hc Hs]. apply negb_true_iff in Hc.
  rewrite Hc, (IH Hs). reflexivity.
Qed.

Lemma re_split_app (s rest : string) (c : ascii) :
  brace_free s = true -> is_brace c = true ->
  re_split_braces (String.append s (String c rest))
  = s :: String c "" :: re_split_braces rest.
Proof.
  intros Hs Hc. induction s as [|a s IH].
  - change (re_split_braces (String c rest) = "" :: String c "" :: re_split_braces rest).
    cbn [re_split_braces]. rewrite Hc. reflexivity.
  - cbn [brace_free] in Hs. apply andb_true_iff in Hs as [Ha Hs]. apply negb_true_iff in Ha.
    change (re_split_braces (String a (String.append s (String c rest)))
            = String a s :: String c "" :: re_split_braces rest).
    cbn [re_split_braces]. rewrite Ha, (IH Hs). reflexivity.
Qed.

Lemma brace_free_not_brace (s : string) :
  brace_free s = true -> String.eqb s "{" = false /\ String.eqb s "}" = false.
Proof.
  destruct s as [|c s]; [split; reflexivity|]. cbn [brace_free]. intros Hb.
  apply andb_true_iff in Hb as [Hc _]. apply negb_true_iff in Hc.
  unfold is_brace in Hc. apply orb_false_iff in Hc as [H1 H2].
  split; cbn [String.eqb]; [rewrite H1 | rewrite H2]; reflexivity.
Qed.

(** The tokens of [pre{name}post]. *)
Lemma tokenize_span (pre name post : string) :
  brace_free pre = true -> brace_free name = true -> brace_free post = true ->
  RectButton.tokenize
    (String.append pre (String "{" (String.append name (String "}" post))))
  = Ok (List.filter (fun item => negb (String.eqb item ""))
          [pre; String "{" (String.append name "}"); post]).
Proof.
  intros Hpre Hname Hpost. unfold RectButton.tokenize.
  rewrite (re_split_app pre _ "{" Hpre eq_refl), (re_split_app name _ "}" Hname eq_refl),
    (re_split_free post Hpost).
  destruct (brace_free_not_brace pre Hpre) as [P1 P2].
  destruct (brace_free_not_brace name Hname) as [N1 N2].
  destruct (brace_free_not_brace post Hpost) as [Q1 Q2].
  cbv zeta. cbn [length seq combine fold_left bind].
  unfold RectButton.tokenize_step.
  change (py_index [pre; "{"; name; "}"; post] (Z.of_nat 0 - 1)) with (Ok post).
  change (py_index [pre; "{"; name; "}"; post] (Z.of_nat 2 - 1)) with (Ok "{").
  change (py_index [pre; "{"; name; "}"; post] (Z.of_nat 3 - 1)) with (Ok name).
  change (py_index [pre; "{"; name; "}"; post] (Z.of_nat 4 - 1)) with (Ok "}").
  change ("{" =? "")%string with false. change ("{" =? "{")%string with true.
  change ("}" =? "")%string with false. change ("}" =? "{")%string with false.
  change ("}" =? "}")%string with true.
  destruct (String.eqb_spec pre "") as [->|Hp];
    destruct (String.eqb_spec name "") as [->|Hn];
    destruct (String.eqb_spec post "") as [->|Hq];
    repeat (cbn [bind]; rewrite ?P1, ?P2, ?N1, ?N2, ?Q1, ?Q2;
            change ("{" =? "{")%string with true; cbn [add_to_last rev app]);
    reflexivity.
Qed.

(** X8: in a line [pre{name}post] whose three parts hold no brace, the span
    from the opening to the closing brace is one token; the text before and
    the text after are tokens of their own, left out when empty. *)
Theorem brace_span_is_one_token (pre name post : string) :
  brace_free pre = true -> brace_free name = true -> brace_free post = true ->
  RectButton.tokenize
    (String.append pre (String "{" (String.append name (String "}" post))))
  = Ok (List.filter (fun item => negb (String.eqb item ""))
          [pre; String "{" (String.append name "}"); post]).
Proof. apply tokenize_span. Qed.

(** The line ["Roll {DICE}"]. *)
Lemma brace_span_is_one_token_witness :
  RectButton.tokenize "Roll {DICE}" = Ok ["Roll "; "{DICE}"].
Proof.
  apply (brace_span_is_one_token "Roll " "DICE" ""); reflexivity.
Defined.

Section LineFacts.
Context `{Libraries}.
Variable _custom : gmap string Surface.

Lemma get_at_blit_inside (dest source : Surface) (x0 y0 x y : Z) :
  in_bounds dest x y = true ->
  x0 <= x < x0 + get_width source -> y0 <= y < y0 + get_height source ->
  get_at (blit dest source (x0, y0)) x y =
  if srcalpha source then blend (get_at source (x - x0) (y - y0)) (get_at dest x y)
  else opaque (get_at source (x - x0) (y - y0)).
Proof.
  intros B Hx Hy. unfold blit. rewrite get_at_repaint, B.
  replace ((x0 <=? x) && (x <? x0 + get_width source) &&
           (y0 <=? y) && (y <? y0 + get_height source)) with true; [reflexivity|].
  symmetry. rewrite !andb_true_iff. lia.
Qed.

(** A source without extent leaves the destination as it is. *)
Lemma get_at_blit_empty (dest source : Surface) (pos : Z * Z) (x y : Z) :
  get_width source <= 0 \/ get_height source <= 0 ->
  get_at (blit dest source pos) x y = get_at dest x y.
Proof. intros Hs. destruct pos as [x0 y0]. apply get_at_blit_outside. lia. Qed.

Lemma render_line_empty :
  RectButton.render_line _custom ""
  = Ok (mkSurface 0 0 true (raster 0 0 (fun _ _ => transparent))).
Proof.
  unfold RectButton.render_line.
  change (RectButton.tokenize "") with (@Ok (list string) []).
  cbn [bind mapM fold_left]. rewrite pygame_Surface_Ok by lia. reflexivity.
Qed.

(** The widths and heights of the surfaces for the tokens of a line. *)
Lemma render_line_size (line : string) (tokens : list string) (surfaces : list Surface)
    (s : Surface) :
  RectButton.tokenize line = Ok tokens ->
  mapM (RectButton.render_item _custom) tokens = Ok surfaces ->
  RectButton.render_line _custom line = Ok s ->
  get_width s = fold_left (fun acc text => acc + get_width text) surfaces 0
  /\ get_height s = fold_left (fun acc text => Z.max acc (get_height text)) surfaces 0.
Proof.
  intros Ht Hm. unfold RectButton.render_line. rewrite Ht. cbn [bind]. rewrite Hm.
  cbn [bind]. cbv zeta. intros Hr. apply bind_Ok in Hr as (canvas & Hc & Hr).
  injection Hr as <-.
  apply pygame_Surface_inv in Hc as (_ & _ & Hw & Hh & _). cbn [fst snd] in Hw, Hh.
  match goal with
  | |- context [fold_left _ ?l (?c, ?a)] =>
      pose proof (fold_blit_size (fun at_ _ => (at_, 0)) get_width l c a) as [Ew Eh]
  end.
  cbv beta zeta in Ew, Eh. rewrite Ew, Eh. auto.
Qed.
End LineFacts.

(** X9: an empty label, as long as the empty string is no glyph token,
    composes to an image without extent, with [self.symbol] unset; and
    blitting an image without extent, as [_build] does with the label,
    changes no pixel of the button. *)
Theorem empty_label_draws_nothing `{Libraries} (_custom : gmap string Surface) :
  _custom !! "" = None ->
  exists label,
    RectButton._build_text _custom "" = Ok (label, false)
    /\ get_size label = (0, 0)
    /\ forall canvas pos x y, get_at (blit canvas label pos) x y = get_at canvas x y.
Proof.
  intros Hk. unfold RectButton._build_text. rewrite Hk.
  change (split_on "010" "") with [""]. cbn [mapM]. rewrite render_line_empty.
  cbn [bind fold_left get_width get_height Z.add Z.max]. cbv zeta.
  rewrite pygame_Surface_Ok by lia. cbn [bind fold_left fst].
  eexists. split; [reflexivity|]. split.
  - unfold get_size. rewrite get_width_blit, get_height_blit. reflexivity.
  - intros canvas pos x y. apply get_at_blit_empty. left.
    rewrite get_width_blit. simpl. lia.
Qed.

(** The glyph dictionary of the examples. *)
Lemma empty_label_draws_nothing_witness :
  exists label,
    @RectButton._build_text sample_libraries sample_custom "" = Ok (label, false)
    /\ get_size label = (0, 0)
    /\ forall canvas pos x y,
         get_at (@blit sample_libraries canvas label pos) x y = get_at canvas x y.
Proof.
  apply (@empty_label_draws_nothing sample_libraries sample_custom).
  vm_compute. reflexivity.
Defined.

(** X10: a glyph inside a line: for a line [pre{name}post] with text
    before and after a known glyph token, the line image is as wide as the
    two rasterised texts and the glyph together, and as high as the highest
    of the two texts and the glyph with four rows added. *)
Theorem inline_glyph_line_size `{Libraries} (_custom : gmap string Surface)
    (pre name post : string) (glyph : Surface) :
  font_ok -> surface_ok glyph = true ->
  brace_free pre = true -> brace_free name = true -> brace_free post = true ->
  pre <> "" -> post <> "" ->
  _custom !! pre = None -> _custom !! post = None ->
  _custom !! String "{" (String.append name "}") = Some glyph ->
  exists line_image,
    RectButton.render_line _custom
      (String.append pre (String "{" (String.append name (String "}" post))))
    = Ok line_image
    /\ get_width line_image
       = get_width (FONT_render pre) + get_width glyph + get_width (FONT_render post)
    /\ get_height line_image
       = Z.max (Z.max (get_height (FONT_render pre)) (get_height glyph + 4))
               (get_height (FONT_render post)).
Proof.
  intros Hfont Hg Hpre Hname Hpost Hp Hq Kp Kq Kg.
  pose proof (tokenize_span pre name post Hpre Hname Hpost) as Ht.
  cbn [List.filter] in Ht.
  replace (negb (String.eqb pre "")) with true in Ht
    by (symmetry; apply negb_true_iff, String.eqb_neq; exact Hp).
  replace (negb (String.eqb post "")) with true in Ht
    by (symmetry; apply negb_true_iff, String.eqb_neq; exact Hq).
  change (negb (String.eqb (String "{" (String.append name "}")) "")) with true in Ht.
  apply surface_ok_spec in Hg.
  pose proof (proj1 (surface_ok_spec _) (Hfont pre)) as Hfp.
  pose proof (proj1 (surface_ok_spec _) (Hfont post)) as Hfq.
  unfold RectButton.render_line. rewrite Ht. cbn [bind mapM].
  unfold RectButton.render_item. rewrite Kp, Kq, Kg.
  rewrite pygame_Surface_Ok by lia. cbn [bind fold_left]. cbv zeta.
  rewrite !get_width_blit, !get_height_blit. cbn [get_width get_height].
  rewrite pygame_Surface_Ok by lia. cbn [bind fst].
  eexists. split; [reflexivity|].
  rewrite !get_width_blit, !get_height_blit. cbn [get_width get_height]. split; lia.
Qed.

(** The line ["Roll {DICE}!"] with the block font and the sample glyphs. *)
Lemma inline_glyph_line_size_witness :
  exists line_image,
    @RectButton.render_line sample_libraries sample_custom "Roll {DICE}!" = Ok line_image
    /\ get_width line_image
       = get_width (block_font "Roll ") + get_width sample_dice + get_width (block_font "!")
    /\ get_height line_image
       = Z.max (Z.max (get_height (block_font "Roll ")) (get_height sample_dice + 4))
               (get_height (block_font "!")).
Proof.
  apply (@inline_glyph_line_size sample_libraries sample_custom "Roll " "DICE" "!" sample_dice).
  - exact block_font_ok.
  - reflexivity.
  - reflexivity.
  - reflexivity.
  - reflexivity.
  - discriminate.
  - discriminate.
  - vm_compute. reflexivity.
  - vm_compute. reflexivity.
  - vm_compute. reflexivity.
Defined.

(** X11: the image of a glyph token inside a line is the glyph with four
    transparent rows below: as wide as the glyph, four rows higher, the
    glyph's pixels blended over nothing in the glyph's place. *)
Theorem inline_glyph_padding `{Libraries} (_custom : gmap string Surface)
    (item : string) (glyph : Surface) :
  _custom !! item = Some glyph -> surface_ok glyph = true -> srcalpha glyph = true ->
  exists padded,
    RectButton.render_item _custom item = Ok padded
    /\ get_size padded = (get_width glyph, get_height glyph + 4)
    /\ forall x y, 0 <= x < get_width glyph ->
         (0 <= y < get_height glyph ->
          get_at padded x y = blend (get_at glyph x y) transparent)
         /\ (get_height glyph <= y < get_height glyph + 4 ->
             get_at padded x y = transparent).
Proof.
  intros Hk Hg Ha. apply surface_ok_spec in Hg.
  unfold RectButton.render_item. rewrite Hk. rewrite pygame_Surface_Ok by lia.
  cbn [bind]. eexists. split; [reflexivity|]. split.
  - unfold get_size. rewrite get_width_blit, get_height_blit. reflexivity.
  - intros x y Hx. split; intros Hy.
    + rewrite get_at_blit_inside by (try apply in_bounds_true; simpl; lia).
      rewrite Ha, !Z.sub_0_r, get_at_raster.
      replace (in_bounds _ x y) with true by (symmetry; apply in_bounds_true; simpl; lia).
      reflexivity.
    + rewrite get_at_blit_outside by lia. rewrite get_at_raster.
      destruct (in_bounds _ x y); reflexivity.
Qed.

(** The dice glyph of the examples. *)
Lemma inline_glyph_padding_witness :
  exists padded,
    @RectButton.render_item sample_libraries sample_custom "{DICE}" = Ok padded
    /\ get_size padded = (get_width sample_dice, get_height sample_dice + 4)
    /\ forall x y, 0 <= x < get_width sample_dice ->
         (0 <= y < get_height sample_dice ->
          get_at padded x y = alpha_blend (get_at sample_dice x y) transparent)
         /\ (get_height sample_dice <= y < get_height sample_dice + 4 ->
             get_at padded x y = transparent).
Proof.
  apply (@inline_glyph_padding sample_libraries sample_custom "{DICE}" sample_dice).
  - vm_compute. reflexivity.
  - reflexivity.
  - reflexivity.
Defined.

(** ** The image cache *)

(** X12: outside the web build an image is decoded once: after a load of
    [path], every later load of [path] returns the same image and leaves the
    cache as it is, whatever the file holds by then; the first load changes
    the cache at [path] only. *)
Theorem load_image_decodes_once (first later : Libraries)
    (_images _images1 : gmap string Surface) (path : string) (image : Surface) :
  @image_cache.load_image first false _images path = Ok (image, _images1) ->
  @image_cache.load_image later false _images1 path = Ok (image, _images1)
  /\ _images1 !! path = Some image
  /\ forall other, other <> path -> _images1 !! other = _images !! other.
Proof.
  unfold image_cache.load_image. destruct (_images !! path) as [cached|] eqn:Hc.
  - intros [= <- <-]. rewrite Hc. auto.
  - intros Hl. apply bind_Ok in Hl as (loaded & _ & Hl). injection Hl as <- <-.
    rewrite lookup_insert_eq. repeat split.
    intros other Ho. apply lookup_insert_ne. congruence.
Qed.

(** A file decoded while readable is served from the cache when it no
    longer is. *)
Lemma load_image_decodes_once_witness :
  @image_cache.load_image offline_libraries false sample_images "resources/images/a.png"
  = Ok (mkSurface 16 16 true (raster 16 16 (fun _ _ => opaque_black)), sample_images)
  /\ sample_images !! "resources/images/a.png"
     = Some (mkSurface 16 16 true (raster 16 16 (fun _ _ => opaque_black)))
  /\ forall other, other <> "resources/images/a.png" ->
       sample_images !! other = (∅ : gmap string Surface) !! other.
Proof.
  apply (load_image_decodes_once sample_libraries offline_libraries ∅ sample_images
           "resources/images/a.png").
  reflexivity.
Defined.

(** ** The glyph library *)

Lemma raster_forallb (P : Color -> bool) (w h : Z) (f : Z -> Z -> Color) :
  (forall x y, P (f x y) = true) -> forallb (forallb P) (raster w h f) = true.
Proof.
  intros Hf. unfold raster. apply forallb_forall. intros row Hrow.
  apply in_map_iff in Hrow as (y & <- & _). apply forallb_forall. intros c Hc.
  apply in_map_iff in Hc as (x & <- & _). apply Hf.
Qed.

Lemma get_at_no_black (s : Surface) (x y : Z) :
  no_black s = true -> negb (color_eqb (get_at s x y) opaque_black) = true.
Proof.
  unfold no_black, get_at. intros Hs. destruct (in_bounds s x y); [|reflexivity].
  destruct (pixels s !! Z.to_nat y) as [row|] eqn:Hr; [|reflexivity].
  destruct (row !! Z.to_nat x) as [c|] eqn:Hx; [|reflexivity]. cbn [default].
  rewrite forallb_forall in Hs.
  apply list_elem_of_lookup_2, list_elem_of_In in Hr. specialize (Hs row Hr).
  rewrite forallb_forall in Hs.
  apply list_elem_of_lookup_2, list_elem_of_In in Hx. exact (Hs c Hx).
Qed.

Lemma flip_no_black (s : Surface) (flip_x flip_y : bool) :
  no_black s = true -> no_black (transform_flip s flip_x flip_y) = true.
Proof.
  intros Hs. unfold transform_flip, repaint, no_black. cbn [pixels].
  apply raster_forallb. intros x y. apply get_at_no_black. exact Hs.
Qed.

Section SymbolFacts.
Context `{Libraries}.

Lemma load_no_black (image_path : string) (glyph : Surface) :
  _Symbol.load image_path = Ok glyph -> no_black glyph = true.
Proof.
  unfold _Symbol.load. intros Hl. apply bind_Ok in Hl as (surface & _ & Hl).
  injection Hl as <-. unfold no_black, PixelArray_replace. cbn [pixels].
  apply forallb_forall. intros row Hrow. apply in_map_iff in Hrow as (row0 & <- & _).
  apply forallb_forall. intros c Hc. apply in_map_iff in Hc as (c0 & <- & _).
  destruct (color_eqb c0 (0, 0, 0, 255)) eqn:E; [reflexivity|].
  unfold opaque_black. rewrite E. reflexivity.
Qed.

(** The labels of the fallback dictionary: empty, or a word in braces. *)
Lemma dict_global_labels :
  map_Forall (fun _ label => label = "" \/ exists rest, label = String "{" rest)
             _Language.dict_global.
Proof.
  unfold _Language.dict_global, list_to_map. cbn [foldr fst snd].
  repeat (apply map_Forall_insert_2; [first [left; reflexivity | right; eexists; reflexivity]|]).
  apply map_Forall_empty.
Qed.
End SymbolFacts.

Ltac pick_token := repeat first [left; reflexivity | right].

(** X13: the icon buttons have their glyphs: once [_Symbol.__init__] has
    run, a button without literal text whose identifier has no translation
    but a non-empty entry in [_Language.dict_global] gets that entry as text,
    the entry is a glyph token, and its label is that glyph itself. *)
Theorem icon_buttons_have_glyphs `{Libraries} (LANGUAGE : string)
    (_custom loaded : gmap string Surface) (object_id label : string) :
  _Symbol.__init__ _custom = Ok loaded ->
  _Language.dict_global !! object_id = Some label -> label <> "" ->
  i18n_t (String.append "buttons." object_id) LANGUAGE = String.append "buttons." object_id ->
  exists glyph,
    loaded !! label = Some glyph
    /\ _Language.check LANGUAGE (Some object_id) = label
    /\ RectButton._build_text loaded (_Language.check LANGUAGE (Some object_id))
       = Ok (glyph, true).
Proof.
  intros Hi Hd Hl Ht.
  assert (Hcheck : _Language.check LANGUAGE (Some object_id) = label).
  { unfold _Language.check. cbv zeta. rewrite Ht, String.eqb_refl. cbn [negb].
    rewrite Hd. reflexivity. }
  assert (Hall : map_Forall (fun _ label => label = "" \/ is_Some (loaded !! label))
                            _Language.dict_global).
  { unfold _Symbol.__init__ in Hi.
    do 16 (apply bind_Ok in Hi as (? & _ & Hi)). injection Hi as <-.
    unfold _Language.dict_global, list_to_map. cbn [foldr fst snd].
    repeat (apply map_Forall_insert_2;
            [first [left; reflexivity
                   | right; rewrite !lookup_insert_is_Some'; pick_token]|]).
    apply map_Forall_empty. }
  destruct (Hall object_id label Hd) as [->|[glyph Hg]]; [contradiction|].
  exists glyph. rewrite Hcheck. split; [exact Hg|]. split; [reflexivity|].
  unfold RectButton._build_text. rewrite Hg. reflexivity.
Qed.

(** The dice button with the sample files. *)
Lemma icon_buttons_have_glyphs_witness :
  exists glyph,
    sample_custom !! "{DICE}" = Some glyph
    /\ @_Language.check sample_libraries "en-us" (Some "#random_dice_button") = "{DICE}"
    /\ @RectButton._build_text sample_libraries sample_custom
         (@_Language.check sample_libraries "en-us" (Some "#random_dice_button"))
       = Ok (glyph, true).
Proof.
  apply (@icon_buttons_have_glyphs sample_libraries "en-us" ∅ sample_custom
           "#random_dice_button" "{DICE}").
  - reflexivity.
  - reflexivity.
  - discriminate.
  - reflexivity.
Defined.

(** X14: [_Symbol._populate] always succeeds, whatever the dictionary
    holds and whether or not the glyph files can be read, and sets fifteen
    tokens: it leaves ["{ARROW_RIGHT_SHORT}"], the label of two entries of
    [_Language.dict_global], as it finds it. Whenever [_Symbol.__init__]
    succeeds, it sets that token, and the tokens [_populate] sets. *)
Theorem populate_leaves_right_arrow (_custom : gmap string Surface) :
  exists blank,
    _Symbol._populate _custom = Ok blank
    /\ blank !! "{ARROW_RIGHT_SHORT}" = _custom !! "{ARROW_RIGHT_SHORT}"
    /\ _Language.dict_global !! "#arrow_right_button" = Some "{ARROW_RIGHT_SHORT}"
    /\ _Language.dict_global !! "#patrol_next_page" = Some "{ARROW_RIGHT_SHORT}"
    /\ (forall token,
          is_Some (blank !! token) <->
          In token
            [ "{DICE}"; "{ARROW_LEFT_SHORT}"; "{ARROW_LEFT_MED}"; "{ARROW_RIGHT_MED}";
              "{PATROL_CLAW}"; "{PATROL_PAW}"; "{PATROL_MOUSE}"; "{PATROL_HERB}";
              "{YOUR_CLAN}"; "{OUTSIDE_CLAN}"; "{STARCLAN}"; "{UNKNOWN_RESIDENCE}";
              "{DARK_FOREST}"; "{LEADER_CEREMONY}"; "{MEDIATION}" ]
          \/ is_Some (_custom !! token))
    /\ forall (libraries : Libraries) (loaded : gmap string Surface),
         @_Symbol.__init__ libraries _custom = Ok loaded ->
         is_Some (loaded !! "{ARROW_RIGHT_SHORT}")
         /\ forall token, "{ARROW_RIGHT_SHORT}" <> token ->
              (is_Some (loaded !! token) <-> is_Some (blank !! token)).
Proof.
  unfold _Symbol._populate, _Symbol.generate_surface.
  rewrite pygame_Surface_Ok by lia. cbn [bind foldl].
  eexists. split; [reflexivity|]. split; [|split; [|split; [|split]]].
  - repeat (rewrite lookup_insert_ne by discriminate). reflexivity.
  - reflexivity.
  - reflexivity.
  - intros token. rewrite !lookup_insert_is_Some'. cbn [In]. intuition congruence.
  - intros libraries loaded Hi. unfold _Symbol.__init__ in Hi.
    do 16 (apply bind_Ok in Hi as (? & _ & Hi)). injection Hi as <-. split.
    + rewrite !lookup_insert_is_Some'. pick_token.
    + intros token Hne. rewrite !lookup_insert_is_Some'. intuition congruence.
Qed.

(** X15: after [_Symbol.__init__] no glyph it has set holds an opaque black
    pixel: every entry of the dictionary is the entry that was there before,
    or an image without opaque black, the mirrored arrows included. *)
Theorem loaded_glyphs_hold_no_black `{Libraries} (_custom loaded : gmap string Surface)
    (token : string) (glyph : Surface) :
  _Symbol.__init__ _custom = Ok loaded ->
  loaded !! token = Some glyph ->
  _custom !! token = Some glyph \/ no_black glyph = true.
Proof.
  intros Hi Hl. unfold _Symbol.__init__ in Hi.
  do 16 (apply bind_Ok in Hi as (? & ? & Hi)). injection Hi as <-.
  repeat (apply lookup_insert_Some in Hl as [[_ <-]|[_ Hl]];
          [right; eauto using load_no_black, flip_no_black|]).
  left. exact Hl.
Qed.

(** The mirrored arrow of the sample files. *)
Lemma loaded_glyphs_hold_no_black_witness :
  (∅ : gmap string Surface) !! "{ARROW_RIGHT_SHORT}"
  = Some (transform_flip sample_dice true false)
  \/ no_black (transform_flip sample_dice true false) = true.
Proof.
  apply (@loaded_glyphs_hold_no_black sample_libraries ∅ sample_custom
           "{ARROW_RIGHT_SHORT}" (transform_flip sample_dice true false)).
  - reflexivity.
  - vm_compute. reflexivity.
Defined.

(** ** The fallback text *)

(** X16: with English as language a button without literal text never
    shows its lookup key ["buttons.<object_id>"], whatever the translation
    tables hold; with another language it can. *)
Theorem english_never_shows_key `{Libraries} (object_id : string) :
  _Language.check "en-us" (Some object_id) <> String.append "buttons." object_id
  /\ @_Language.check sample_libraries "pt-br" (Some "#save_button")
     = "buttons.#save_button".
Proof.
  split; [|reflexivity].
  unfold _Language.check. cbv zeta.
  destruct (String.eqb_spec (i18n_t (String.append "buttons." object_id) "en-us")
              (String.append "buttons." object_id)) as [E|E]; cbn [negb]; [|exact E].
  destruct (_Language.dict_global !! object_id) as [label|] eqn:Hd.
  - destruct (dict_global_labels object_id label Hd) as [->|[rest ->]]; discriminate.
  - discriminate.
Qed.

(** ** Buttons sized by their text *)

Section PadFacts.
Context `{Libraries}.
Variable _custom : gmap string Surface.

(** [Button.new] with style arguments of the documented shapes. *)
Lemma new_style_Ok (w h : Z) (text : string) (hover unavailable : bool)
    (rounded_corners shadows : PyVal) (hanging : bool) :
  font_ok -> glyphs_ok _custom = true ->
  is_style_arg rounded_corners = true -> is_style_arg shadows = true ->
  0 <= w -> 0 <= h -> (hanging = true -> 6 <= h) ->
  exists surface,
    Button.new _custom (w, h) text hover unavailable rounded_corners shadows hanging
    = Ok surface
    /\ get_size surface = (w, h).
Proof.
  intros Hfont Hglyphs Hr Hs Hw Hh Hhang.
  apply is_style_arg_inv in Hr, Hs.
  assert (Hn : exists r s,
             (exists a b c d, r = PyList [a; b; c; d])
             /\ (exists a b c d, s = PyList [a; b; c; d])
             /\ Button.new _custom (w, h) text hover unavailable rounded_corners shadows
                  hanging
                = Button.new _custom (w, h) text hover unavailable r s hanging).
  { destruct Hr as [[r ->]|Hr], Hs as [[s ->]|Hs].
    - exists (py_list4 (PyBool r)), (py_list4 (PyBool s)).
      split; [unfold py_list4; eauto 10|]. split; [unfold py_list4; eauto 10|]. reflexivity.
    - exists (py_list4 (PyBool r)), shadows.
      split; [unfold py_list4; eauto 10|]. split; [exact Hs|].
      destruct Hs as (a & b & c & d & ->). reflexivity.
    - exists rounded_corners, (py_list4 (PyBool s)).
      split; [exact Hr|]. split; [unfold py_list4; eauto 10|].
      destruct Hr as (a & b & c & d & ->). reflexivity.
    - exists rounded_corners, shadows. auto. }
  destruct Hn as (r & s & Hr' & Hs' & ->).
  apply new_Ok; assumption.
Qed.
End PadFacts.

(** X17: a button sized by its text: with a padding that is not negative
    and style arguments of the documented shapes, [Button.new_auto_pad]
    returns a button, and the button is the one line rasterised text plus
    the padding plus 12 columns wide and plus 10 rows high. *)
Theorem auto_pad_size `{Libraries} (_custom : gmap string Surface) (text : string)
    (padding : Z) (hover unavailable : bool) (rounded_corners shadows : PyVal)
    (hanging : bool) :
  font_ok -> glyphs_ok _custom = true ->
  is_style_arg rounded_corners = true -> is_style_arg shadows = true ->
  0 <= padding ->
  exists surface,
    Button.new_auto_pad _custom text padding hover unavailable rounded_corners shadows hanging
    = Ok surface
    /\ get_size surface
       = (get_width (FONT_render text) + padding + 12,
          get_height (FONT_render text) + padding + 10).
Proof.
  intros Hfont Hglyphs Hr Hs Hp. unfold Button.new_auto_pad. cbv zeta.
  pose proof (proj1 (surface_ok_spec _) (Hfont text)) as [Hw Hh].
  apply new_style_Ok; try assumption; try lia.
Qed.

(** A hanging button for the text ["ab"], padded by 4. *)
Lemma auto_pad_size_witness :
  exists surface,
    @Button.new_auto_pad sample_libraries sample_custom "ab" 4 false false
      (PyBool true) default_shadows true = Ok surface
    /\ get_size surface
       = (get_width (block_font "ab") + 4 + 12, get_height (block_font "ab") + 4 + 10).
Proof.
  apply (@auto_pad_size sample_libraries sample_custom "ab" 4 false false
           (PyBool true) default_shadows true).
  - exact block_font_ok.
  - vm_compute. reflexivity.
  - reflexivity.
  - reflexivity.
  - lia.
Defined.

(** ** The two button classes *)

Lemma bind_ext_Ok {A B : Type} (m : result A) (k1 k2 : A -> result B) :
  (forall a, m = Ok a -> k1 a = k2 a) -> bind m k1 = bind m k2.
Proof. intros Hk. destruct m as [a|e]; [apply Hk|]; reflexivity. Qed.

(** The corner that is not rounded is the same one in both classes. *)
Lemma corner_square (palette : list Color) (shadow_corner1 shadow_corner2 rounded : PyVal) :
  py_truthy rounded = false ->
  SquareButton._corner palette shadow_corner1 shadow_corner2 rounded
  = RectButton._corner palette shadow_corner1 shadow_corner2 rounded.
Proof.
  intros Hr. unfold SquareButton._corner, RectButton._corner. rewrite Hr. reflexivity.
Qed.

Lemma getitem_falsy (flags : list PyVal) (i : nat) (flag : PyVal) :
  Forall (fun flag => py_truthy flag = false) flags ->
  py_getitem (PyList flags) i = Ok flag -> py_truthy flag = false.
Proof.
  intros Hall. cbn [py_getitem]. destruct (flags !! i) as [x|] eqn:Hx; [|discriminate].
  intros [= <-]. rewrite List.Forall_forall in Hall. apply Hall.
  apply list_elem_of_In. eapply list_elem_of_lookup_2. exact Hx.
Qed.

(** X18: with four corners that are not rounded the class of the button
    makes no difference: [SquareButton] and [RectButton] give the same
    object, or raise the same exception, for the same arguments. *)
Theorem square_corners_make_classes_agree `{Libraries} (_custom : gmap string Surface)
    (size : Z * Z) (text : string) (hover unavailable : bool) (flags : list PyVal)
    (shadows : PyVal) (hanging : bool) :
  Forall (fun flag => py_truthy flag = false) flags ->
  RectButton.__init__ _custom SquareButtonClass size text hover unavailable
    (PyList flags) shadows hanging
  = RectButton.__init__ _custom RectButtonClass size text hover unavailable
      (PyList flags) shadows hanging.
Proof.
  intros Hall. unfold RectButton.__init__. cbv zeta.
  apply bind_ext_Ok. intros surface _. apply bind_ext_Ok. intros [label symbol] _.
  unfold RectButton._build.
  cbn [self_size self_palette self_shadow self_rounded_corners self_surface].
  destruct (if hanging then (fst size, snd size - 6) else (fst size, snd size)) as [w h].
  cbv zeta. cbn [RectButton.self_corner].
  do 4 (do 2 (apply bind_ext_Ok; intros ? _);
        apply bind_ext_Ok; intros ? ?;
        rewrite corner_square by (eapply getitem_falsy; eassumption);
        apply bind_ext_Ok; intros ? _).
  reflexivity.
Qed.

(** A button 20 by 20 with the corners of the style ["rounded": false]. *)
Lemma square_corners_make_classes_agree_witness :
  @RectButton.__init__ sample_libraries sample_custom SquareButtonClass (20, 20) "ab"
    false false (PyList [PyBool false; PyBool false; PyBool false; PyBool false])
    default_shadows false
  = @RectButton.__init__ sample_libraries sample_custom RectButtonClass (20, 20) "ab"
      false false (PyList [PyBool false; PyBool false; PyBool false; PyBool false])
      default_shadows false.
Proof.
  apply (@square_corners_make_classes_agree sample_libraries sample_custom (20, 20) "ab"
           false false [PyBool false; PyBool false; PyBool false; PyBool false]
           default_shadows false).
  repeat constructor.
Defined.

(** ** The body of a hanging button *)

(** X19: [_hang] moves the body down by six rows and changes nothing else
    of it: below the rope band the hanging image holds the pixels of the
    body, blended over nothing. *)
Theorem hang_keeps_body `{Libraries} (self : ButtonObject) :
  0 <= fst (self_size self) -> 0 <= snd (self_size self) ->
  get_size (self_surface self) = self_size self ->
  srcalpha (self_surface self) = true ->
  exists self1,
    RectButton._hang self = Ok self1
    /\ get_size (self_surface self1) = (fst (self_size self), snd (self_size self) + 6)
    /\ forall x y, 0 <= x < fst (self_size self) -> 0 <= y < snd (self_size self) ->
         get_at (self_surface self1) x (y + 6)
         = blend (get_at (self_surface self) x y) transparent.
Proof.
  unfold RectButton._hang, get_size. destruct (self_size self) as [w h].
  cbn [fst snd]. intros Hw Hh [= Ew Eh] Ha.
  rewrite !pygame_Surface_Ok by lia. cbn [bind].
  eexists. split; [reflexivity|]. unfold set_surface. cbn [self_surface]. split.
  - rewrite !get_width_blit, !get_height_blit. reflexivity.
  - intros x y Hx Hy.
    rewrite get_at_blit_outside
      by (rewrite !get_height_draw_rect; cbn [get_height]; lia).
    rewrite get_at_blit_outside
      by (rewrite !get_height_draw_rect; cbn [get_height]; lia).
    rewrite get_at_blit_inside
      by (try apply in_bounds_true; cbn [get_width get_height]; lia).
    rewrite Ha. replace (x - 0) with x by lia. replace (y + 6 - 6) with y by lia.
    rewrite get_at_raster.
    replace (in_bounds _ x (y + 6)) with true
      by (symmetry; apply in_bounds_true; cbn [get_width get_height]; lia).
    reflexivity.
Qed.

(** The body of a button 30 by 20. *)
Lemma hang_keeps_body_witness :
  exists self1,
    @RectButton._hang sample_libraries
      (sample_object RectButtonClass (30, 20) "ab" false false false) = Ok self1
    /\ get_size (self_surface self1) = (30, 20 + 6)
    /\ forall x y, 0 <= x < 30 -> 0 <= y < 20 ->
         get_at (self_surface self1) x (y + 6)
         = alpha_blend
             (get_at (self_surface (sample_object RectButtonClass (30, 20) "ab"
                                      false false false)) x y)
             transparent.
Proof.
  assert (Hs : self_size (sample_object RectButtonClass (30, 20) "ab" false false false)
               = (30, 20)) by (vm_compute; reflexivity).
  assert (Hg : get_size (self_surface
                 (sample_object RectButtonClass (30, 20) "ab" false false false))
               = self_size (sample_object RectButtonClass (30, 20) "ab" false false false))
    by (vm_compute; reflexivity).
  assert (Ha : srcalpha (self_surface
                 (sample_object RectButtonClass (30, 20) "ab" false false false)) = true)
    by (vm_compute; reflexivity).
  pose proof (@hang_keeps_body sample_libraries
                (sample_object RectButtonClass (30, 20) "ab" false false false)) as Hk.
  rewrite Hs in Hk. cbn [fst snd] in Hk. rewrite <- Hs in Hk at 1.
  apply Hk; [lia | lia | exact Hg | exact Ha].
Defined.

(** ** A label of plain text *)

Lemma split_on_one_line (s : string) :
  one_line s = true -> split_on "010" s = [s].
Proof.
  induction s as [|c s IH]; [reflexivity|]. cbn [one_line split_on].
  intros Hs. apply andb_true_iff in Hs as [Hc Hs]. apply negb_true_iff in Hc.
  rewrite Hc, (IH Hs). reflexivity.
Qed.

Lemma tokenize_plain (text : string) :
  brace_free text = true -> text <> "" -> RectButton.tokenize text = Ok [text].
Proof.
  intros Hb Hne. unfold RectButton.tokenize. rewrite (re_split_free text Hb).
  destruct (brace_free_not_brace text Hb) as [B1 B2].
  apply String.eqb_neq in Hne.
  cbv zeta. cbn [length seq combine fold_left bind]. unfold RectButton.tokenize_step.
  change (py_index [text] (Z.of_nat 0 - 1)) with (Ok text).
  rewrite Hne, B1. cbn [bind]. rewrite B1, B2. cbn [add_to_last rev app bind List.filter].
  change (String.append "" text) with text. rewrite Hne. reflexivity.
Qed.

(** X20: a label of plain text: for one line of text without braces that
    is no glyph token, the label is as large as the rasterised text, is
    not marked as a symbol, and holds the pixels of the rasterised text,
    blitted on the line and the line on the label. *)
Theorem plain_label_is_the_text `{Libraries} (_custom : gmap string Surface)
    (text : string) :
  surface_ok (FONT_render text) = true ->
  one_line text = true -> brace_free text = true -> text <> "" ->
  _custom !! text = None ->
  exists label,
    RectButton._build_text _custom text = Ok (label, false)
    /\ get_size label = get_size (FONT_render text)
    /\ forall x y, 0 <= x < get_width (FONT_render text) ->
         0 <= y < get_height (FONT_render text) ->
         get_at label x y
         = blend (if srcalpha (FONT_render text)
                  then blend (get_at (FONT_render text) x y) transparent
                  else opaque (get_at (FONT_render text) x y))
                 transparent.
Proof.
  intros Hok Hline Hb Hne Hk. apply surface_ok_spec in Hok as [Hw Hh].
  unfold RectButton._build_text. rewrite Hk, (split_on_one_line text Hline).
  cbn [mapM]. unfold RectButton.render_line. rewrite (tokenize_plain text Hb Hne).
  cbn [bind mapM]. unfold RectButton.render_item. rewrite Hk.
  cbn [bind fold_left]. cbv zeta.
  replace (0 + get_width (FONT_render text)) with (get_width (FONT_render text)) by lia.
  replace (Z.max 0 (get_height (FONT_render text))) with (get_height (FONT_render text))
    by lia.
  rewrite pygame_Surface_Ok by lia. cbn [bind fold_left fst].
  rewrite !get_width_blit, !get_height_blit. cbn [get_width get_height].
  replace (0 + get_height (FONT_render text)) with (get_height (FONT_render text)) by lia.
  replace (Z.max 0 (get_width (FONT_render text))) with (get_width (FONT_render text))
    by lia.
  rewrite pygame_Surface_Ok by lia. cbn [bind fold_left fst].
  rewrite Z.sub_diag. change (Z.quot 0 2) with 0.
  eexists. split; [reflexivity|]. split.
  - unfold get_size. rewrite !get_width_blit, !get_height_blit. reflexivity.
  - intros x y Hx Hy.
    rewrite get_at_blit_inside
      by (try apply in_bounds_true; rewrite ?get_width_blit, ?get_height_blit;
          cbn [get_width get_height]; lia).
    assert (Ha : forall dest source pos, srcalpha (blit dest source pos) = srcalpha dest)
      by (intros dest source [x0 y0]; reflexivity).
    rewrite Ha. cbn [srcalpha]. rewrite !Z.sub_0_r.
    rewrite get_at_blit_inside
      by (try apply in_bounds_true; cbn [get_width get_height]; lia).
    rewrite !Z.sub_0_r, !get_at_raster.
    replace (in_bounds _ x y) with true
      by (symmetry; apply in_bounds_true; cbn [get_width get_height]; lia).
    reflexivity.
Qed.

(** The label ["ab"] in the block font. *)
Lemma plain_label_is_the_text_witness :
  exists label,
    @RectButton._build_text sample_libraries sample_custom "ab" = Ok (label, false)
    /\ get_size label = get_size (block_font "ab")
    /\ forall x y, 0 <= x < get_width (block_font "ab") ->
         0 <= y < get_height (block_font "ab") ->
         get_at label x y
         = alpha_blend (if srcalpha (block_font "ab")
                        then alpha_blend (get_at (block_font "ab") x y) transparent
                        else opaque (get_at (block_font "ab") x y))
                       transparent.
Proof.
  apply (@plain_label_is_the_text sample_libraries sample_custom "ab").
  - reflexivity.
  - reflexivity.
  - reflexivity.
  - discriminate.
  - vm_compute. reflexivity.
Defined.

(** ** The style resolver *)

(** X21: the style resolver hands out lists of four values only, whatever
    the style sheet holds; a bool entry is spread over the four corners by
    [check_round], but ignored by [check_shadow], which answers with its
    default then. *)
Theorem style_resolver_normalises (_styles : StyleSheet) (object_id : option string) :
  (exists a b c d, _Style.check_round _styles object_id = PyList [a; b; c; d])
  /\ (exists a b c d, _Style.check_shadow _styles object_id = PyList [a; b; c; d])
  /\ (forall key flag, object_id = Some key ->
        styles_round _styles !! key = Some (PyBool flag) ->
        _Style.check_round _styles object_id
        = PyList [PyBool flag; PyBool flag; PyBool flag; PyBool flag])
  /\ (forall key flag, object_id = Some key ->
        styles_shadow _styles !! key = Some (PyBool flag) ->
        _Style.check_shadow _styles object_id = default_shadows).
Proof.
  split; [apply check_round_four|]. split; [apply check_shadow_four|]. split.
  - intros key flag -> Hk. unfold _Style.check_round, _Style.get_style. rewrite Hk.
    reflexivity.
  - intros key flag -> Hk. unfold _Style.check_shadow, _Style.get_style. rewrite Hk.
    reflexivity.
Qed.
